(** * CipherLens: the phishing feature extractor, scorer and explainer

    A shallow embedding of [server/utils/feature_extractor.py],
    [server/models/phishing_detector.py] and [server/models/explainer.py].

    Conventions of the embedding.
    - A Python [str] is a [string]: the model covers ASCII text, which is
      what a URL host, path and scheme are made of; [lower] folds [A-Z] only.
    - A Python [float] is an exact number: a rational ([Q]) wherever the
      code only adds, multiplies, divides and compares, a real ([R]) from
      the point where [math.exp] or [math.log2] is applied.  Rounding,
      infinities and NaN are outside this reading; the explainer, whose
      percentages are sensitive to rounding, is also read over binary64
      ([PrimFloat]).
    - [time.sleep], logging and the [initialized] flag of the two models
      change no result and are left out.
    - A Python [dict] is an association list in insertion order with the
      update-in-place behaviour of [d[k] = v].
    - An exception is a value of [exn]; code that can raise lives in the
      [result] monad and [try ... except Exception] is [catch]. *)

From Stdlib Require Import String Ascii List Bool Arith ZArith QArith.
From Stdlib Require Import Reals Qreals Lra Psatz Permutation Sorted.
From Stdlib Require Import Floats.
Import ListNotations.

Local Open Scope string_scope.
Local Open Scope list_scope.

(** ** Python built-ins used by the three modules *)

Module Py.

(** [len(s)] *)
Definition len (s : string) : nat := String.length s.

(** [s[n:]] *)
Fixpoint drop (n : nat) (s : string) : string :=
  match n, s with
  | O, _ => s
  | S _, EmptyString => EmptyString
  | S m, String _ r => drop m r
  end.

(** [s[:n]] *)
Fixpoint take (n : nat) (s : string) : string :=
  match n, s with
  | O, _ => EmptyString
  | S _, EmptyString => EmptyString
  | S m, String c r => String c (take m r)
  end.

(** [s.startswith(p)] *)
Definition startswith (s p : string) : bool := String.prefix p s.

(** [sub in s] for strings *)
Fixpoint contains (sub s : string) : bool :=
  startswith s sub ||
  match s with
  | EmptyString => false
  | String _ r => contains sub r
  end.

Definition rev_string (s : string) : string :=
  string_of_list_ascii (List.rev (list_ascii_of_string s)).

(** [s.endswith(p)] *)
Definition endswith (s p : string) : bool :=
  startswith (rev_string s) (rev_string p).

(** [s.find(sub)], [None] standing for [-1] *)
Fixpoint find (sub s : string) : option nat :=
  if startswith s sub then Some O
  else match s with
       | EmptyString => None
       | String _ r => option_map S (find sub r)
       end.

(** [s.find(c, start)] for a one-character [c] *)
Definition find_from (c : ascii) (start : nat) (s : string) : option nat :=
  option_map (fun i => (start + i)%nat) (find (String c EmptyString) (drop start s)).

(** [s.rfind(c)] for a one-character [c] *)
Fixpoint rfind_char (c : ascii) (s : string) : option nat :=
  match s with
  | EmptyString => None
  | String d r =>
      match rfind_char c r with
      | Some i => Some (S i)
      | None => if Ascii.eqb c d then Some O else None
      end
  end.

(** [s.count(c)] for a one-character [c] *)
Fixpoint count_char (c : ascii) (s : string) : nat :=
  match s with
  | EmptyString => O
  | String d r => ((if Ascii.eqb c d then 1 else 0) + count_char c r)%nat
  end.

(** [s.replace(old, new)]: every non-overlapping occurrence, left to right.
    [skip] counts the characters of an occurrence still to be passed over. *)
Fixpoint replace_from (old new : string) (skip : nat) (s : string) : string :=
  match s with
  | EmptyString => EmptyString
  | String c r =>
      match skip with
      | S k => replace_from old new k r
      | O =>
          if startswith s old
          then new ++ replace_from old new (Nat.pred (len old)) r
          else String c (replace_from old new O r)
      end
  end.

(** With an empty [old] Python puts [new] before every character and at the end. *)
Fixpoint intersperse (new s : string) : string :=
  match s with
  | EmptyString => new
  | String c r => new ++ String c (intersperse new r)
  end.

Definition replace (old new s : string) : string :=
  match old with
  | EmptyString => intersperse new s
  | _ => replace_from old new O s
  end.

(** Splitting at every character satisfying [sep]: [s.split(c)] for a
    one-character [c], and [re.split] on a character class. *)
Fixpoint split_on (sep : ascii -> bool) (s : string) : list string :=
  match s with
  | EmptyString => [EmptyString]
  | String c r =>
      if sep c then EmptyString :: split_on sep r
      else match split_on sep r with
           | [] => [String c EmptyString]
           | w :: ws => String c w :: ws
           end
  end.

Definition split (c : ascii) (s : string) : list string := split_on (Ascii.eqb c) s.

(** [s.split(c, 1)]: the text before and after the first [c] *)
Definition split_once (c : ascii) (s : string) : string * string :=
  match find (String c EmptyString) s with
  | Some i => (take i s, drop (S i) s)
  | None => (s, EmptyString)
  end.

(** [sep.join(parts)] *)
Fixpoint join (sep : string) (parts : list string) : string :=
  match parts with
  | [] => EmptyString
  | [p] => p
  | p :: ps => p ++ sep ++ join sep ps
  end.

Definition is_upper (c : ascii) : bool :=
  let n := nat_of_ascii c in (65 <=? n)%nat && (n <=? 90)%nat.
Definition is_lower (c : ascii) : bool :=
  let n := nat_of_ascii c in (97 <=? n)%nat && (n <=? 122)%nat.
Definition is_digit (c : ascii) : bool :=
  let n := nat_of_ascii c in (48 <=? n)%nat && (n <=? 57)%nat.
Definition is_alpha (c : ascii) : bool := is_upper c || is_lower c.

Definition lower_char (c : ascii) : ascii :=
  if is_upper c then ascii_of_nat (nat_of_ascii c + 32) else c.

(** [s.lower()] *)
Fixpoint lower (s : string) : string :=
  match s with
  | EmptyString => EmptyString
  | String c r => String (lower_char c) (lower r)
  end.

(** [x in xs] for a list of strings *)
Definition mem (x : string) (xs : list string) : bool :=
  existsb (String.eqb x) xs.

(** [xs[:-1]] *)
Definition init {A} (xs : list A) : list A := List.removelast xs.

(** [max(a, b)] on exact floats: the first argument is kept unless the
    second is strictly greater; [a > b] and [a < b]. *)
Definition qmax (a b : Q) : Q := if Qlt_le_dec a b then b else a.

Definition qgtb (a b : Q) : bool := if Qlt_le_dec b a then true else false.
Definition qltb (a b : Q) : bool := if Qlt_le_dec a b then true else false.

(** The same on exact reals. *)
Definition rmax (a b : R) : R := if Rlt_dec a b then b else a.
Definition rmin (a b : R) : R := if Rlt_dec b a then b else a.
Definition rgtb (a b : R) : bool := if Rlt_dec b a then true else false.

End Py.

(** ** Dictionaries *)

Module Dict.
Section WithKey.
Context {K V : Type}.
Variable eqb : K -> K -> bool.

(** [d.get(k)] *)
Fixpoint get (k : K) (d : list (K * V)) : option V :=
  match d with
  | [] => None
  | (k', v) :: r => if eqb k k' then Some v else get k r
  end.

(** [d[k] = v]: an existing key keeps its place, a new key goes last. *)
Fixpoint set (k : K) (v : V) (d : list (K * V)) : list (K * V) :=
  match d with
  | [] => [(k, v)]
  | (k', v') :: r => if eqb k k' then (k, v) :: r else (k', v') :: set k v r
  end.

(** [d.values()] *)
Definition values (d : list (K * V)) : list V := map snd d.
End WithKey.
End Dict.

Definition sget {V} := @Dict.get string V String.eqb.
Definition sset {V} := @Dict.set string V String.eqb.

(** ** [hashlib.md5]

    The digest of RFC 1321 on a byte string, used by the extractor's
    domain-age proxy.  Words are 32-bit integers in [Z] with the wrap-around
    written out ([w32]). *)

Module MD5.
Local Open Scope Z_scope.

Definition w32 (x : Z) : Z := x mod 2 ^ 32.

Definition rotl (x c : Z) : Z :=
  w32 (Z.lor (Z.shiftl x c) (Z.shiftr x (32 - c))).

Definition not32 (x : Z) : Z := Z.lxor x 4294967295.

Definition S_tab : list Z :=
  [ 7; 12; 17; 22; 7; 12; 17; 22; 7; 12; 17; 22; 7; 12; 17; 22;
    5; 9; 14; 20; 5; 9; 14; 20; 5; 9; 14; 20; 5; 9; 14; 20;
    4; 11; 16; 23; 4; 11; 16; 23; 4; 11; 16; 23; 4; 11; 16; 23;
    6; 10; 15; 21; 6; 10; 15; 21; 6; 10; 15; 21; 6; 10; 15; 21 ].

Definition K_tab : list Z :=
  [ 3614090360; 3905402710; 606105819; 3250441966;
    4118548399; 1200080426; 2821735955; 4249261313;
    1770035416; 2336552879; 4294925233; 2304563134;
    1804603682; 4254626195; 2792965006; 1236535329;
    4129170786; 3225465664; 643717713; 3921069994;
    3593408605; 38016083; 3634488961; 3889429448;
    568446438; 3275163606; 4107603335; 1163531501;
    2850285829; 4243563512; 1735328473; 2368359562;
    4294588738; 2272392833; 1839030562; 4259657740;
    2763975236; 1272893353; 4139469664; 3200236656;
    681279174; 3936430074; 3572445317; 76029189;
    3654602809; 3873151461; 530742520; 3299628645;
    4096336452; 1126891415; 2878612391; 4237533241;
    1700485571; 2399980690; 4293915773; 2240044497;
    1873313359; 4264355552; 2734768916; 1309151649;
    4149444226; 3174756917; 718787259; 3951481745 ].

Definition bytes_of_string (s : string) : list Z :=
  map (fun c => Z.of_nat (nat_of_ascii c)) (list_ascii_of_string s).

(** Little-endian bytes of [x], [n] of them. *)
Fixpoint le_bytes (n : nat) (x : Z) : list Z :=
  match n with
  | O => []
  | S m => x mod 256 :: le_bytes m (x / 256)
  end.

(** The value of a little-endian byte list. *)
Fixpoint le_value (bs : list Z) : Z :=
  match bs with
  | [] => 0
  | b :: r => b + 256 * le_value r
  end.

(** The value of a big-endian byte list. *)
Definition be_value (bs : list Z) : Z :=
  fold_left (fun acc b => 256 * acc + b) bs 0.

(** Message, the byte 0x80, zeros up to 56 modulo 64, and the bit length on
    eight bytes. *)
Definition pad (msg : list Z) : list Z :=
  let n := Z.of_nat (List.length msg) in
  let zeros := Z.to_nat ((55 - n) mod 64) in
  msg ++ [128] ++ repeat 0 zeros ++ le_bytes 8 ((8 * n) mod 2 ^ 64).

(** The sixteen words of each 64-byte block. *)
Fixpoint words (k : nat) (bs : list Z) : list Z :=
  match k with
  | O => []
  | S m => le_value (firstn 4 bs) :: words m (skipn 4 bs)
  end.

Fixpoint blocks (fuel : nat) (bs : list Z) : list (list Z) :=
  match fuel, bs with
  | O, _ => []
  | _, [] => []
  | S f, _ => words 16 (firstn 64 bs) :: blocks f (skipn 64 bs)
  end.

Definition state := (Z * Z * Z * Z)%type.

Definition step (M : list Z) (st : state) (i : Z) : state :=
  let '(A, B, C, D) := st in
  let '(F, g) :=
    if i <? 16 then (Z.lor (Z.land B C) (Z.land (not32 B) D), i)
    else if i <? 32 then (Z.lor (Z.land D B) (Z.land (not32 D) C), (5 * i + 1) mod 16)
    else if i <? 48 then (Z.lxor (Z.lxor B C) D, (3 * i + 5) mod 16)
    else (Z.lxor C (Z.lor B (not32 D)), (7 * i) mod 16) in
  let F' := w32 (F + A + nth (Z.to_nat i) K_tab 0 + nth (Z.to_nat g) M 0) in
  (D, w32 (B + rotl F' (nth (Z.to_nat i) S_tab 0)), B, C).

Definition rounds : list Z := map Z.of_nat (seq 0 64).

Definition process (st : state) (M : list Z) : state :=
  let '(a0, b0, c0, d0) := st in
  let '(A, B, C, D) := fold_left (step M) rounds st in
  (w32 (a0 + A), w32 (b0 + B), w32 (c0 + C), w32 (d0 + D)).

Definition init : state := (1732584193, 4023233417, 2562383102, 271733878).

(** [hashlib.md5(bs).digest()] *)
Definition digest (msg : list Z) : list Z :=
  let padded := pad msg in
  let '(a, b, c, d) := fold_left process (blocks (List.length padded) padded) init in
  le_bytes 4 a ++ le_bytes 4 b ++ le_bytes 4 c ++ le_bytes 4 d.

(** [int(hashlib.md5(s.encode()).hexdigest(), 16)] *)
Definition hexdigest_int (s : string) : Z := be_value (digest (bytes_of_string s)).

End MD5.


(** ** Exceptions *)

Inductive exn : Type :=
| ValueError (msg : string)
| KeyError (key : string).

Inductive result (A : Type) : Type :=
| Ok (a : A)
| Raise (e : exn).
Arguments Ok {A} a.
Arguments Raise {A} e.

Definition bind {A B} (m : result A) (k : A -> result B) : result B :=
  match m with
  | Ok a => k a
  | Raise e => Raise e
  end.

(** [try: m  except Exception: return handler] *)
Definition catch {A} (m : result A) (handler : A) : A :=
  match m with
  | Ok a => a
  | Raise _ => handler
  end.

Notation "x <- m ;; k" := (bind m (fun x => k))
  (at level 61, m at next level, right associativity).
Notation "' pat <- m ;; k" := (bind m (fun x => let 'pat := x in k))
  (at level 61, pat pattern, m at next level, right associativity).

(** Checks that [urllib.parse] hands to other parts of the Python library:
    [ipaddress] and the IPvFuture pattern for a host written in brackets, and
    [unicodedata.normalize] for a netloc that is not ASCII.  Each answers
    whether the check passes; the model is stated for every such library. *)
Record PyLib : Type := {
  bracketed_host_ok : string -> bool;
  nfkc_netloc_ok : string -> bool
}.

(** A library whose two checks always fail: every bracketed host and every
    netloc outside ASCII is refused. *)
Definition strict_lib : PyLib :=
  {| bracketed_host_ok := fun _ => false; nfkc_netloc_ok := fun _ => false |}.

(** ** [urllib.parse.urlparse] *)

Module UrlParse.

Record ParseResult : Type := {
  scheme : string;
  netloc : string;
  path : string;
  params : string;
  query : string;
  fragment : string
}.

Definition TAB : ascii := ascii_of_nat 9.
Definition LF : ascii := ascii_of_nat 10.
Definition CR : ascii := ascii_of_nat 13.
Definition str (c : ascii) : string := String c EmptyString.

Definition uses_params : list string :=
  [""; "ftp"; "hdl"; "prospero"; "http"; "imap"; "https"; "shttp"; "rtsp";
   "rtspu"; "sip"; "sips"; "mms"; "sftp"; "tel"].

Definition scheme_char (c : ascii) : bool :=
  Py.is_alpha c || Py.is_digit c || Py.contains (str c) "+-.".

Definition is_ascii (s : string) : bool :=
  forallb (fun c => (nat_of_ascii c <? 128)%nat) (list_ascii_of_string s).

(** [url.lstrip(_WHATWG_C0_CONTROL_OR_SPACE)] *)
Fixpoint lstrip_c0 (s : string) : string :=
  match s with
  | EmptyString => EmptyString
  | String c r => if (nat_of_ascii c <=? 32)%nat then lstrip_c0 r else s
  end.

Definition remove_unsafe (url : string) : string :=
  fold_left (fun u b => Py.replace (str b) "" u) [TAB; CR; LF] url.

Definition _splitparams (url : string) : string * string :=
  if Py.contains "/" url then
    match Py.rfind_char "/" url with
    | Some k =>
        match Py.find_from ";" k url with
        | Some i => (Py.take i url, Py.drop (S i) url)
        | None => (url, "")
        end
    | None => (url, "")
    end
  else
    match Py.find ";" url with
    | Some i => (Py.take i url, Py.drop (S i) url)
    | None => (url, "")
    end.

Definition _splitnetloc (url : string) (start : nat) : string * string :=
  let delim :=
    fold_left
      (fun delim c =>
         match Py.find_from c start url with
         | Some wdelim => Nat.min delim wdelim
         | None => delim
         end)
      ["/"%char; "?"%char; "#"%char] (Py.len url) in
  (Py.take (delim - start) (Py.drop start url), Py.drop delim url).

(** [s.rpartition('@')[2]] *)
Definition after_last (c : ascii) (s : string) : string :=
  match Py.rfind_char c s with
  | Some i => Py.drop (S i) s
  | None => s
  end.

Section WithLib.
Variable lib : PyLib.

Definition _check_bracketed_host (hostname : string) : result unit :=
  if bracketed_host_ok lib hostname then Ok tt
  else Raise (ValueError "invalid bracketed host").

Definition _check_bracketed_netloc (netloc : string) : result unit :=
  let hostname_and_port := after_last "@" netloc in
  match Py.find "[" hostname_and_port with
  | Some i =>
      let before_bracket := Py.take i hostname_and_port in
      let bracketed := Py.drop (S i) hostname_and_port in
      if negb (String.eqb before_bracket "") then Raise (ValueError "Invalid IPv6 URL")
      else
        let hostname := fst (Py.split_once "]" bracketed) in
        let port := snd (Py.split_once "]" bracketed) in
        if negb (String.eqb port "") && negb (Py.startswith port ":")
        then Raise (ValueError "Invalid IPv6 URL")
        else _check_bracketed_host hostname
  | None => _check_bracketed_host (fst (Py.split_once ":" hostname_and_port))
  end.

Definition _checknetloc (netloc : string) : result unit :=
  if String.eqb netloc "" || is_ascii netloc then Ok tt
  else if nfkc_netloc_ok lib netloc then Ok tt
  else Raise (ValueError "netloc contains invalid characters under NFKC normalization").

(** [urlsplit(url)]: scheme, netloc, path, query, fragment *)
Definition urlsplit (url : string) : result (string * string * string * string * string) :=
  let url := lstrip_c0 url in
  let url := remove_unsafe url in
  let '(scheme, url) :=
    match Py.find ":" url with
    | Some (S i) =>
        if match url with String c _ => Py.is_alpha c | EmptyString => false end
           && forallb scheme_char (list_ascii_of_string (Py.take (S i) url))
        then (Py.lower (Py.take (S i) url), Py.drop (S (S i)) url)
        else ("", url)
    | _ => ("", url)
    end in
  '(netloc, url) <-
    (if String.eqb (Py.take 2 url) "//" then
       let '(netloc, url) := _splitnetloc url 2 in
       let open := Py.contains "[" netloc in
       let close := Py.contains "]" netloc in
       if (open && negb close) || (close && negb open)
       then Raise (ValueError "Invalid IPv6 URL")
       else
         _ <- (if open && close then _check_bracketed_netloc netloc else Ok tt) ;;
         Ok (netloc, url)
     else Ok ("", url)) ;;
  let '(url, fragment) :=
    if Py.contains "#" url then Py.split_once "#" url else (url, "") in
  let '(url, query) :=
    if Py.contains "?" url then Py.split_once "?" url else (url, "") in
  _ <- _checknetloc netloc ;;
  Ok (scheme, netloc, url, query, fragment).

Definition urlparse (url : string) : result ParseResult :=
  '(scheme, netloc, url, query, fragment) <- urlsplit url ;;
  let '(url, params) :=
    if Py.mem scheme uses_params && Py.contains ";" url
    then _splitparams url else (url, "") in
  Ok {| scheme := scheme; netloc := netloc; path := url;
        params := params; query := query; fragment := fragment |}.
End WithLib.

End UrlParse.

(** ** [server/utils/feature_extractor.py] *)

Module FeatureExtractor.
Local Open Scope Q_scope.

Definition suspicious_tlds : list string :=
  [".xyz"; ".top"; ".gq"; ".ml"; ".ga"; ".cf"; ".tk"; ".info";
   ".work"; ".pro"; ".men"; ".loan"; ".click"; ".date"; ".racing";
   ".online"; ".stream"; ".win"; ".review"; ".vip"; ".party"; ".shop";
   ".gdn"; ".bid"; ".accountant"; ".website"; ".space"].

Definition popular_brands : list string :=
  ["paypal"; "apple"; "microsoft"; "amazon"; "netflix"; "facebook";
   "google"; "instagram"; "twitter"; "gmail"; "wellsfargo"; "chase";
   "bankofamerica"; "bank"; "coinbase"; "blockchain"; "linkedin";
   "dropbox"; "yahoo"; "instagram"; "spotify"; "steam"; "github";
   "outlook"; "hotmail"; "netflix"; "office365"; "protonmail"].

Definition tld_substitutions : list (string * list string) :=
  [(".com", [".cm"; ".co"; ".om"; ".commm"; ".comm"; ".com-secure"; ".con"]);
   (".org", [".ogr"; ".or"; ".arg"; ".orgg"]);
   (".net", [".ner"; ".ne"; ".nt"; ".nett"]);
   (".edu", [".ed"; ".eu"; ".eddu"]);
   (".gov", [".gv"; ".goo"; ".gou"; ".goc"])].

(** *** Regular expressions, as backtracking matchers

    A matcher maps the text still to be read to the list of texts that may
    remain after a match, one per way of matching. *)

Definition matcher := string -> list string.

Definition m_char (p : ascii -> bool) : matcher :=
  fun s => match s with
           | String c r => if p c then [r] else []
           | EmptyString => []
           end.

Definition m_seq (a b : matcher) : matcher := fun s => flat_map b (a s).

(** [a{lo,hi}] with [hi = lo + extra] *)
Fixpoint m_upto (a : matcher) (extra : nat) : matcher :=
  fun s =>
    match extra with
    | O => [s]
    | S k => flat_map (m_upto a k) (a s) ++ [s]
    end.

Fixpoint m_times (a : matcher) (n : nat) : matcher :=
  fun s =>
    match n with
    | O => [s]
    | S k => flat_map (m_times a k) (a s)
    end.

Definition m_range (a : matcher) (lo extra : nat) : matcher :=
  m_seq (m_times a lo) (m_upto a extra).

(** [$]: the end of the text, or the place before a final newline *)
Definition at_dollar (s : string) : bool :=
  String.eqb s "" || String.eqb s (UrlParse.str UrlParse.LF).

(** [^\d{1,3}\.\d{1,3}\.\d{1,3}\.\d{1,3}$] under [re.match] *)
Definition _has_ip_address (domain : string) : bool :=
  let digits := m_range (m_char Py.is_digit) 1 2 in
  let dot := m_char (Ascii.eqb ".") in
  existsb at_dollar
    (m_seq digits (m_seq dot (m_seq digits (m_seq dot
       (m_seq digits (m_seq dot digits))))) domain).

Definition _has_suspicious_tld (domain : string) : bool :=
  existsb (Py.endswith domain) suspicious_tlds.

Fixpoint zip_matches (s1 s2 : string) : nat :=
  match s1, s2 with
  | String c1 r1, String c2 r2 =>
      ((if Ascii.eqb c1 c2 then 1 else 0) + zip_matches r1 r2)%nat
  | _, _ => O
  end.

Definition _string_similarity (s1 s2 : string) : Q :=
  if String.eqb s1 "" || String.eqb s2 "" then 0.0
  else
    let s1 := Py.lower s1 in
    let s2 := Py.lower s2 in
    let matches := zip_matches s1 s2 in
    let max_length := Nat.max (Py.len s1) (Py.len s2) in
    if (0 <? max_length)%nat
    then inject_Z (Z.of_nat matches) / inject_Z (Z.of_nat max_length)
    else 0.0.

Definition homograph_mappings : list (string * string) :=
  [("0", "o"); ("1", "l"); ("3", "e"); ("4", "a"); ("5", "s"); ("6", "b");
   ("7", "t"); ("rn", "m"); ("cl", "d"); ("vv", "w"); ("goog1e", "google");
   ("paypai", "paypal")].

Definition security_terms : list string :=
  ["secure"; "login"; "verify"; "account"; "signin"; "update"; "confirm"].

Definition _check_brand_impersonation (domain path : string) : Q :=
  let clean_domain := Py.lower domain in
  let clean_domain :=
    fold_left (fun d tld => Py.replace tld "" d)
      ([".com"; ".org"; ".net"; ".edu"; ".gov"; ".io"; ".co"; ".us"; ".ca"; ".uk"]
         ++ suspicious_tlds) clean_domain in
  let clean_domain := Py.replace "www." "" clean_domain in
  let domain_parts :=
    Py.split_on (fun c => Ascii.eqb c "." || Ascii.eqb c "-") clean_domain in
  let mapped_domain_parts :=
    map (fun part =>
           fold_left (fun mapped_part kv => Py.replace (fst kv) (snd kv) mapped_part)
             homograph_mappings part)
      domain_parts in
  let parts_to_check := domain_parts ++ mapped_domain_parts in
  let brand_in_domain :=
    existsb
      (fun brand =>
         Py.mem brand parts_to_check ||
         existsb
           (fun part =>
              (3 <? Py.len part)%nat && (3 <? Py.len brand)%nat &&
              Py.qgtb (_string_similarity part brand) 0.8)
           parts_to_check)
      popular_brands in
  let brand_in_domain :=
    if negb brand_in_domain then
      existsb
        (fun brand =>
           existsb
             (fun part => (Py.len brand <? Py.len part)%nat && Py.contains brand part)
             parts_to_check)
        popular_brands
    else brand_in_domain in
  let brand_in_domain :=
    if negb brand_in_domain && (2 <=? Py.count_char "." domain)%nat then
      existsb
        (fun brand =>
           let brand_domain_pattern := (brand ++ ".com")%string in
           Py.contains brand_domain_pattern domain &&
           negb (String.eqb domain ("www." ++ brand_domain_pattern)%string) &&
           negb (String.eqb domain brand_domain_pattern))
        popular_brands
    else brand_in_domain in
  let path_parts := Py.split "/" (Py.lower path) in
  let path_score :=
    fold_left
      (fun path_score brand =>
         if Py.contains brand (Py.lower path) then
           let path_score :=
             if existsb
                  (fun term =>
                     Py.mem term path_parts ||
                     Py.contains (term ++ "-" ++ brand)%string (Py.lower path) ||
                     Py.contains (brand ++ "-" ++ term)%string (Py.lower path))
                  security_terms
             then 0.9 else path_score in
           if Py.qltb path_score 0.5 then 0.7 else path_score
         else path_score)
      popular_brands 0.0 in
  if brand_in_domain then 0.9
  else if Py.qgtb path_score 0.5 then path_score
  else 0.0.

Definition redirect_patterns : list string :=
  ["url="; "redirect="; "link="; "goto="; "to="; "target="; "u="; "r=";
   "return="; "return_to="; "returnto="; "return-to="; "cgi-bin/redirect.cgi";
   "out/"; "window.location="; ".php?url="; "redir/"; "redirect/"; "go/";
   "out?"; "transfer"; "linkto="; "visit="; "forward="; "navigate="; ".php?"].

(** [re.search] of a matcher: a match starting at some position *)
Fixpoint search (m : matcher) (ok : string -> bool) (s : string) : bool :=
  existsb ok (m s) ||
  match s with
  | EmptyString => false
  | String _ r => search m ok r
  end.

Definition m_lit (lit : string) : matcher :=
  fun s => if Py.startswith s lit then [Py.drop (Py.len lit) s] else [].

Definition m_alt (ms : list matcher) : matcher :=
  fun s => flat_map (fun m => m s) ms.

(** [(https?:|url=|redirect=)] *)
Definition m_marker : matcher :=
  m_alt [m_lit "http:"; m_lit "https:"; m_lit "url="; m_lit "redirect="].

(** [.*?] followed by [next]: [.] is any character but a newline *)
Fixpoint dots_then (next : matcher) (s : string) : list string :=
  next s ++
  match s with
  | EmptyString => []
  | String c r => if Ascii.eqb c UrlParse.LF then [] else dots_then next r
  end.

(** [(https?:|url=|redirect=).*?(https?:|url=|redirect=)] *)
Definition chained_markers : matcher := m_seq m_marker (dots_then m_marker).

Definition is_base64_char (c : ascii) : bool :=
  Py.is_alpha c || Py.is_digit c || Ascii.eqb c "+" || Ascii.eqb c "/".

(** [a{n,}]: [n] times, then as many more as wanted *)
Fixpoint m_star (a : matcher) (fuel : nat) : matcher :=
  fun s =>
    match fuel with
    | O => [s]
    | S k => flat_map (m_star a k) (a s) ++ [s]
    end.

(** [[a-zA-Z0-9+/]{30,}={0,2}], to be followed by [(?:[&?]|$)] *)
Definition base64_run : matcher :=
  fun s =>
    m_seq (m_times (m_char is_base64_char) 30)
      (m_seq (m_star (m_char is_base64_char) (Py.len s))
         (m_upto (m_char (Ascii.eqb "=")) 2)) s.

Definition amp_or_end (s : string) : bool :=
  match s with
  | String c _ => Ascii.eqb c "&" || Ascii.eqb c "?" || at_dollar s
  | EmptyString => true
  end.

Definition _check_redirect_patterns (url : string) : Q :=
  let has_encoded_url := Py.contains "http%3A" url || Py.contains "https%3A" url in
  let has_multiple_redirects := search chained_markers (fun _ => true) url in
  let has_base64 := search base64_run amp_or_end url in
  if existsb (fun pattern => Py.contains pattern (Py.lower url)) redirect_patterns then
    if has_encoded_url || has_base64 || has_multiple_redirects then 0.9 else 0.8
  else if has_encoded_url then 0.7
  else if has_base64 then 0.6
  else if has_multiple_redirects then 0.7
  else 0.0.

(** The character frequencies of [text], in order of first occurrence. *)
Definition char_count (text : string) : list (ascii * nat) :=
  fold_left
    (fun counts char =>
       Dict.set Ascii.eqb char
         (match Dict.get Ascii.eqb char counts with Some n => n | None => O end + 1)%nat
         counts)
    (list_ascii_of_string text) [].

(** [math.log2] *)
Definition log2 (x : R) : R := (ln x / ln 2)%R.

Definition _calculate_entropy (text : string) : R :=
  if String.eqb text "" then 0%R
  else
    let length := INR (Py.len text) in
    fold_left
      (fun entropy count =>
         let probability := (INR count / length)%R in
         (entropy - probability * log2 probability)%R)
      (Dict.values (char_count text)) 0%R.

Definition _check_deceptive_hostname (domain : string) : Q :=
  let domain := Py.replace "www." "" (Py.lower domain) in
  let parts := Py.split "." domain in
  let has_tld_in_name :=
    existsb (fun tld => Py.contains ("." ++ Py.drop 1 tld)%string domain)
      (suspicious_tlds ++ [".com"; ".org"; ".net"]) in
  let subdomain_entropy :=
    if (1 <? List.length parts)%nat then _calculate_entropy (hd "" parts) else 0%R in
  let has_high_entropy := Py.rgtb subdomain_entropy 3.5%R in
  let is_long_domain := (30 <? Py.len domain)%nat in
  let domain_without_tld :=
    if (1 <? List.length parts)%nat then Py.join "." (Py.init parts) else hd "" parts in
  let tld :=
    if (1 <? List.length parts)%nat then ("." ++ last parts "")%string else "" in
  let has_misleading_tld :=
    existsb
      (fun sub : string * list string =>
         existsb
           (fun brand => String.eqb domain_without_tld brand && Py.mem tld (snd sub))
           popular_brands)
      tld_substitutions in
  let score := 0.0 in
  let score := if has_misleading_tld then Py.qmax score 1.0 else score in
  let score := if has_tld_in_name then Py.qmax score 0.9 else score in
  if has_high_entropy && is_long_domain then Py.qmax score 0.8
  else if has_high_entropy then Py.qmax score 0.7
  else if is_long_domain then Py.qmax score 0.5
  else score.

Definition features := list (string * Q).

(** The domain-age proxy: [int(hashlib.md5(domain.encode()).hexdigest(), 16) % 100] *)
Definition domain_hash (domain : string) : Z := (MD5.hexdigest_int domain mod 100)%Z.

(** [d[key]] as an expression *)
Definition index (key : string) (d : features) : result Q :=
  match sget key d with
  | Some v => Ok v
  | None => Raise (KeyError key)
  end.

(** The [try] block of [extract_from_url] after the call of [urlparse]. *)
Definition extract_parsed (url : string) (parsed_url : UrlParse.ParseResult)
  : result features :=
  let features : features := [] in
  let domain := Py.lower (UrlParse.netloc parsed_url) in
  let path := Py.lower (UrlParse.path parsed_url) in
  let features := sset "hasIPAddress" (if _has_ip_address domain then 1.0 else 0.0) features in
  let features :=
    sset "urlLength"
      (if (100 <? Py.len url)%nat then 1.0
       else if (75 <? Py.len url)%nat then 0.8
       else if (50 <? Py.len url)%nat then 0.5
       else 0.0) features in
  let features := sset "hasAtSymbol" (if Py.contains "@" url then 1.0 else 0.0) features in
  let subdomain_count := Py.count_char "." domain in
  let features :=
    sset "hasManySubdomains"
      (if (3 <? subdomain_count)%nat then 1.0
       else if (2 <? subdomain_count)%nat then 0.7
       else 0.0) features in
  let features :=
    sset "hasSuspiciousTLD" (if _has_suspicious_tld domain then 1.0 else 0.0) features in
  let brand_score := _check_brand_impersonation domain path in
  let features := sset "hasBrandImpersonation" brand_score features in
  let hyphen_count := Py.count_char "-" domain in
  let features :=
    sset "hasHyphens"
      (if (2 <? hyphen_count)%nat then 1.0
       else if (1 <? hyphen_count)%nat then 0.7
       else if (hyphen_count =? 1)%nat then 0.3
       else 0.0) features in
  let redirect_score := _check_redirect_patterns url in
  let features := sset "hasRedirectPattern" redirect_score features in
  let deceptive_score := _check_deceptive_hostname domain in
  let features := sset "hasDeceptiveHostname" deceptive_score features in
  let features :=
    sset "isNotHttps"
      (if String.eqb (UrlParse.scheme parsed_url) "https" then 0.0 else 1.0) features in
  let features := sset "hasCertificateIssues" 0.0 features in
  let domain_hash := domain_hash domain in
  let features :=
    sset "domainAge"
      (if existsb (fun brand => Py.contains brand domain) popular_brands
          && (domain_hash <? 80)%Z
       then (if (domain_hash <? 60)%Z then 0.8 else 0.5)
       else 0.0) features in
  domainAge <- index "domainAge" features ;;
  let features := sset "lowAlexaRank" domainAge features in
  Ok features.

Section WithLib.
Variable lib : PyLib.

(** What the [try] block of [extract_from_url] computes. *)
Definition extract_from_url_try (url : string) : result features :=
  parsed_url <- UrlParse.urlparse lib url ;;
  extract_parsed url parsed_url.

(** [extract_from_url]: the empty mapping when the block raises. *)
Definition extract_from_url (url : string) : features :=
  catch (extract_from_url_try url) [].
End WithLib.

End FeatureExtractor.

(** [sorted(xs, key=key, reverse=True)] and [xs.sort(key=key, reverse=True)]:
    descending and stable, equal keys keeping their order.  [gtb] is [>] on
    the keys. *)
Section SortDesc.
Context {A K : Type}.
Variable gtb : K -> K -> bool.
Variable key : A -> K.

Fixpoint insert_desc (x : A) (l : list A) : list A :=
  match l with
  | [] => [x]
  | y :: r => if gtb (key y) (key x) then y :: insert_desc x r else x :: l
  end.

Definition sort_desc (l : list A) : list A := fold_right insert_desc [] l.
End SortDesc.

(** The order of a descending list of exact keys. *)
Definition desc {A : Type} (key : A -> Q) (a b : A) : Prop := (key b <= key a)%Q.

(** ** [server/models/phishing_detector.py] *)

Module PhishingDetector.
Local Open Scope Q_scope.

Definition feature_weights : list (string * Q) :=
  [("hasIPAddress", 0.95); ("urlLength", 0.5); ("hasAtSymbol", 0.8);
   ("hasManySubdomains", 0.8); ("hasSuspiciousTLD", 0.9); ("hasHyphens", 0.6);
   ("hasBrandImpersonation", 0.95); ("hasRedirectPattern", 0.8);
   ("hasDeceptiveHostname", 0.95);
   ("hasPasswordField", 0.8); ("hasSensitiveKeywords", 0.7);
   ("mismatchedFormAction", 0.95); ("hasLoginForm", 0.7);
   ("hasExternalScripts", 0.7); ("hasObfuscatedCode", 0.85);
   ("hasFaviconMismatch", 0.8); ("hasHiddenElements", 0.8);
   ("isNotHttps", 0.85); ("hasCertificateIssues", 0.9); ("domainAge", 0.8);
   ("lowAlexaRank", 0.7)].

Definition critical_features : list string :=
  ["hasIPAddress"; "hasBrandImpersonation"; "mismatchedFormAction";
   "hasDeceptiveHostname"; "isNotHttps"].

(** [self.feature_weights.get(feature, 0)] *)
Definition weight_of (feature : string) : Q :=
  match sget feature feature_weights with
  | Some w => w
  | None => 0
  end.

Inductive ThreatLevel : Type := Low | Medium | High.

Record Verdict : Type := {
  isPhishing : bool;
  score : R;
  confidence : R;
  explanations : list string;
  threatLevel : ThreatLevel;
  topFeatures : list string
}.

Definition _get_threat_level (score : R) : ThreatLevel :=
  if Rlt_dec score 0.25 then Low
  else if Rlt_dec score 0.55 then Medium
  else High.

Definition feature_explanations : list (string * string) :=
  [("hasIPAddress", "Website uses an IP address instead of a domain name (common phishing tactic)");
   ("urlLength", "Unusually long URL that may be hiding redirects or suspicious parameters");
   ("hasAtSymbol", "URL contains @ symbol which can be used to hide the actual destination");
   ("hasManySubdomains", "URL has multiple subdomains, often used to create legitimate-looking URLs");
   ("hasSuspiciousTLD", "Website uses a suspicious or uncommon top-level domain associated with phishing");
   ("hasHyphens", "Domain contains multiple hyphens, common in fake domains");
   ("hasBrandImpersonation", "URL contains a popular brand name but isn't the official domain");
   ("hasRedirectPattern", "URL contains redirection patterns that may lead to malicious sites");
   ("hasDeceptiveHostname", "Hostname designed to look like a legitimate website");
   ("hasPasswordField", "Page contains password input fields requesting sensitive information");
   ("hasLoginForm", "Page contains login form that may be collecting credentials");
   ("hasSensitiveKeywords", "Page contains keywords related to account verification or financial information");
   ("mismatchedFormAction", "Form submits data to a different domain than the current website");
   ("hasExternalScripts", "Page loads scripts from suspicious external domains");
   ("hasObfuscatedCode", "Page contains hidden or obfuscated code potentially hiding malicious behavior");
   ("hasFaviconMismatch", "Website favicon doesn't match the claimed brand identity");
   ("hasHiddenElements", "Page contains hidden elements that may be collecting data");
   ("isNotHttps", "Website does not use secure HTTPS connection");
   ("hasCertificateIssues", "Website has SSL certificate issues or mismatches");
   ("domainAge", "Domain was registered very recently (common for phishing sites)");
   ("lowAlexaRank", "Website has very low popularity/traffic, unusual for legitimate services")].

Definition _get_feature_explanation (feature : string) : string :=
  match sget feature feature_explanations with
  | Some e => e
  | None => feature
  end.

(** The variables of the scoring loop of [predict]. *)
Record acc : Type := {
  acc_score : Q;
  acc_total_weight : Q;
  acc_contributions : list (string * Q)
}.

(** One iteration of [for feature, value in features.items()]. *)
Definition loop_body (st : acc) (item : string * Q) : acc :=
  let '(feature, value) := item in
  let weight := weight_of feature in
  let contribution :=
    if Py.mem feature critical_features && Py.qgtb value 0.5
    then value * weight * 1.5
    else value * weight in
  {| acc_score := acc_score st + contribution;
     acc_total_weight := acc_total_weight st + weight;
     acc_contributions := sset feature contribution (acc_contributions st) |}.

Definition scoring_loop (features : list (string * Q)) : acc :=
  fold_left loop_body features
    {| acc_score := 0; acc_total_weight := 0; acc_contributions := [] |}.

(** The normalised score, before the sigmoid. *)
Definition raw_score (features : list (string * Q)) : Q :=
  let st := scoring_loop features in
  if Py.qgtb (acc_total_weight st) 0
  then acc_score st / acc_total_weight st
  else 0.

(** [1 / (1 + math.exp(-12 * (score - 0.4)))] *)
Definition sigmoid (score : R) : R := (1 / (1 + exp (-12 * (score - 0.4))))%R.

Definition suspicious_count (features : list (string * Q)) : nat :=
  List.length
    (filter (fun item : string * Q =>
               Py.qgtb (snd item) 0.5 && Py.qgtb (weight_of (fst item)) 0.7)
       features).

(** The score returned by [predict]: sigmoid, then the combination bonus. *)
Definition final_score (features : list (string * Q)) : R :=
  let score := sigmoid (Q2R (raw_score features)) in
  let suspicious_count := suspicious_count features in
  if (3 <=? suspicious_count)%nat
  then Py.rmin (score + IZR (Z.of_nat suspicious_count - 2) * 0.1)%R 1.0%R
  else score.

Definition predict (features : list (string * Q)) : Verdict :=
  let st := scoring_loop features in
  let score := final_score features in
  let contributing_features :=
    sort_desc Py.qgtb snd
      (filter (fun fc : string * Q => Py.qgtb (snd fc) 0) (acc_contributions st)) in
  let top_explanations :=
    map (fun fc => _get_feature_explanation (fst fc)) (firstn 5 contributing_features) in
  let is_phishing := Py.rgtb score 0.45%R in
  {| isPhishing := is_phishing;
     score := score;
     confidence :=
       if is_phishing
       then Py.rmin (Py.rmax (Rabs (score - 0.5) * 2)%R 0.6%R) 0.99%R
       else Py.rmin (Rabs (score - 0.5) * 2)%R 0.99%R;
     explanations := top_explanations;
     threatLevel := _get_threat_level score;
     topFeatures := map fst (firstn 5 contributing_features) |}.

End PhishingDetector.

(** ** [server/models/explainer.py]

    The explainer is read twice: over exact rationals, as the rest of the
    development, and over binary64, to see what rounding does to the sum of
    its percentages.  [Arith] is the arithmetic the code uses. *)

Module Explainer.

Record Arith : Type := {
  num : Type;
  zero : num;
  hundred : num;
  add : num -> num -> num;
  div : num -> num -> num;
  mul : num -> num -> num;
  gtb : num -> num -> bool
}.

Definition exact : Arith :=
  {| num := Q; zero := 0%Q; hundred := 100%Q;
     add := Qplus; div := Qdiv; mul := Qmult; gtb := Py.qgtb |}.

Definition binary64 : Arith :=
  {| num := PrimFloat.float; zero := 0%float; hundred := 100%float;
     add := PrimFloat.add; div := PrimFloat.div; mul := PrimFloat.mul;
     gtb := fun a b => PrimFloat.ltb b a |}.

Definition feature_descriptions : list (string * string) :=
  [("hasIPAddress", "Use of IP address in URL");
   ("urlLength", "Unusually long URL");
   ("hasAtSymbol", "URL contains @ symbol");
   ("hasManySubdomains", "Multiple subdomains");
   ("hasSuspiciousTLD", "Suspicious top-level domain");
   ("hasHyphens", "Multiple hyphens in domain");
   ("hasPasswordField", "Password input field");
   ("hasSensitiveKeywords", "Sensitive keywords");
   ("mismatchedFormAction", "Form submits to different domain");
   ("isNotHttps", "Non-secure connection");
   ("hasCertificateIssues", "SSL certificate issues")].

Section WithArith.
Variable F : Arith.

Record ExplanationItem : Type := {
  feature : string;
  description : string;
  attribution : num F;
  value : num F
}.

(** The first loop: the positive values and their running total. *)
Definition collect (features : list (string * num F)) : list (string * num F) * num F :=
  fold_left
    (fun (st : list (string * num F) * num F) (item : string * num F) =>
       let '(attributions, total_attribution) := st in
       let '(feature, value) := item in
       if gtb F value (zero F)
       then (sset feature value attributions, add F total_attribution value)
       else st)
    features ([], zero F).

(** [(attribution / total_attribution) * 100] under its key *)
Definition percent (total_attribution : num F) (item : string * num F) : string * num F :=
  (fst item, mul F (div F (snd item) total_attribution) (hundred F)).

(** The second loop: percentages of the total. *)
Definition normalize (attributions : list (string * num F)) (total_attribution : num F)
  : list (string * num F) :=
  if gtb F total_attribution (zero F)
  then fold_left
         (fun normalized (item : string * num F) =>
            sset (fst item) (snd (percent total_attribution item)) normalized)
         attributions []
  else [].

(** One entry of the list comprehension over [normalized_attributions]. *)
Definition item_of (features : list (string * num F)) (item : string * num F)
  : ExplanationItem :=
  {| feature := fst item;
     description :=
       match sget (fst item) feature_descriptions with
       | Some d => d
       | None => fst item
       end;
     attribution := snd item;
     value := match sget (fst item) features with Some v => v | None => zero F end |}.

Definition explain_prediction (features : list (string * num F)) (explainer_type : string)
  : list ExplanationItem :=
  let '(attributions, total_attribution) := collect features in
  let normalized_attributions := normalize attributions total_attribution in
  let sorted_explanations := map (item_of features) normalized_attributions in
  sort_desc (gtb F) attribution sorted_explanations.

(** The attributions of a list of items, added up in order. *)
Definition total (items : list ExplanationItem) : num F :=
  fold_left (add F) (map attribution items) (zero F).
End WithArith.

Arguments feature {F} _.
Arguments description {F} _.
Arguments attribution {F} _.
Arguments value {F} _.

End Explainer.

(** ** The specification's formulas

    Definitions that follow the wording of the specification, to be compared
    with the functions above. *)

Module Spec.

(** [clamp(x, lo, hi)] *)
Definition clamp (x lo hi : R) : R := Rmin (Rmax x lo) hi.

(** The thirteen feature identifiers of a URL. *)
Definition url_feature_names : list string :=
  ["hasIPAddress"; "urlLength"; "hasAtSymbol"; "hasManySubdomains";
   "hasSuspiciousTLD"; "hasBrandImpersonation"; "hasHyphens";
   "hasRedirectPattern"; "hasDeceptiveHostname"; "isNotHttps";
   "hasCertificateIssues"; "domainAge"; "lowAlexaRank"].

(** *** Deceptive hostnames *)

(** The host with [www.] stripped (and in lower case, as hosts are). *)
Definition stripped (host : string) : string := Py.replace "www." "" (Py.lower host).

Definition labels (h : string) : list string := Py.split "." h.
Definition first_label (h : string) : string := hd "" (labels h).

(** A host of one label has no TLD. *)
Definition multi_label (h : string) : bool := (1 <? List.length (labels h))%nat.
Definition tld_of (h : string) : string :=
  if multi_label h then ("." ++ last (labels h) "")%string else "".
Definition non_tld_portion (h : string) : string :=
  if multi_label h then Py.join "." (Py.init (labels h)) else h.

(** Suspicious list plus .com/.org/.net *)
Definition known_tlds : list string :=
  FeatureExtractor.suspicious_tlds ++ [".com"; ".org"; ".net"].

(** The TLDs of the confusable-TLD table. *)
Definition confusable_tlds : list string :=
  flat_map snd FeatureExtractor.tld_substitutions.

Definition misleading_tld (h : string) : bool :=
  Py.mem (non_tld_portion h) FeatureExtractor.popular_brands
  && Py.mem (tld_of h) confusable_tlds.

Definition tld_in_name (h : string) : bool :=
  existsb (fun tld => Py.contains tld h) known_tlds.

Definition long_domain (h : string) : bool := (30 <? Py.len h)%nat.

(** The first label's Shannon entropy exceeds 3.5. *)
Definition high_entropy (h : string) : bool :=
  Py.rgtb (FeatureExtractor._calculate_entropy (first_label h)) 3.5%R.

(** The highest applicable value. *)
Definition deceptive_value (misleading in_name high long : bool) : Q :=
  if misleading then 1.0%Q
  else if in_name then 0.9%Q
  else if high && long then 0.8%Q
  else if high then 0.7%Q
  else if long then 0.5%Q
  else 0.0%Q.

(** The feature as the specification words it. *)
Definition deceptive_hostname (host : string) : Q :=
  let h := stripped host in
  deceptive_value (misleading_tld h) (tld_in_name h) (high_entropy h) (long_domain h).

(** The feature with the entropy of the first label counted only for a host
    of more than one label. *)
Definition deceptive_hostname_dotted (host : string) : Q :=
  let h := stripped host in
  deceptive_value (misleading_tld h) (tld_in_name h)
    (multi_label h && high_entropy h) (long_domain h).

(** The entries of positive value. *)
Definition positive (features : list (string * Q)) : list (string * Q) :=
  filter (fun kv : string * Q => Py.qgtb (snd kv) 0%Q) features.

(** The sum of a list of exact floats. *)
Definition sumQ (l : list Q) : Q := fold_right Qplus 0%Q l.

Definition critical : list string :=
  ["hasIPAddress"; "hasBrandImpersonation"; "mismatchedFormAction";
   "hasDeceptiveHostname"; "isNotHttps"].

(** Weight from the fixed table, 0 for an unknown feature. *)
Definition weight (item : string * Q) : Q := PhishingDetector.weight_of (fst item).

(** value x weight, times 1.5 exactly when the feature is critical and its
    value is above 0.5. *)
Definition contribution (item : string * Q) : Q :=
  let base := (snd item * weight item)%Q in
  if existsb (String.eqb (fst item)) critical && Py.qgtb (snd item) 0.5%Q
  then (base * 1.5)%Q
  else base.

(** Sum of contributions over sum of weights of the features present, 0 when
    the latter is 0. *)
Definition raw (features : list (string * Q)) : Q :=
  let weights := sumQ (map weight features) in
  if Qeq_bool weights 0%Q then 0%Q
  else (sumQ (map contribution features) / weights)%Q.

(** The number of features with value above 0.5 and weight above 0.7. *)
Fixpoint strong (features : list (string * Q)) : nat :=
  match features with
  | [] => O
  | item :: rest =>
      if Qlt_le_dec 0.5%Q (snd item) then
        if Qlt_le_dec 0.7%Q (weight item) then S (strong rest) else strong rest
      else strong rest
  end.

(** Logistic squashing of the raw score, then the combination bonus. *)
Definition score (features : list (string * Q)) : R :=
  let squashed := (1 / (1 + exp (- 12 * (Q2R (raw features) - 0.4))))%R in
  let n := strong features in
  if (3 <=? n)%nat then Rmin (squashed + 0.1 * (INR n - 2))%R 1%R else squashed.

End Spec.

(** ** Scenarios of the specification *)

Module Scenario.

Definition google : string := "https://www.google.com".

(** What the extractor returns for [google]. *)
Definition google_features : list (string * Q) :=
  [("hasIPAddress", 0.0); ("urlLength", 0.0); ("hasAtSymbol", 0.0);
   ("hasManySubdomains", 0.0); ("hasSuspiciousTLD", 0.0);
   ("hasBrandImpersonation", 0.9); ("hasHyphens", 0.0);
   ("hasRedirectPattern", 0.0); ("hasDeceptiveHostname", 0.9);
   ("isNotHttps", 0.0); ("hasCertificateIssues", 0.0); ("domainAge", 0.8);
   ("lowAlexaRank", 0.8)]%Q.

(** A medium-length URL served from an IP address. *)
Definition two_signals : list (string * PrimFloat.float) :=
  [("urlLength", 0.5%float); ("hasIPAddress", 1%float)].

End Scenario.

(** Linear integer arithmetic for the further properties. *)
From Stdlib Require Import Lia.

(** ** [server/utils/db_connector.py] *)

Module DBConnector.

(** The labels ["safe"], ["low"], ["medium"] and ["high"]. *)
Inductive Label : Type := safe | low | medium | high.

(** The threat level shown for a stored detection. *)
Definition _calculate_threat_level (score : R) : Label :=
  if Rlt_dec score 0.2 then safe
  else if Rlt_dec score 0.5 then low
  else if Rlt_dec score 0.8 then medium
  else high.

End DBConnector.

(** ** Notions used to state further properties *)

Module Props.

(** The contribution of a feature to the score of a mapping, 0 when the
    mapping does not have it. *)
Definition contribution_of (features : list (string * Q)) (f : string) : Q :=
  match sget f features with
  | Some x => Spec.contribution (f, x)
  | None => 0%Q
  end.

(** A feature with its contribution, as the scoring loop records it. *)
Definition with_contribution (item : string * Q) : string * Q :=
  (fst item, Spec.contribution item).

End Props.

(** ** The sample URLs of [PhishingDetector.analyze_sample_urls] *)

Module Samples.

Definition known_phishing_urls : list string :=
  ["http://paypa1.com/login";
   "http://secure-wellsfargo.com.banking.accountverify.net/login";
   "http://appleid.apple.com.signin-account.pw/";
   "http://192.168.1.1/paypal/login.php";
   "http://amazon.account-security.com/verify";
   "http://facebook.com.login.7fgk2m.xyz/auth"].

Definition known_legitimate_urls : list string :=
  ["https://www.paypal.com/signin";
   "https://www.amazon.com";
   "https://www.google.com";
   "https://www.microsoft.com";
   "https://www.apple.com/shop/account/signin";
   "https://www.wellsfargo.com"].

(** The rates the function returns: phishingDetectionRate,
    legitimateAccuracyRate and falsePositiveRate. *)
Record Rates : Type := {
  phishingDetectionRate : Q;
  legitimateAccuracyRate : Q;
  falsePositiveRate : Q
}.

Definition analyze_sample_urls : Rates :=
  {| phishingDetectionRate := 0.98%Q;
     legitimateAccuracyRate := 0.97%Q;
     falsePositiveRate := 0.03%Q |}.

(** What the URL endpoint computes for a URL: features, then verdict. *)
Definition classify (lib : PyLib) (url : string) : bool :=
  PhishingDetector.isPhishing
    (PhishingDetector.predict (FeatureExtractor.extract_from_url lib url)).

End Samples.

(** ** [FeatureExtractor._check_for_obfuscation]

    The patterns are compiled with [re.IGNORECASE] and looked for with
    [re.search]. *)

Module Obfuscation.
Import FeatureExtractor.
Local Open Scope Q_scope.

(** [min(a, b)] on exact floats: the first argument is kept unless the
    second is strictly smaller. *)
Definition qmin (a b : Q) : Q := if Qlt_le_dec b a then b else a.

(** [\s] on ASCII text *)
Definition is_space (c : ascii) : bool :=
  let n := nat_of_ascii c in
  ((9 <=? n) && (n <=? 13) || (28 <=? n) && (n <=? 32))%nat.

(** [\w] on ASCII text *)
Definition is_word (c : ascii) : bool :=
  Py.is_alpha c || Py.is_digit c || Ascii.eqb c "_".

(** [[0-9a-f]] without regard to case *)
Definition is_hex (c : ascii) : bool :=
  Py.is_digit c ||
  (let n := nat_of_ascii (Py.lower_char c) in (97 <=? n) && (n <=? 102))%nat.

(** A literal, without regard to case *)
Fixpoint m_ci (lit : string) : matcher :=
  match lit with
  | EmptyString => fun s => [s]
  | String l rest =>
      m_seq (m_char (fun c => Ascii.eqb (Py.lower_char c) (Py.lower_char l))) (m_ci rest)
  end.

(** [\s*] *)
Definition m_spaces : matcher := fun s => m_star (m_char is_space) (Py.len s) s.

Definition m_word : matcher := m_char is_word.
Definition m_hex : matcher := m_char is_hex.
Definition BACKSLASH : string := String (ascii_of_nat 92) EmptyString.

Fixpoint m_all (ms : list matcher) : matcher :=
  match ms with
  | [] => fun s => [s]
  | m :: rest => m_seq m (m_all rest)
  end.

Definition anywhere (m : matcher) (s : string) : bool := search m (fun _ => true) s.

(** The eight patterns with their weights. *)
Definition obfuscation_patterns : list ((string -> bool) * Z) :=
  [ (anywhere (m_all [m_ci "eval"; m_spaces; m_ci "("]), 3%Z);
    (anywhere (m_all [m_ci "document.write"; m_spaces; m_ci "("; m_spaces;
                      m_ci "unescape"; m_spaces; m_ci "("]), 3%Z);
    (anywhere (m_ci "String.fromCharCode("), 2%Z);
    (anywhere (m_all [m_ci BACKSLASH; m_ci "x"; m_times m_hex 2]), 2%Z);
    (anywhere (m_all [m_ci BACKSLASH; m_ci "u"; m_times m_hex 4]), 2%Z);
    ((fun s =>
        existsb at_dollar
          (m_all [m_times (m_char is_base64_char) 100;
                  (fun t => m_star (m_char is_base64_char) (Py.len t) t);
                  m_upto (m_char (Ascii.eqb "=")) 2] s)), 3%Z);
    (anywhere (m_all [m_ci "function("; m_spaces; m_word; m_spaces; m_ci ",";
                      m_spaces; m_word; m_spaces; m_ci ","; m_spaces; m_word;
                      m_spaces; m_ci ","; m_spaces; m_word; m_spaces; m_ci ")"]), 1%Z);
    (anywhere (m_all [m_word; m_ci "=[];"; m_word; m_ci "=();"]), 2%Z) ].

Definition _check_for_obfuscation (script_content : string) : Q :=
  if String.eqb script_content "" then 0.0
  else
    let obfuscation_indicators :=
      fold_left
        (fun indicators (pw : (string -> bool) * Z) =>
           if fst pw script_content then (indicators + snd pw)%Z else indicators)
        obfuscation_patterns 0%Z in
    let entropy := _calculate_entropy script_content in
    let obfuscation_indicators :=
      if Py.rgtb entropy 4.5%R then (obfuscation_indicators + 2)%Z
      else obfuscation_indicators in
    qmin (inject_Z obfuscation_indicators / 10.0) 1.0.

End Obfuscation.

(** ** Vocabulary of the loop and matcher invariants *)

Section Vocabulary.
Import FeatureExtractor.

(** The count that [char_count] holds for a character. *)
Definition count_of (c : ascii) (d : list (ascii * nat)) : nat :=
  match Dict.get Ascii.eqb c d with Some n => n | None => O end.

(** One round of the counting loop:
    [char_count[char] = char_count.get(char, 0) + 1]. *)
Definition bump (d : list (ascii * nat)) (c : ascii) : list (ascii * nat) :=
  Dict.set Ascii.eqb c (count_of c d + 1)%nat d.

(** The term that one character count adds to the entropy. *)
Definition entropy_term (length : R) (count : nat) : R :=
  (- (INR count / length * log2 (INR count / length)))%R.

(** One round of the loop over the brands that looks at the path. *)
Definition path_step (path : string) (path_parts : list string)
           (path_score : Q) (brand : string) : Q :=
  (if Py.contains brand (Py.lower path) then
     let path_score :=
       if existsb
            (fun term =>
               Py.mem term path_parts ||
               Py.contains (term ++ "-" ++ brand)%string (Py.lower path) ||
               Py.contains (brand ++ "-" ++ term)%string (Py.lower path))
            security_terms
       then 0.9 else path_score in
     if Py.qltb path_score 0.5 then 0.7 else path_score
   else path_score)%Q.

(** A matcher that never consumes the character [c]. *)
Definition skips (c : ascii) (m : matcher) : Prop :=
  forall s r, In r (m s) -> Py.count_char c s = Py.count_char c r.

(** A matcher that consumes the character [c] exactly once. *)
Definition eats_one (c : ascii) (m : matcher) : Prop :=
  forall s r, In r (m s) -> Py.count_char c s = S (Py.count_char c r).

(** The text a matcher leaves holds only characters of the text it read. *)
Definition advances (m : matcher) : Prop :=
  forall s r, In r (m s) ->
    incl (list_ascii_of_string r) (list_ascii_of_string s).

(** Every match of the matcher starts in a text that holds the character [c]. *)
Definition reads (c : ascii) (m : matcher) : Prop :=
  forall s r, In r (m s) -> In c (list_ascii_of_string s).

End Vocabulary.
(** * Properties *)

(** ** The digest against the reference vectors of RFC 1321 *)

Example md5_empty :
  MD5.hexdigest_int "" = 281949768489412648962353822266799178366%Z.
Proof. vm_compute. reflexivity. Qed.

Example md5_abc :
  MD5.hexdigest_int "abc" = 191415658344158766168031473277922803570%Z.
Proof. vm_compute. reflexivity. Qed.

Example md5_two_blocks :
  MD5.hexdigest_int
    "aaaaaaaaaaaaaaaaaaaaaaaaaaaaaaaaaaaaaaaaaaaaaaaaaaaaaaaaaaaaaaaaaaaaaa"
  = 20418307963707565639931358686405410118%Z.
Proof. vm_compute. reflexivity. Qed.

(** ** The verdict: thresholds *)

Section Thresholds.
Import PhishingDetector.
Local Open Scope R_scope.

Lemma rgtb_true (a b : R) : Py.rgtb a b = true <-> b < a.
Proof.
  unfold Py.rgtb. destruct (Rlt_dec b a); split; intros; trivial; discriminate || contradiction.
Qed.

Lemma rgtb_false (a b : R) : Py.rgtb a b = false <-> a <= b.
Proof.
  unfold Py.rgtb. destruct (Rlt_dec b a); split; intros; trivial; try discriminate; lra.
Qed.

Lemma rmax_Rmax (a b : R) : Py.rmax a b = Rmax a b.
Proof.
  unfold Py.rmax, Rmax. destruct (Rlt_dec a b), (Rle_dec a b); trivial; lra.
Qed.

Lemma rmin_Rmin (a b : R) : Py.rmin a b = Rmin a b.
Proof.
  unfold Py.rmin, Rmin. destruct (Rlt_dec b a), (Rle_dec a b); trivial; lra.
Qed.

Lemma threat_level_cases (s : R) :
  (s < 0.25 /\ _get_threat_level s = Low) \/
  (0.25 <= s < 0.55 /\ _get_threat_level s = Medium) \/
  (0.55 <= s /\ _get_threat_level s = High).
Proof.
  unfold _get_threat_level.
  destruct (Rlt_dec s 0.25); [left; split; trivial|].
  destruct (Rlt_dec s 0.55); [right; left|right; right]; split; trivial; lra.
Qed.

(** C5.  The threat level of a verdict is that of its score, and for every
    score it is Low exactly when score < 0.25, Medium exactly when
    0.25 <= score < 0.55 and High exactly when 0.55 <= score; so 0.25 itself
    is Medium and 0.55 itself is High. *)
Theorem threat_level_tiers :
  (forall features, threatLevel (predict features) = _get_threat_level (score (predict features))) /\
  (forall s : R,
      (_get_threat_level s = Low <-> s < 0.25) /\
      (_get_threat_level s = Medium <-> 0.25 <= s < 0.55) /\
      (_get_threat_level s = High <-> 0.55 <= s)) /\
  _get_threat_level 0.25 = Medium /\
  _get_threat_level 0.55 = High.
Proof.
  assert (tiers : forall s : R,
      (_get_threat_level s = Low <-> s < 0.25) /\
      (_get_threat_level s = Medium <-> 0.25 <= s < 0.55) /\
      (_get_threat_level s = High <-> 0.55 <= s)).
  { intro s.
    destruct (threat_level_cases s) as [[Hs E] | [[Hs E] | [Hs E]]]; rewrite E;
      repeat split; intros; try discriminate; try reflexivity; lra. }
  split; [reflexivity|]. split; [exact tiers|].
  split; apply tiers; lra.
Qed.

(** C2.  A verdict is phishing exactly when its score is above 0.45; its
    confidence is |score - 0.5| * 2 clamped to [0.6, 0.99] when it is
    phishing and to [0, 0.99] when it is not. *)
Theorem verdict_classification_confidence (features : list (string * Q)) :
  let v := predict features in
  (isPhishing v = true <-> score v > 0.45) /\
  (isPhishing v = true ->
   confidence v = Spec.clamp (Rabs (score v - 0.5) * 2) 0.6 0.99) /\
  (isPhishing v = false ->
   confidence v = Spec.clamp (Rabs (score v - 0.5) * 2) 0 0.99).
Proof.
  cbv zeta. unfold predict; cbn [isPhishing score confidence].
  set (s := final_score features).
  split; [apply rgtb_true|].
  split; intros E; rewrite E; unfold Spec.clamp.
  - now rewrite rmin_Rmin, rmax_Rmax.
  - rewrite rmin_Rmin. f_equal.
    rewrite Rmax_left; trivial.
    pose proof (Rabs_pos (s - 0.5)). lra.
Qed.

(** C9.  No verdict is phishing with a Low threat level: a phishing verdict
    is Medium or High. *)
Theorem phishing_verdict_never_low (features : list (string * Q)) :
  let v := predict features in
  ~ (isPhishing v = true /\ threatLevel v = Low) /\
  (isPhishing v = true -> threatLevel v = Medium \/ threatLevel v = High).
Proof.
  cbv zeta. unfold predict; cbn [isPhishing threatLevel].
  set (s := final_score features).
  assert (H : Py.rgtb s 0.45 = true -> _get_threat_level s <> Low).
  { intros E%rgtb_true L.
    destruct (threat_level_cases s) as [[Hs _] | [[_ E'] | [_ E']]];
      [lra | congruence | congruence]. }
  split.
  - intros [E L]. now apply H.
  - intros E. specialize (H E). destruct (_get_threat_level s); auto. congruence.
Qed.

End Thresholds.

(** ** The scorer: the weighted score *)

Section Scoring.
Import PhishingDetector.
Local Open Scope Q_scope.

Lemma qgtb_true (a b : Q) : Py.qgtb a b = true <-> b < a.
Proof.
  unfold Py.qgtb. destruct (Qlt_le_dec b a) as [H|H]; split; intros; trivial.
  - discriminate.
  - exfalso. apply (Qlt_not_le _ _ H0 H).
Qed.

Lemma qgtb_false (a b : Q) : Py.qgtb a b = false <-> a <= b.
Proof.
  unfold Py.qgtb. destruct (Qlt_le_dec b a) as [H|H]; split; intros; trivial.
  - discriminate.
  - exfalso. apply (Qlt_not_le _ _ H H0).
Qed.

Lemma table_nonneg (table : list (string * Q)) (k : string) :
  Forall (fun kv => 0 <= snd kv) table ->
  0 <= match sget k table with Some w => w | None => 0 end.
Proof.
  induction 1 as [|[k' w] r Hw _ IH]; cbn.
  - apply Qle_refl.
  - destruct (String.eqb k k'); [exact Hw | exact IH].
Qed.

Lemma weight_of_nonneg (f : string) : 0 <= weight_of f.
Proof.
  apply table_nonneg. unfold feature_weights.
  repeat constructor; cbn; discriminate.
Qed.

Lemma mem_existsb (x : string) (xs : list string) : Py.mem x xs = existsb (String.eqb x) xs.
Proof. reflexivity. Qed.

Lemma sumQ_cons (x : Q) (l : list Q) : Spec.sumQ (x :: l) = x + Spec.sumQ l.
Proof. reflexivity. Qed.

(** The loop adds one contribution and one weight per item. *)
Lemma scoring_loop_sums (l : list (string * Q)) (st : acc) :
  acc_score (fold_left loop_body l st) == acc_score st + Spec.sumQ (map Spec.contribution l) /\
  acc_total_weight (fold_left loop_body l st)
  == acc_total_weight st + Spec.sumQ (map Spec.weight l).
Proof.
  revert st. induction l as [|[f v] l IH]; intro st; cbn [fold_left map].
  - unfold Spec.sumQ; cbn [fold_right]. split; ring.
  - destruct (IH (loop_body st (f, v))) as [Hs Hw]. rewrite Hs, Hw, !sumQ_cons.
    cbn [loop_body acc_score acc_total_weight].
    unfold Spec.contribution, Spec.weight; cbn [fst snd].
    change Spec.critical with critical_features. rewrite mem_existsb.
    split; [|ring].
    destruct (existsb (String.eqb f) critical_features && Py.qgtb v 0.5); ring.
Qed.

Lemma sum_weights_nonneg (l : list (string * Q)) : 0 <= Spec.sumQ (map Spec.weight l).
Proof.
  induction l as [|[f v] l IH]; cbn [map].
  - apply Qle_refl.
  - rewrite sumQ_cons. unfold Spec.weight at 1; cbn [fst].
    pose proof (weight_of_nonneg f). lra.
Qed.

Lemma raw_score_sums (l : list (string * Q)) :
  acc_score (scoring_loop l) == Spec.sumQ (map Spec.contribution l) /\
  acc_total_weight (scoring_loop l) == Spec.sumQ (map Spec.weight l).
Proof.
  unfold scoring_loop.
  destruct (scoring_loop_sums l {| acc_score := 0; acc_total_weight := 0; acc_contributions := [] |})
    as [Hs Hw].
  cbn [acc_score acc_total_weight] in Hs, Hw. rewrite Hs, Hw. split; ring.
Qed.

Lemma raw_score_spec (l : list (string * Q)) : raw_score l == Spec.raw l.
Proof.
  unfold raw_score, Spec.raw.
  destruct (raw_score_sums l) as [Hs Hw].
  pose proof (sum_weights_nonneg l) as Hnn.
  destruct (Py.qgtb (acc_total_weight (scoring_loop l)) 0) eqn:E.
  - apply qgtb_true in E. rewrite Hw in E.
    destruct (Qeq_bool (Spec.sumQ (map Spec.weight l)) 0) eqn:E0.
    + apply Qeq_bool_eq in E0. rewrite E0 in E. exfalso. apply (Qlt_irrefl _ E).
    + now rewrite Hs, Hw.
  - apply qgtb_false in E. rewrite Hw in E.
    assert (E0 : Spec.sumQ (map Spec.weight l) == 0) by (apply Qle_antisym; assumption).
    apply Qeq_eq_bool in E0. now rewrite E0.
Qed.

Lemma suspicious_count_spec (l : list (string * Q)) : suspicious_count l = Spec.strong l.
Proof.
  unfold suspicious_count.
  induction l as [|[f v] l IH]; cbn [filter Spec.strong fst snd]; trivial.
  change (Py.qgtb v 0.5) with (if Qlt_le_dec 0.5 v then true else false).
  change (Py.qgtb (weight_of f) 0.7)
    with (if Qlt_le_dec 0.7 (weight_of f) then true else false).
  unfold Spec.weight; cbn [fst].
  destruct (Qlt_le_dec 0.5 v), (Qlt_le_dec 0.7 (weight_of f));
    cbn [andb length]; congruence.
Qed.

(** C1.  The score returned by [predict] is the specification's: weighted
    contributions (times 1.5 for a critical feature above 0.5) summed and
    divided by the sum of the weights of the features present, 0 when that
    sum is 0; squashed by 1 / (1 + e^(-12 (raw - 0.4))); and, with n the
    number of features of value above 0.5 and weight above 0.7, raised to
    min(score + 0.1 (n - 2), 1) when n >= 3. *)
Theorem predict_score_formula (features : list (string * Q)) :
  raw_score features == Spec.raw features /\
  score (predict features) = Spec.score features.
Proof.
  split; [apply raw_score_spec|].
  unfold predict; cbn [score]. unfold final_score, Spec.score, sigmoid.
  rewrite (Qeq_eqR _ _ (raw_score_spec features)), suspicious_count_spec.
  destruct (3 <=? Spec.strong features)%nat eqn:E; [|reflexivity].
  rewrite rmin_Rmin. f_equal; [|lra].
  rewrite minus_IZR, <- INR_IZR_INZ. lra.
Qed.

End Scoring.

(** ** The scorer: monotonicity of the raw score *)

Section Monotone.
Import PhishingDetector.
Local Open Scope Q_scope.

Lemma contribution_monotone (f : string) (v1 v2 : Q) :
  v1 <= v2 -> Spec.contribution (f, v1) <= Spec.contribution (f, v2).
Proof.
  intros Hv. unfold Spec.contribution, Spec.weight; cbn [fst snd].
  pose proof (weight_of_nonneg f) as Hw.
  destruct (existsb (String.eqb f) Spec.critical); cbn [andb];
    [|nra].
  destruct (Py.qgtb v1 0.5) eqn:E1, (Py.qgtb v2 0.5) eqn:E2;
    try apply qgtb_true in E1; try apply qgtb_true in E2;
    try apply qgtb_false in E1; try apply qgtb_false in E2; nra.
Qed.

(** Replacing the value bound to [f] moves the two sums of the loop as the
    contribution of [f] moves. *)
Lemma sums_after_replace (l : list (string * Q)) (f : string) (v1 v2 : Q) :
  sget f l = Some v1 -> v1 <= v2 ->
  Spec.sumQ (map Spec.contribution l) <= Spec.sumQ (map Spec.contribution (sset f v2 l)) /\
  map Spec.weight (sset f v2 l) = map Spec.weight l.
Proof.
  intros Hget Hv. induction l as [|[k v] l IH]; [discriminate|].
  unfold sget, sset in *. cbn [Dict.get Dict.set] in *.
  destruct (String.eqb f k) eqn:E.
  - apply String.eqb_eq in E. subst k. injection Hget as ->.
    cbn [map]. rewrite !sumQ_cons. split; [|reflexivity].
    pose proof (contribution_monotone f v1 v2 Hv). lra.
  - destruct (IH Hget) as [Hc Hw]. cbn [map]. rewrite !sumQ_cons, Hw.
    split; [lra | reflexivity].
Qed.

Lemma raw_monotone (l : list (string * Q)) (f : string) (v1 v2 : Q) :
  sget f l = Some v1 -> v1 <= v2 -> raw_score l <= raw_score (sset f v2 l).
Proof.
  intros Hget Hv. rewrite !raw_score_spec. unfold Spec.raw.
  destruct (sums_after_replace l f v1 v2 Hget Hv) as [Hc Hw]. rewrite Hw.
  destruct (Qeq_bool (Spec.sumQ (map Spec.weight l)) 0) eqn:E; [apply Qle_refl|].
  pose proof (sum_weights_nonneg l) as Hnn.
  apply Qeq_bool_neq in E.
  apply Qmult_le_compat_r; [exact Hc|].
  apply Qinv_le_0_compat, Hnn.
Qed.

(** C6.  Raising the value of one feature of the mapping from [v1] to [v2],
    both in [0, 1], the other features unchanged, does not lower the raw
    weighted score computed before the sigmoid. *)
Theorem raw_score_monotone (features : list (string * Q)) (f : string) (v1 v2 : Q) :
  sget f features = Some v1 ->
  0 <= v1 -> v1 <= v2 -> v2 <= 1 ->
  raw_score features <= raw_score (sset f v2 features).
Proof.
  intros Hget _ Hv _. exact (raw_monotone features f v1 v2 Hget Hv).
Qed.

Lemma raw_score_monotone_witness :
  let features := [("hasIPAddress", 0.2); ("urlLength", 0.5); ("isNotHttps", 1.0)] in
  sget "hasIPAddress" features = Some 0.2 /\
  sset "hasIPAddress" 0.9 features
  = [("hasIPAddress", 0.9); ("urlLength", 0.5); ("isNotHttps", 1.0)] /\
  raw_score features <= raw_score (sset "hasIPAddress" 0.9 features).
Proof.
  cbv zeta. split; [reflexivity|]. split; [reflexivity|].
  apply (raw_score_monotone _ "hasIPAddress" 0.2 0.9).
  - reflexivity.
  - vm_compute; discriminate.
  - vm_compute; discriminate.
  - vm_compute; discriminate.
Defined.

(** [d[k] = v] on a dictionary changes the value of [k] and nothing else. *)
Lemma sget_sset_same {V} (d : list (string * V)) (k : string) (v : V) :
  sget k (sset k v d) = Some v.
Proof.
  unfold sget, sset. induction d as [|[k' v'] d IH]; cbn.
  - now rewrite String.eqb_refl.
  - destruct (String.eqb k k') eqn:E; cbn; rewrite ?String.eqb_refl, ?E; trivial.
Qed.

Lemma sget_sset_other {V} (d : list (string * V)) (k k' : string) (v : V) :
  k' <> k -> sget k' (sset k v d) = sget k' d.
Proof.
  intros Hne. unfold sget, sset. induction d as [|[k0 v0] d IH]; cbn.
  - apply String.eqb_neq in Hne. now rewrite Hne.
  - destruct (String.eqb k k0) eqn:E; cbn.
    + apply String.eqb_eq in E; subst k0.
      apply String.eqb_neq in Hne. now rewrite Hne.
    + now rewrite IH.
Qed.

End Monotone.

(** ** Dictionaries and the descending sort *)

Section DictFacts.
Context {V : Type}.

Lemma sset_fresh (d : list (string * V)) (k : string) (v : V) :
  ~ In k (map fst d) -> sset k v d = d ++ [(k, v)].
Proof.
  unfold sset. induction d as [|[k' v'] d IH]; cbn; intros Hk; trivial.
  destruct (String.eqb k k') eqn:E.
  - apply String.eqb_eq in E. subst. tauto.
  - rewrite IH; tauto.
Qed.

Lemma sget_in (d : list (string * V)) (k : string) (v : V) :
  NoDup (map fst d) -> In (k, v) d -> sget k d = Some v.
Proof.
  unfold sget. induction d as [|[k' v'] d IH]; cbn; intros Hnd Hin; [tauto|].
  inversion Hnd as [|? ? Hk Hnd']; subst.
  destruct Hin as [E | Hin].
  - injection E as -> ->. now rewrite String.eqb_refl.
  - destruct (String.eqb k k') eqn:E.
    + apply String.eqb_eq in E. subst k'.
      exfalso. apply Hk. change k with (fst (k, v)). now apply in_map.
    + now apply IH.
Qed.

Lemma NoDup_keys_filter (p : string * V -> bool) (d : list (string * V)) :
  NoDup (map fst d) -> NoDup (map fst (filter p d)).
Proof.
  induction d as [|kv d IH]; cbn; intros Hnd; trivial.
  inversion Hnd as [|? ? Hk Hnd']; subst.
  destruct (p kv); cbn; auto.
  constructor; auto.
  intros Hin. apply Hk.
  apply in_map_iff in Hin as [x [Ex Hx]]. apply filter_In in Hx as [Hx _].
  rewrite <- Ex. now apply in_map.
Qed.

End DictFacts.

Section SortFacts.
Context {A : Type} (key : A -> Q).
Local Abbreviation insert_desc := (insert_desc Py.qgtb key).
Local Abbreviation sort_desc := (sort_desc Py.qgtb key).

Lemma insert_desc_perm (x : A) (l : list A) : Permutation (insert_desc x l) (x :: l).
Proof.
  induction l as [|y l IH]; cbn; [reflexivity|].
  destruct (Py.qgtb (key y) (key x)); [|reflexivity].
  rewrite IH. apply perm_swap.
Qed.

Lemma sort_desc_perm (l : list A) : Permutation (sort_desc l) l.
Proof.
  induction l as [|x l IH]; cbn; [reflexivity|].
  rewrite insert_desc_perm. now constructor.
Qed.

Lemma insert_desc_sorted (x : A) (l : list A) :
  StronglySorted (desc key) l -> StronglySorted (desc key) (insert_desc x l).
Proof.
  induction 1 as [|y l Hs IH Hy]; cbn.
  - constructor; constructor.
  - destruct (Py.qgtb (key y) (key x)) eqn:E.
    + constructor; [exact IH|].
      apply qgtb_true in E.
      eapply Permutation_Forall; [symmetry; apply insert_desc_perm|].
      constructor; [apply Qlt_le_weak, E | exact Hy].
    + apply qgtb_false in E.
      constructor; [now constructor|].
      constructor; [exact E|].
      eapply Forall_impl; [|exact Hy].
      intros z Hz. unfold desc in *. eapply Qle_trans; eassumption.
Qed.

Lemma sort_desc_sorted (l : list A) : StronglySorted (desc key) (sort_desc l).
Proof.
  induction l as [|x l IH]; cbn; [constructor | now apply insert_desc_sorted].
Qed.

End SortFacts.

Lemma sumQ_perm (l l' : list Q) : Permutation l l' -> (Spec.sumQ l == Spec.sumQ l')%Q.
Proof.
  induction 1 as [| x l l' _ IH | x y l | l1 l2 l3 _ IH1 _ IH2];
    rewrite ?sumQ_cons; lra.
Qed.

(** ** The explainer *)

Section Explain.
Import Explainer.
Local Open Scope Q_scope.

Local Ltac exact_arith :=
  cbn [num zero hundred add div mul gtb exact] in *.

(** The first loop keeps the positive entries, in order, and totals them. *)
Lemma collect_from (l : list (string * Q)) (attrs : list (string * Q)) (tot : Q) :
  NoDup (map fst (attrs ++ l)) ->
  let st :=
    fold_left
      (fun (st : list (string * Q) * Q) (item : string * Q) =>
         let '(attributions, total_attribution) := st in
         let '(feature, value) := item in
         if Py.qgtb value 0
         then (sset feature value attributions, total_attribution + value)
         else st)
      l (attrs, tot) in
  fst st = attrs ++ Spec.positive l /\ snd st == tot + Spec.sumQ (map snd (Spec.positive l)).
Proof.
  cbv zeta. revert attrs tot.
  induction l as [|[f v] l IH]; intros attrs tot Hnd; cbn [fold_left Spec.positive filter snd].
  - cbn [fst snd map]. unfold Spec.sumQ; cbn [fold_right].
    rewrite app_nil_r. split; [reflexivity | ring].
  - fold (Spec.positive l). destruct (Py.qgtb v 0) eqn:E.
    + assert (Hf : ~ In f (map fst attrs)).
      { rewrite map_app in Hnd. apply NoDup_remove_2 in Hnd.
        intros Hin. apply Hnd. apply in_or_app. now left. }
      rewrite (sset_fresh _ _ _ Hf).
      destruct (IH (attrs ++ [(f, v)]) (tot + v)) as [H1 H2].
      { now rewrite <- app_assoc. }
      rewrite H1, H2, <- app_assoc. cbn [map app snd]. rewrite sumQ_cons.
      split; [reflexivity | ring].
    + apply IH.
      rewrite map_app in *. cbn [map] in Hnd. now apply NoDup_remove_1 in Hnd.
Qed.

Lemma collect_spec (features : list (string * Q)) :
  NoDup (map fst features) ->
  fst (collect exact features) = Spec.positive features /\
  snd (collect exact features) == Spec.sumQ (map snd (Spec.positive features)).
Proof.
  intros Hnd. destruct (collect_from features [] 0 Hnd) as [H1 H2].
  unfold collect. exact_arith. rewrite H1, H2. split; [reflexivity | ring].
Qed.

(** The second loop rescales every entry, in order. *)
Lemma normalize_from (l acc : list (string * Q)) (total : Q) :
  NoDup (map fst (acc ++ l)) ->
  fold_left
    (fun normalized (item : string * Q) =>
       sset (fst item) (snd (percent exact total item)) normalized)
    l acc
  = acc ++ map (percent exact total) l.
Proof.
  revert acc. induction l as [|[f v] l IH]; intros acc Hnd; cbn [fold_left map fst snd].
  - now rewrite app_nil_r.
  - assert (Hf : ~ In f (map fst acc)).
    { rewrite map_app in Hnd. apply NoDup_remove_2 in Hnd.
      intros Hin. apply Hnd. apply in_or_app. now left. }
    rewrite (sset_fresh _ _ _ Hf), IH.
    + now rewrite <- app_assoc.
    + rewrite <- app_assoc, !map_app. rewrite map_app in Hnd. exact Hnd.
Qed.

Lemma positive_sum_pos (l : list (string * Q)) :
  Spec.positive l <> [] -> 0 < Spec.sumQ (map snd (Spec.positive l)).
Proof.
  assert (H : forall l, 0 <= Spec.sumQ (map snd (Spec.positive l))).
  { clear l. induction l as [|[f v] l IH]; cbn [Spec.positive filter snd]; [apply Qle_refl|].
    fold (Spec.positive l). destruct (Py.qgtb v 0) eqn:E; trivial.
    apply qgtb_true in E. cbn [map snd]. rewrite sumQ_cons. lra. }
  induction l as [|[f v] l IH]; cbn [Spec.positive filter snd]; [congruence|].
  fold (Spec.positive l). destruct (Py.qgtb v 0) eqn:E; trivial.
  intros _. apply qgtb_true in E. cbn [map snd]. rewrite sumQ_cons.
  specialize (H l). lra.
Qed.

Lemma percent_sum (total : Q) (l : list (string * Q)) :
  ~ total == 0 ->
  Spec.sumQ (map snd (map (percent exact total) l)) == Spec.sumQ (map snd l) / total * 100.
Proof.
  intros Ht. induction l as [|[f v] l IH]; cbn [map percent fst snd]; exact_arith.
  - unfold Spec.sumQ; cbn. field. exact Ht.
  - rewrite !sumQ_cons, IH. field. exact Ht.
Qed.

(** The running total of the code and the sum of the specification. *)
Lemma total_sumQ (items : list (ExplanationItem exact)) :
  total exact items == Spec.sumQ (map (@attribution exact) items).
Proof.
  unfold total. exact_arith.
  assert (H : forall (l : list Q) (a : Q), fold_left Qplus l a == a + Spec.sumQ l).
  { induction l as [|x l IH]; intro a; cbn [fold_left].
    - unfold Spec.sumQ; cbn. ring.
    - rewrite IH, sumQ_cons. ring. }
  rewrite H. ring.
Qed.

(** What [explain_prediction] returns on a dictionary. *)
Lemma explain_prediction_unfold (features : list (string * Q)) (ty : string) :
  NoDup (map fst features) ->
  explain_prediction exact features ty
  = sort_desc Py.qgtb (@attribution exact)
      (map (item_of exact features)
         (if Py.qgtb (snd (collect exact features)) 0
          then map (percent exact (snd (collect exact features))) (Spec.positive features)
          else [])).
Proof.
  intros Hnd. unfold explain_prediction.
  destruct (collect_spec features Hnd) as [H1 _].
  destruct (collect exact features) as [attrs tot]. cbn [fst snd] in *. subst attrs.
  unfold normalize. exact_arith.
  destruct (Py.qgtb tot 0); [|reflexivity].
  rewrite normalize_from; [reflexivity|].
  cbn [app]. now apply NoDup_keys_filter.
Qed.

(** C7, in exact arithmetic.  On a feature dictionary, [explain_prediction]
    returns one item per feature of positive value and none for the others;
    the attribution of an item is the value of its feature over the sum of
    the positive values, times 100; when nothing is rounded the attributions
    add up to 100 as soon as one value is positive; and the items come in
    descending order of attribution. *)
Theorem explain_prediction_attributions (features : list (string * Q)) (ty : string) :
  NoDup (map fst features) ->
  let items := explain_prediction exact features ty in
  let sum_positive := Spec.sumQ (map snd (Spec.positive features)) in
  Permutation (map feature items) (map fst (Spec.positive features)) /\
  (forall f v, sget f features = Some v -> v <= 0 -> ~ In f (map feature items)) /\
  (forall it, In it items ->
     sget (feature it) features = Some (value it) /\
     0 < value it /\
     attribution it == value it / sum_positive * 100) /\
  (Spec.positive features <> [] -> total exact items == 100) /\
  StronglySorted (fun a b : ExplanationItem exact => attribution b <= attribution a) items.
Proof.
  intros Hnd. cbv zeta.
  rewrite (explain_prediction_unfold features ty Hnd).
  destruct (collect_spec features Hnd) as [_ Htot].
  set (T := snd (collect exact features)) in *.
  set (pos := Spec.positive features) in *.
  assert (Hpos : forall f v, In (f, v) pos -> sget f features = Some v /\ 0 < v).
  { intros f v Hin. apply filter_In in Hin as [Hin Hv]. cbn [snd] in Hv.
    split; [now apply sget_in | now apply qgtb_true]. }
  assert (Hcase : (pos = [] /\ Py.qgtb T 0 = false) \/ (pos <> [] /\ Py.qgtb T 0 = true)).
  { destruct pos as [|kv pos'] eqn:Epos.
    - left. split; trivial. apply qgtb_false. rewrite Htot. cbn. apply Qle_refl.
    - right. split; [discriminate|]. apply qgtb_true. rewrite Htot, <- Epos.
      apply positive_sum_pos. fold pos. rewrite Epos. discriminate. }
  set (items := sort_desc Py.qgtb (@attribution exact) _).
  assert (Hperm : Permutation items
                    (map (item_of exact features)
                       (if Py.qgtb T 0 then map (percent exact T) pos else [])))
    by apply sort_desc_perm.
  assert (Hfeat : Permutation (map feature items) (map fst pos)).
  { rewrite Hperm. destruct Hcase as [[E1 E2] | [E1 E2]]; rewrite E2.
    - rewrite E1. constructor.
    - rewrite !map_map. cbn [item_of feature percent fst]. reflexivity. }
  split; [exact Hfeat|].
  split.
  { intros f v Hget Hv Hin.
    apply (Permutation_in _ Hfeat) in Hin.
    apply in_map_iff in Hin as [[f' v'] [Ef Hin]]. cbn [fst] in Ef. subst f'.
    destruct (Hpos _ _ Hin) as [Hget' Hv']. rewrite Hget in Hget'.
    injection Hget' as <-. apply (Qlt_not_le _ _ Hv' Hv). }
  split.
  { intros it Hin. apply (Permutation_in _ Hperm) in Hin.
    destruct Hcase as [[E1 E2] | [E1 E2]]; rewrite E2 in Hin; [contradiction|].
    apply in_map_iff in Hin as [kv' [Eit Hin]].
    apply in_map_iff in Hin as [[f v] [Ekv Hin]]. subst kv' it.
    destruct (Hpos _ _ Hin) as [Hget Hv].
    cbn [item_of percent feature value attribution fst snd]. exact_arith.
    rewrite Hget. repeat split; trivial. now rewrite Htot. }
  split.
  { intros Hne. destruct Hcase as [[E1 E2] | [E1 E2]]; [contradiction|].
    rewrite E2 in Hperm. rewrite total_sumQ.
    rewrite (sumQ_perm _ _ (Permutation_map (@attribution exact) Hperm)).
    rewrite map_map.
    replace (map (fun x => attribution (item_of exact features x)) (map (percent exact T) pos))
      with (map snd (map (percent exact T) pos)) by reflexivity.
    apply qgtb_true in E2.
    rewrite percent_sum by lra. rewrite <- Htot. field. lra. }
  apply (sort_desc_sorted (@attribution exact)).
Qed.

Lemma explain_prediction_attributions_witness :
  let features := [("hasIPAddress", 1.0); ("urlLength", 0.0); ("hasAtSymbol", 0.5);
                   ("isNotHttps", 1.0)] in
  map (fun it => (feature it, attribution it)) (explain_prediction exact features "shap")
  = [("hasIPAddress", 1.0 / (0 + 1.0 + 0.5 + 1.0) * 100);
     ("isNotHttps", 1.0 / (0 + 1.0 + 0.5 + 1.0) * 100);
     ("hasAtSymbol", 0.5 / (0 + 1.0 + 0.5 + 1.0) * 100)] /\
  total exact (explain_prediction exact features "shap") == 100.
Proof.
  cbv zeta. split; [reflexivity|].
  apply (explain_prediction_attributions
           [("hasIPAddress", 1.0); ("urlLength", 0.0); ("hasAtSymbol", 0.5);
            ("isNotHttps", 1.0)] "shap").
  - repeat constructor; cbn; intuition discriminate.
  - vm_compute; discriminate.
Defined.

(** C7, as stated, fails in binary64: for urlLength = 0.5 and
    hasIPAddress = 1.0 the two attributions are the doubles nearest to 200/3
    and 100/3, and their sum is the double just below 100. *)
Lemma attributions_sum_binary64 :
  let items := explain_prediction binary64 Scenario.two_signals "shap" in
  map feature items = ["hasIPAddress"; "urlLength"] /\
  PrimFloat.ltb (total binary64 items) 100%float = true /\
  PrimFloat.eqb (total binary64 items) 100%float = false.
Proof. cbv zeta. vm_compute. repeat split. Qed.

End Explain.

(** ** The extractor: shape of the result *)

Section Extract.
Import FeatureExtractor.
Local Open Scope Q_scope.

(** Once the URL is parsed the block runs to its end: thirteen assignments
    to thirteen different keys, the last one copying [domainAge]. *)
Lemma extract_parsed_shape (url : string) (p : UrlParse.ParseResult) :
  exists fs : features,
    extract_parsed url p = Ok fs /\
    map fst fs = Spec.url_feature_names /\
    exists v, sget "domainAge" fs = Some v /\ sget "lowAlexaRank" fs = Some v.
Proof.
  unfold extract_parsed.
  cbv beta iota zeta delta
    [sset sget index bind Dict.set Dict.get String.eqb Ascii.eqb Bool.eqb].
  eexists. split; [reflexivity|].
  cbv beta iota zeta delta
    [sget Dict.get String.eqb Ascii.eqb Bool.eqb map fst Spec.url_feature_names].
  split; [reflexivity|].
  eexists. split; reflexivity.
Qed.

(** The [try] block raises exactly when [urlparse] does. *)
Lemma extract_from_url_try_cases (lib : PyLib) (url : string) :
  (exists e, UrlParse.urlparse lib url = Raise e /\ extract_from_url_try lib url = Raise e) \/
  (exists p fs, UrlParse.urlparse lib url = Ok p /\ extract_parsed url p = Ok fs /\
                extract_from_url_try lib url = Ok fs).
Proof.
  unfold extract_from_url_try.
  destruct (UrlParse.urlparse lib url) as [p | e]; cbn [bind].
  - right. destruct (extract_parsed_shape url p) as [fs [E _]]. eauto.
  - left. eauto.
Qed.

(** C8.  [extract_from_url] returns a mapping on every string: when the
    block raises, whatever the exception, the result is the empty mapping;
    when it does not, the result is what the block computed, and it is
    populated; so the result is empty or carries the thirteen features. *)
Theorem extract_from_url_fails_soft (lib : PyLib) (url : string) :
  (forall e, extract_from_url_try lib url = Raise e -> extract_from_url lib url = []) /\
  (forall fs, extract_from_url_try lib url = Ok fs ->
              extract_from_url lib url = fs /\ fs <> []) /\
  (extract_from_url lib url = [] \/
   map fst (extract_from_url lib url) = Spec.url_feature_names).
Proof.
  unfold extract_from_url.
  destruct (extract_from_url_try_cases lib url) as [[e [_ E]] | [p [fs [_ [Ep E]]]]];
    rewrite E; cbn [catch].
  - repeat split; try discriminate; auto.
  - destruct (extract_parsed_shape url p) as [fs' [Ep' [Hk _]]].
    rewrite Ep in Ep'. injection Ep' as <-.
    split; [discriminate|]. split; [|now right].
    intros fs0 [= <-]. split; trivial.
    intros ->. discriminate.
Qed.

(** C10.  A non-empty result of [extract_from_url] has exactly the thirteen
    keys hasIPAddress, urlLength, hasAtSymbol, hasManySubdomains,
    hasSuspiciousTLD, hasBrandImpersonation, hasHyphens, hasRedirectPattern,
    hasDeceptiveHostname, isNotHttps, hasCertificateIssues, domainAge and
    lowAlexaRank, each once, and lowAlexaRank has the value of domainAge. *)
Theorem extract_from_url_keys (lib : PyLib) (url : string) :
  extract_from_url lib url <> [] ->
  map fst (extract_from_url lib url) = Spec.url_feature_names /\
  exists v, sget "domainAge" (extract_from_url lib url) = Some v /\
            sget "lowAlexaRank" (extract_from_url lib url) = Some v.
Proof.
  unfold extract_from_url.
  destruct (extract_from_url_try_cases lib url) as [[e [_ E]] | [p [fs [_ [Ep E]]]]];
    rewrite E; cbn [catch].
  - intros H. now contradiction H.
  - intros _. destruct (extract_parsed_shape url p) as [fs' [Ep' H]].
    rewrite Ep in Ep'. injection Ep' as <-. exact H.
Qed.

Lemma extract_ok_nonempty (lib : PyLib) (url : string) (p : UrlParse.ParseResult) :
  UrlParse.urlparse lib url = Ok p -> extract_from_url lib url <> [].
Proof.
  intros Hp. unfold extract_from_url, extract_from_url_try. rewrite Hp. cbn [bind].
  destruct (extract_parsed_shape url p) as [fs [E [Hk _]]]. rewrite E. cbn [catch].
  intros ->. discriminate.
Qed.

Lemma extract_from_url_keys_witness :
  extract_from_url strict_lib "http://192.168.1.1/paypal/login.php" <> [] /\
  map fst (extract_from_url strict_lib "http://192.168.1.1/paypal/login.php")
  = Spec.url_feature_names.
Proof.
  assert (H : extract_from_url strict_lib "http://192.168.1.1/paypal/login.php" <> []).
  { apply (extract_ok_nonempty _ _
             {| UrlParse.scheme := "http"; UrlParse.netloc := "192.168.1.1";
                UrlParse.path := "/paypal/login.php"; UrlParse.params := "";
                UrlParse.query := ""; UrlParse.fragment := "" |}).
    vm_compute. reflexivity. }
  split; [exact H|].
  exact (proj1 (extract_from_url_keys strict_lib "http://192.168.1.1/paypal/login.php" H)).
Defined.

End Extract.

(** ** The extractor: deceptive hostnames *)

Section Deceptive.
Import FeatureExtractor.
Local Open Scope Q_scope.

Lemma split_on_nonempty (sep : ascii -> bool) (s : string) : Py.split_on sep s <> [].
Proof.
  destruct s as [|c r]; cbn; [discriminate|].
  destruct (sep c); [discriminate|].
  destruct (Py.split_on sep r); discriminate.
Qed.

(** A text without separator is its own single piece. *)
Lemma split_on_single (sep : ascii -> bool) (s : string) :
  (1 <? List.length (Py.split_on sep s))%nat = false -> Py.split_on sep s = [s].
Proof.
  induction s as [|c r IH]; cbn [Py.split_on]; trivial.
  pose proof (split_on_nonempty sep r) as Hne.
  destruct (sep c).
  - destruct (Py.split_on sep r); [congruence | discriminate].
  - destruct (Py.split_on sep r) as [|w ws]; [congruence|].
    cbn [List.length] in *. intros H. injection (IH H) as -> ->. reflexivity.
Qed.

Lemma existsb_flat_map {A B} (p : B -> bool) (f : A -> list B) (l : list A) :
  existsb p (flat_map f l) = existsb (fun x => existsb p (f x)) l.
Proof.
  induction l as [|x l IH]; cbn; trivial. now rewrite existsb_app, IH.
Qed.

Lemma existsb_and_const {A} (p : A -> bool) (b : bool) (l : list A) :
  existsb (fun x => p x && b) l = existsb p l && b.
Proof.
  induction l as [|x l IH]; cbn; trivial. rewrite IH. now destruct (p x), b, (existsb p l).
Qed.

(** The two nested loops over the table and the brands test two
    independent memberships. *)
Lemma misleading_loops (dwt tld : string) :
  existsb
    (fun sub : string * list string =>
       existsb (fun brand => String.eqb dwt brand && Py.mem tld (snd sub)) popular_brands)
    tld_substitutions
  = Py.mem dwt popular_brands && Py.mem tld Spec.confusable_tlds.
Proof.
  unfold Spec.confusable_tlds, Py.mem at 3. rewrite existsb_flat_map.
  set (subs := tld_substitutions). clearbody subs.
  induction subs as [|sub subs IH]; cbn [existsb].
  - now rewrite andb_false_r.
  - rewrite IH, existsb_and_const. unfold Py.mem.
    now destruct (existsb (String.eqb dwt) popular_brands),
      (existsb (String.eqb tld) (snd sub)).
Qed.

Lemma rgtb_zero : Py.rgtb 0 3.5 = false.
Proof. apply rgtb_false. lra. Qed.

Lemma deceptive_value_range (m t h l : bool) :
  In (Spec.deceptive_value m t h l) [0.0; 0.5; 0.7; 0.8; 0.9; 1.0].
Proof. destruct m, t, h, l; cbn; tauto. Qed.

(** The sequence of [max] updates of the code picks the highest applicable
    value, the entropy being looked at only when the host has a dot. *)
Lemma check_deceptive_hostname_dotted (host : string) :
  _check_deceptive_hostname host = Spec.deceptive_hostname_dotted host.
Proof.
  unfold _check_deceptive_hostname, Spec.deceptive_hostname_dotted. cbv zeta.
  fold (Spec.stripped host). set (h := Spec.stripped host).
  rewrite misleading_loops.
  fold (Spec.labels h). fold (Spec.multi_label h). fold (Spec.first_label h).
  fold (Spec.long_domain h).
  assert (Ein : existsb (fun tld => Py.contains ("." ++ Py.drop 1 tld)%string h)
                  (suspicious_tlds ++ [".com"; ".org"; ".net"])
                = Spec.tld_in_name h) by reflexivity.
  rewrite Ein.
  assert (Ehigh : Py.rgtb (if Spec.multi_label h
                           then _calculate_entropy (Spec.first_label h) else 0%R) 3.5
                  = Spec.multi_label h && Spec.high_entropy h).
  { unfold Spec.high_entropy. destruct (Spec.multi_label h); [reflexivity | apply rgtb_zero]. }
  rewrite Ehigh.
  assert (Emis : Py.mem (if Spec.multi_label h
                         then Py.join "." (Py.init (Spec.labels h))
                         else Spec.first_label h) popular_brands
                 && Py.mem (if Spec.multi_label h
                            then ("." ++ last (Spec.labels h) "")%string else "")
                      Spec.confusable_tlds
                 = Spec.misleading_tld h).
  { unfold Spec.misleading_tld, Spec.non_tld_portion, Spec.tld_of, Spec.first_label.
    destruct (Spec.multi_label h) eqn:Em; [reflexivity|].
    unfold Spec.multi_label, Spec.labels, Py.split in *.
    now rewrite (split_on_single _ _ Em). }
  rewrite Emis.
  destruct (Spec.misleading_tld h), (Spec.tld_in_name h),
    (Spec.multi_label h && Spec.high_entropy h), (Spec.long_domain h); reflexivity.
Qed.

(** C4, as the code has it.  The feature is the highest applicable of 1.0
    (misleading TLD), 0.9 (a known TLD inside the stripped host), 0.8 (high
    entropy and long), 0.7 (high entropy), 0.5 (long) and 0.0, where the
    entropy of the first label counts only for a host of more than one label;
    so it is one of the six values. *)
Theorem deceptive_hostname_priority (host : string) :
  _check_deceptive_hostname host = Spec.deceptive_hostname_dotted host /\
  In (_check_deceptive_hostname host) [0.0; 0.5; 0.7; 0.8; 0.9; 1.0].
Proof.
  split; [apply check_deceptive_hostname_dotted|].
  rewrite check_deceptive_hostname_dotted. apply deceptive_value_range.
Qed.

(** Sixteen different characters carry four bits each. *)
Lemma entropy_sixteen_letters : _calculate_entropy "abcdefghijklmnop" = 4%R.
Proof.
  unfold _calculate_entropy.
  change (String.eqb "abcdefghijklmnop" "") with false. cbv iota.
  replace (Dict.values (char_count "abcdefghijklmnop")) with (repeat 1%nat 16)
    by (vm_compute; reflexivity).
  change (Py.len "abcdefghijklmnop") with 16%nat.
  assert (Ep : (INR 1 / INR 16 = / 16)%R).
  { rewrite !INR_IZR_INZ. cbn [Z.of_nat Pos.of_succ_nat Pos.succ]. lra. }
  assert (Hln2 : (0 < ln 2)%R) by (pose proof ln_lt_2; lra).
  assert (El : log2 (/ 16) = (- 4)%R).
  { unfold log2. rewrite ln_Rinv by lra.
    replace 16%R with (2 ^ 4)%R by lra.
    rewrite ln_pow by lra. replace (INR 4) with 4%R by (cbn; lra).
    field. lra. }
  cbn [repeat fold_left]. rewrite Ep, El. lra.
Qed.

Lemma single_label_code : _check_deceptive_hostname "abcdefghijklmnop" = 0.0.
Proof.
  rewrite check_deceptive_hostname_dotted. unfold Spec.deceptive_hostname_dotted.
  cbv zeta.
  replace (Spec.stripped "abcdefghijklmnop") with "abcdefghijklmnop"
    by (vm_compute; reflexivity).
  replace (Spec.multi_label "abcdefghijklmnop") with false by (vm_compute; reflexivity).
  reflexivity.
Qed.

Lemma single_label_spec : Spec.deceptive_hostname "abcdefghijklmnop" = 0.7.
Proof.
  unfold Spec.deceptive_hostname. cbv zeta.
  replace (Spec.stripped "abcdefghijklmnop") with "abcdefghijklmnop"
    by (vm_compute; reflexivity).
  assert (Eh : Spec.high_entropy "abcdefghijklmnop" = true).
  { unfold Spec.high_entropy.
    change (Spec.first_label "abcdefghijklmnop") with "abcdefghijklmnop".
    rewrite entropy_sixteen_letters. apply rgtb_true. lra. }
  rewrite Eh. reflexivity.
Qed.

(** C4, as the specification words it, fails on a host without a dot: the
    code never looks at the entropy of such a host, which the wording counts
    as its first label. *)
Lemma deceptive_hostname_single_label :
  _check_deceptive_hostname "abcdefghijklmnop" = 0.0 /\
  Spec.deceptive_hostname "abcdefghijklmnop" = 0.7 /\
  ~ _check_deceptive_hostname "abcdefghijklmnop" == Spec.deceptive_hostname "abcdefghijklmnop".
Proof.
  rewrite single_label_code, single_label_spec. repeat split. vm_compute. discriminate.
Qed.

(** Such a host reaches the extractor from a URL of an internal server. *)
Lemma single_label_url (lib : PyLib) :
  sget "hasDeceptiveHostname" (extract_from_url lib "http://abcdefghijklmnop/")
  = Some 0.0.
Proof.
  unfold extract_from_url, extract_from_url_try.
  replace (UrlParse.urlparse lib "http://abcdefghijklmnop/")
    with (Ok {| UrlParse.scheme := "http"; UrlParse.netloc := "abcdefghijklmnop";
                UrlParse.path := "/"; UrlParse.params := "";
                UrlParse.query := ""; UrlParse.fragment := "" |})
    by (vm_compute; reflexivity).
  cbn [bind]. unfold extract_parsed.
  cbn [UrlParse.scheme UrlParse.netloc UrlParse.path]. cbv zeta.
  change (Py.lower "abcdefghijklmnop") with "abcdefghijklmnop".
  rewrite single_label_code.
  vm_compute. reflexivity.
Qed.

End Deceptive.

(** ** End to end: [https://www.google.com] *)

Section Google.
Import FeatureExtractor PhishingDetector Scenario.
Local Open Scope R_scope.

Lemma exp_half_upper (x : R) : x < 2 -> exp x <= / ((1 - x / 2) * (1 - x / 2)).
Proof.
  intros Hx.
  assert (Hpos : 0 < 1 - x / 2) by lra.
  pose proof (exp_ineq1_le (- (x / 2))) as Hlow.
  pose proof (exp_pos (- (x / 2))) as Hp.
  replace x with (x / 2 + x / 2) at 1 by lra.
  rewrite exp_plus.
  assert (Hinv : exp (x / 2) <= / (1 - x / 2)).
  { replace (x / 2) with (- - (x / 2)) at 1 by lra. rewrite exp_Ropp.
    apply Rinv_le_contravar; lra. }
  pose proof (exp_pos (x / 2)) as Hp2.
  rewrite Rinv_mult.
  apply Rmult_le_compat; lra.
Qed.

(** The sigmoid between the bounds that bounds on the exponential give. *)
Lemma sigmoid_between (s lo hi : R) :
  0 < lo -> lo <= exp (- 12 * (s - 0.4)) <= hi ->
  / (1 + hi) <= sigmoid s <= / (1 + lo).
Proof.
  intros Hlo [H1 H2]. unfold sigmoid.
  replace (1 / (1 + exp (-12 * (s - 0.4)))) with (/ (1 + exp (- 12 * (s - 0.4))))
    by (unfold Rdiv; now rewrite Rmult_1_l).
  split; apply Rinv_le_contravar; lra.
Qed.

Lemma google_deceptive : _check_deceptive_hostname "www.google.com" = 0.9%Q.
Proof.
  rewrite check_deceptive_hostname_dotted. unfold Spec.deceptive_hostname_dotted.
  cbv zeta.
  replace (Spec.stripped "www.google.com") with "google.com" by (vm_compute; reflexivity).
  replace (Spec.misleading_tld "google.com") with false by (vm_compute; reflexivity).
  replace (Spec.tld_in_name "google.com") with true by (vm_compute; reflexivity).
  reflexivity.
Qed.

Lemma google_extracted (lib : PyLib) : extract_from_url lib google = google_features.
Proof.
  unfold extract_from_url, extract_from_url_try, google.
  replace (UrlParse.urlparse lib "https://www.google.com")
    with (Ok {| UrlParse.scheme := "https"; UrlParse.netloc := "www.google.com";
                UrlParse.path := ""; UrlParse.params := "";
                UrlParse.query := ""; UrlParse.fragment := "" |})
    by (vm_compute; reflexivity).
  cbn [bind]. unfold extract_parsed.
  cbn [UrlParse.scheme UrlParse.netloc UrlParse.path]. cbv zeta.
  change (Py.lower "www.google.com") with "www.google.com".
  rewrite google_deceptive.
  vm_compute. reflexivity.
Qed.

Lemma google_raw : (raw_score google_features == 251 # 700)%Q.
Proof. vm_compute. reflexivity. Qed.

Lemma google_score_bounds : 0.455 < final_score google_features < 0.51.
Proof.
  unfold final_score.
  replace (suspicious_count google_features) with 3%nat by (vm_compute; reflexivity).
  cbn [Nat.leb Z.of_nat Pos.of_succ_nat Pos.succ Z.sub Z.add Z.opp Z.pos_sub
       Pos.pred_double Z.double Z.succ_double Z.pred_double].
  rewrite (Qeq_eqR _ _ google_raw).
  assert (Er : Q2R (251 # 700) = 251 / 700) by (unfold Q2R; cbn [Qnum Qden]; lra).
  rewrite Er.
  set (x := -12 * (251 / 700 - 0.4)).
  assert (Ex : x = 87 / 175) by (unfold x; lra).
  pose proof (exp_ineq1_le x) as Hlow.
  pose proof (exp_half_upper x) as Hup.
  assert (Hup' : exp x <= 1.78).
  { eapply Rle_trans; [apply Hup; lra|]. rewrite Ex.
    apply Rmult_le_reg_r with ((1 - 87 / 175 / 2) * (1 - 87 / 175 / 2)); [nra|].
    rewrite Rinv_l by nra. nra. }
  destruct (sigmoid_between (251 / 700) 1.49 1.78) as [Hs1 Hs2]; [lra | fold x; lra |].
  assert (H1 : 0.359 < / (1 + 1.78)).
  { apply Rmult_lt_reg_r with (1 + 1.78); [lra|]. rewrite Rinv_l by lra. lra. }
  assert (H2 : / (1 + 1.49) < 0.402).
  { apply Rmult_lt_reg_r with (1 + 1.49); [lra|]. rewrite Rinv_l by lra. lra. }
  rewrite rmin_Rmin, Rmin_left by lra. lra.
Qed.

(** C3.  For [https://www.google.com] the extractor does report
    hasIPAddress = 0, isNotHttps = 0 and hasSuspiciousTLD = 0, and the raw
    score 251/700 is below the centre of the sigmoid; but it also reports
    hasBrandImpersonation = 0.9, hasDeceptiveHostname = 0.9 and domainAge =
    0.8, three strong signals, and the combination bonus carries the score
    over 0.45: the verdict is phishing, of Medium threat level. *)
Theorem google_verdict (lib : PyLib) :
  let features := extract_from_url lib google in
  let v := predict features in
  features = google_features /\
  sget "hasIPAddress" features = Some 0.0%Q /\
  sget "isNotHttps" features = Some 0.0%Q /\
  sget "hasSuspiciousTLD" features = Some 0.0%Q /\
  (raw_score features == 251 # 700)%Q /\
  isPhishing v = true /\
  threatLevel v = Medium.
Proof.
  cbv zeta. rewrite google_extracted.
  do 4 (split; [reflexivity|]).
  split; [exact google_raw|].
  unfold predict; cbn [isPhishing threatLevel].
  pose proof google_score_bounds as [Hlo Hhi].
  split.
  - apply rgtb_true. lra.
  - destruct (threat_level_cases (final_score google_features))
      as [[Hs _] | [[_ E] | [Hs _]]]; [lra | exact E | lra].
Qed.

End Google.

(** * Further properties of the code *)

(** ** The scorer: ranges *)

Section ScoreRange.
Import PhishingDetector.
Local Open Scope R_scope.

Lemma sigmoid_range (s : R) : 0 < sigmoid s < 1.
Proof.
  unfold sigmoid. pose proof (exp_pos (-12 * (s - 0.4))) as He.
  split.
  - apply Rdiv_lt_0_compat; lra.
  - apply Rmult_lt_reg_r with (1 + exp (-12 * (s - 0.4))); [lra|].
    unfold Rdiv. rewrite Rmult_assoc, Rinv_l by lra. lra.
Qed.

Lemma sigmoid_increasing (s1 s2 : R) : s1 <= s2 -> sigmoid s1 <= sigmoid s2.
Proof.
  intros Hs. unfold sigmoid.
  pose proof (exp_pos (-12 * (s1 - 0.4))) as H1.
  pose proof (exp_pos (-12 * (s2 - 0.4))) as H2.
  assert (He : exp (-12 * (s2 - 0.4)) <= exp (-12 * (s1 - 0.4))).
  { destruct (Req_dec s1 s2) as [->|Hne]; [lra|].
    left. apply exp_increasing. lra. }
  unfold Rdiv. rewrite !Rmult_1_l.
  apply Rinv_le_contravar; lra.
Qed.

(** The two ways [predict] ends: without and with the combination bonus. *)
Lemma final_score_cases (features : list (string * Q)) :
  let s := sigmoid (Q2R (raw_score features)) in
  let n := suspicious_count features in
  ((n < 3)%nat /\ final_score features = s) \/
  ((3 <= n)%nat /\ final_score features = Rmin (s + (INR n - 2) * 0.1) 1).
Proof.
  cbv zeta. unfold final_score.
  destruct (3 <=? suspicious_count features)%nat eqn:E.
  - apply Nat.leb_le in E. right. split; trivial.
    rewrite rmin_Rmin, minus_IZR, <- INR_IZR_INZ. f_equal. lra.
  - apply Nat.leb_gt in E. left. split; trivial.
Qed.

(** X1.  The score of a verdict lies in (0, 1]: it is never below the
    sigmoid of the raw score, which is positive, and the bonus is capped
    at 1. *)
Theorem predict_score_range (features : list (string * Q)) :
  let v := predict features in
  0 < sigmoid (Q2R (raw_score features)) <= score v /\ score v <= 1.
Proof.
  cbv zeta. unfold predict; cbn [score].
  pose proof (sigmoid_range (Q2R (raw_score features))) as [H0 H1].
  destruct (final_score_cases features) as [[Hn E] | [Hn E]]; rewrite E.
  - lra.
  - assert (Hb : 1 <= INR (suspicious_count features) - 2).
    { apply le_INR in Hn. cbn in Hn. lra. }
    split; [split; trivial|apply Rmin_r].
    apply Rmin_glb; nra.
Qed.

(** X2.  The confidence of a verdict lies in [0, 0.99], and in [0.6, 0.99]
    when the verdict is phishing. *)
Theorem predict_confidence_range (features : list (string * Q)) :
  let v := predict features in
  0 <= confidence v <= 0.99 /\
  (isPhishing v = true -> 0.6 <= confidence v).
Proof.
  cbv zeta. unfold predict; cbn [confidence isPhishing].
  set (s := final_score features).
  pose proof (Rabs_pos (s - 0.5)) as Ha.
  destruct (Py.rgtb s 0.45); rewrite !rmin_Rmin, ?rmax_Rmax.
  - assert (H6 : 0.6 <= Rmax (Rabs (s - 0.5) * 2) 0.6) by apply Rmax_r.
    assert (Hm : 0.6 <= Rmin (Rmax (Rabs (s - 0.5) * 2) 0.6) 0.99)
      by (apply Rmin_glb; lra).
    pose proof (Rmin_r (Rmax (Rabs (s - 0.5) * 2) 0.6) 0.99).
    repeat split; lra.
  - assert (Hm : 0 <= Rmin (Rabs (s - 0.5) * 2) 0.99) by (apply Rmin_glb; lra).
    pose proof (Rmin_r (Rabs (s - 0.5) * 2) 0.99).
    repeat split; first [lra | discriminate].
Qed.

End ScoreRange.

(** ** The scorer: monotonicity of the verdict *)

Section ScoreMonotone.
Import PhishingDetector.

Lemma suspicious_count_monotone (l : list (string * Q)) (f : string) (v1 v2 : Q) :
  sget f l = Some v1 -> (v1 <= v2)%Q ->
  (suspicious_count l <= suspicious_count (sset f v2 l))%nat.
Proof.
  intros Hget Hv. unfold suspicious_count.
  induction l as [|[k v] l IH]; [discriminate|].
  unfold sget, sset in *. cbn [Dict.get Dict.set] in *.
  destruct (String.eqb f k) eqn:E.
  - apply String.eqb_eq in E. subst k. injection Hget as ->.
    cbn [filter fst snd].
    destruct (Py.qgtb v1 0.5) eqn:E1.
    + apply qgtb_true in E1.
      assert (E2 : Py.qgtb v2 0.5 = true) by (apply qgtb_true; lra).
      rewrite E2. cbn [andb].
      destruct (Py.qgtb (weight_of f) 0.7); cbn [List.length]; apply Nat.le_refl.
    + cbn [andb]. destruct (Py.qgtb v2 0.5 && Py.qgtb (weight_of f) 0.7);
        cbn [List.length]; auto.
  - specialize (IH Hget). cbn [filter].
    destruct (Py.qgtb (snd (k, v)) 0.5 && Py.qgtb (weight_of (fst (k, v))) 0.7);
      cbn [List.length]; auto using le_n_S.
Qed.

Local Open Scope R_scope.

Lemma final_score_monotone (l : list (string * Q)) (f : string) (v1 v2 : Q) :
  sget f l = Some v1 -> (v1 <= v2)%Q ->
  final_score l <= final_score (sset f v2 l).
Proof.
  intros Hget Hv.
  pose proof (raw_monotone l f v1 v2 Hget Hv) as Hraw.
  apply Qle_Rle, sigmoid_increasing in Hraw.
  pose proof (suspicious_count_monotone l f v1 v2 Hget Hv) as Hn.
  pose proof (sigmoid_range (Q2R (raw_score l))) as [_ H1].
  pose proof (sigmoid_range (Q2R (raw_score (sset f v2 l)))) as [_ H2].
  destruct (final_score_cases l) as [[N1 E1] | [N1 E1]];
    destruct (final_score_cases (sset f v2 l)) as [[N2 E2] | [N2 E2]];
    rewrite E1, E2.
  - exact Hraw.
  - assert (Hb : 1 <= INR (suspicious_count (sset f v2 l)) - 2).
    { apply le_INR in N2. cbn in N2. lra. }
    apply Rmin_glb; nra.
  - exfalso. apply (Nat.lt_irrefl 3). eapply Nat.le_lt_trans; [exact N1|].
    eapply Nat.le_lt_trans; [exact Hn | exact N2].
  - apply le_INR in Hn.
    apply Rle_min_compat_r. nra.
Qed.

(** X3.  Raising the value of one feature, the others unchanged, never
    lowers the final score, so it never turns a phishing verdict into a
    legitimate one. *)
Theorem predict_monotone (features : list (string * Q)) (f : string) (v1 v2 : Q) :
  sget f features = Some v1 -> (v1 <= v2)%Q ->
  score (predict features) <= score (predict (sset f v2 features)) /\
  (isPhishing (predict features) = true ->
   isPhishing (predict (sset f v2 features)) = true).
Proof.
  intros Hget Hv.
  pose proof (final_score_monotone features f v1 v2 Hget Hv) as Hs.
  unfold predict; cbn [score isPhishing]. split; [exact Hs|].
  rewrite !rgtb_true. lra.
Qed.

Lemma predict_monotone_witness :
  let features := [("urlLength", 0.5%Q); ("hasAtSymbol", 0.0%Q)] in
  sset "hasAtSymbol" 1.0%Q features = [("urlLength", 0.5%Q); ("hasAtSymbol", 1.0%Q)] /\
  score (predict features) <= score (predict (sset "hasAtSymbol" 1.0%Q features)).
Proof.
  cbv zeta. split; [reflexivity|].
  apply (predict_monotone [("urlLength", 0.5%Q); ("hasAtSymbol", 0.0%Q)]
           "hasAtSymbol" 0.0%Q 1.0%Q).
  - reflexivity.
  - vm_compute; discriminate.
Defined.

End ScoreMonotone.

(** ** The scorer: the raw score, unknown features and the empty mapping *)

Section ScoreEdges.
Import PhishingDetector.
Local Open Scope Q_scope.

Lemma contribution_bounds (item : string * Q) :
  0 <= snd item <= 1 ->
  0 <= Spec.contribution item <= 1.5 * Spec.weight item.
Proof.
  destruct item as [f v]. cbn [snd]. intros [H0 H1].
  unfold Spec.contribution, Spec.weight; cbn [fst snd].
  pose proof (weight_of_nonneg f) as Hw.
  destruct (existsb (String.eqb f) Spec.critical && Py.qgtb v 0.5); split; nra.
Qed.

Lemma contribution_sum_bounds (l : list (string * Q)) :
  Forall (fun item => 0 <= snd item <= 1) l ->
  0 <= Spec.sumQ (map Spec.contribution l) <= 1.5 * Spec.sumQ (map Spec.weight l).
Proof.
  induction 1 as [|item l Hi _ IH]; cbn [map].
  - unfold Spec.sumQ; cbn. split; lra.
  - rewrite !sumQ_cons. pose proof (contribution_bounds item Hi). lra.
Qed.

(** X4.  When every value lies in [0, 1] the raw score lies in [0, 1.5]:
    the division by the sum of the weights does not bring it back under 1,
    because of the factor 1.5 of the critical features. *)
Theorem raw_score_bounds (features : list (string * Q)) :
  Forall (fun item => 0 <= snd item <= 1) features ->
  0 <= raw_score features <= 1.5.
Proof.
  intros Hall. rewrite raw_score_spec. unfold Spec.raw.
  pose proof (contribution_sum_bounds features Hall) as [Hc0 Hc1].
  pose proof (sum_weights_nonneg features) as Hw.
  destruct (Qeq_bool (Spec.sumQ (map Spec.weight features)) 0) eqn:E; [split; lra|].
  apply Qeq_bool_neq in E.
  assert (Hpos : 0 < Spec.sumQ (map Spec.weight features)) by lra.
  split.
  - apply Qle_shift_div_l; [exact Hpos | lra].
  - apply Qle_shift_div_r; [exact Hpos | lra].
Qed.

Lemma raw_score_bounds_witness :
  raw_score [("hasIPAddress", 1.0)] == 1.5 /\
  0 <= raw_score [("hasIPAddress", 1.0)] <= 1.5.
Proof.
  split; [vm_compute; reflexivity|].
  apply (raw_score_bounds [("hasIPAddress", 1.0)]).
  repeat constructor; cbn; vm_compute; discriminate.
Defined.

Lemma sget_none_not_in {V} (d : list (string * V)) (k : string) :
  sget k d = None -> ~ In k (map fst d).
Proof.
  unfold sget. induction d as [|[k' v'] d IH]; cbn; [tauto|].
  destruct (String.eqb k k') eqn:E; [discriminate|].
  apply String.eqb_neq in E. intros H [H'|H']; [congruence | now apply IH].
Qed.

(** The contributions recorded by the loop are keyed by the features seen. *)
Lemma contributions_keys (l : list (string * Q)) (st : acc) (k : string) :
  sget k l = None -> sget k (acc_contributions st) = None ->
  sget k (acc_contributions (fold_left loop_body l st)) = None.
Proof.
  revert st. induction l as [|[f v] l IH]; intros st Hl Hst; cbn [fold_left]; trivial.
  unfold sget in Hl. cbn [Dict.get] in Hl.
  destruct (String.eqb k f) eqn:E; [discriminate|].
  apply IH; [exact Hl|].
  cbn [loop_body acc_contributions]. rewrite sget_sset_other; trivial.
  now apply String.eqb_neq.
Qed.

Lemma raw_score_unknown (l : list (string * Q)) (k : string) (v : Q) :
  weight_of k = 0 -> raw_score (l ++ [(k, v)]) == raw_score l.
Proof.
  intros Hw. rewrite !raw_score_spec. unfold Spec.raw.
  rewrite !map_app. cbn [map].
  assert (Hsum : forall a x, Spec.sumQ (a ++ [x]) == Spec.sumQ a + x).
  { induction a as [|y a IH]; intro x; cbn [app]; rewrite ?sumQ_cons.
    - unfold Spec.sumQ; cbn. ring.
    - rewrite IH. ring. }
  assert (Ec : Spec.contribution (k, v) == 0).
  { unfold Spec.contribution, Spec.weight; cbn [fst snd]. rewrite Hw.
    destruct (existsb (String.eqb k) Spec.critical && Py.qgtb v 0.5); ring. }
  assert (Ew : Spec.weight (k, v) == 0) by (unfold Spec.weight; cbn [fst]; now rewrite Hw).
  assert (E1 : Spec.sumQ (map Spec.contribution l ++ [Spec.contribution (k, v)])
               == Spec.sumQ (map Spec.contribution l)) by (rewrite Hsum, Ec; ring).
  assert (E2 : Spec.sumQ (map Spec.weight l ++ [Spec.weight (k, v)])
               == Spec.sumQ (map Spec.weight l)) by (rewrite Hsum, Ew; ring).
  destruct (Qeq_bool (Spec.sumQ (map Spec.weight l ++ [Spec.weight (k, v)])) 0) eqn:Ea;
    destruct (Qeq_bool (Spec.sumQ (map Spec.weight l)) 0) eqn:Eb.
  - reflexivity.
  - apply Qeq_bool_eq in Ea. apply Qeq_bool_neq in Eb. rewrite E2 in Ea. contradiction.
  - apply Qeq_bool_eq in Eb. apply Qeq_bool_neq in Ea. rewrite E2 in Ea. contradiction.
  - now rewrite E1, E2.
Qed.

(** X5.  A feature the weight table does not know is ignored: adding it to
    a mapping, with any value, leaves the whole verdict unchanged. *)
Theorem predict_ignores_unknown (features : list (string * Q)) (k : string) (v : Q) :
  sget k feature_weights = None ->
  sget k features = None ->
  predict (sset k v features) = predict features.
Proof.
  intros Hk Hf.
  assert (Hw : weight_of k = 0) by (unfold weight_of; now rewrite Hk).
  rewrite (sset_fresh _ _ _ (sget_none_not_in _ _ Hf)).
  assert (Escore : final_score (features ++ [(k, v)]) = final_score features).
  { unfold final_score.
    rewrite (Qeq_eqR _ _ (raw_score_unknown features k v Hw)).
    assert (En : suspicious_count (features ++ [(k, v)]) = suspicious_count features).
    { unfold suspicious_count. rewrite filter_app, length_app. cbn [filter fst snd].
      rewrite Hw. replace (Py.qgtb 0 0.7) with false by reflexivity.
      rewrite andb_false_r. cbn. apply Nat.add_0_r. }
    now rewrite En. }
  assert (Econtrib :
            filter (fun fc : string * Q => Py.qgtb (snd fc) 0)
              (acc_contributions (scoring_loop (features ++ [(k, v)])))
            = filter (fun fc : string * Q => Py.qgtb (snd fc) 0)
                (acc_contributions (scoring_loop features))).
  { unfold scoring_loop. rewrite fold_left_app. cbn [fold_left loop_body acc_contributions].
    rewrite sset_fresh.
    - rewrite filter_app. cbn [filter snd]. rewrite Hw.
      assert (E0 : Py.qgtb (if Py.mem k critical_features && Py.qgtb v 0.5
                            then v * 0 * 1.5 else v * 0) 0 = false).
      { apply qgtb_false.
        destruct (Py.mem k critical_features && Py.qgtb v 0.5); nra. }
      rewrite E0. apply app_nil_r.
    - apply sget_none_not_in, contributions_keys; [exact Hf | reflexivity]. }
  unfold predict. rewrite Escore, Econtrib. reflexivity.
Qed.

Lemma predict_ignores_unknown_witness :
  sset "pageRank" 1.0 [("hasIPAddress", 1.0)] = [("hasIPAddress", 1.0); ("pageRank", 1.0)] /\
  predict (sset "pageRank" 1.0 [("hasIPAddress", 1.0)]) = predict [("hasIPAddress", 1.0)].
Proof.
  split; [reflexivity|].
  apply (predict_ignores_unknown [("hasIPAddress", 1.0)] "pageRank" 1.0); reflexivity.
Defined.

End ScoreEdges.

(** ** A URL that cannot be parsed *)

Section FailSoft.
Import FeatureExtractor PhishingDetector.
Local Open Scope R_scope.

Lemma empty_score_bounds : 0 < final_score [] < 0.15.
Proof.
  unfold final_score. change (suspicious_count []) with 0%nat. cbn [Nat.leb].
  change (raw_score []) with 0%Q.
  replace (Q2R 0) with 0 by (unfold Q2R; cbn; lra).
  pose proof (sigmoid_range 0) as [H0 _]. split; [exact H0|].
  destruct (sigmoid_between 0 5.8 (exp (- 12 * (0 - 0.4)))) as [_ Hs].
  - lra.
  - pose proof (exp_ineq1_le (- 12 * (0 - 0.4))). lra.
  - eapply Rle_lt_trans; [exact Hs|].
    apply Rmult_lt_reg_r with (1 + 5.8); [lra|]. rewrite Rinv_l by lra. lra.
Qed.

(** X6.  When [extract_from_url] falls back on the empty mapping, the
    verdict computed from it is "not phishing", of Low threat level, with a
    confidence of at least 0.7 and no contributing feature: a URL that
    cannot be parsed is reported as safe. *)
Theorem unparsable_url_verdict (lib : PyLib) (url : string) :
  extract_from_url lib url = [] ->
  let v := predict (extract_from_url lib url) in
  isPhishing v = false /\ threatLevel v = Low /\
  0.7 <= confidence v /\ topFeatures v = [] /\ explanations v = [].
Proof.
  intros ->. cbv zeta. unfold predict.
  cbn [isPhishing threatLevel confidence topFeatures explanations].
  pose proof empty_score_bounds as [H0 H1].
  assert (Ep : Py.rgtb (final_score []) 0.45 = false) by (apply rgtb_false; lra).
  rewrite Ep. split; [reflexivity|]. split.
  - destruct (threat_level_cases (final_score [])) as [[_ E] | [[Hs _] | [Hs _]]];
      [exact E | lra | lra].
  - split; [|split; reflexivity].
    rewrite rmin_Rmin. apply Rmin_glb; [|lra].
    rewrite Rabs_left by lra. lra.
Qed.

Lemma unparsable_url_verdict_witness :
  extract_from_url strict_lib "http://[::1/login" = [] /\
  isPhishing (predict (extract_from_url strict_lib "http://[::1/login")) = false.
Proof.
  assert (H : extract_from_url strict_lib "http://[::1/login" = [])
    by (vm_compute; reflexivity).
  split; [exact H|].
  exact (proj1 (unparsable_url_verdict strict_lib "http://[::1/login" H)).
Defined.

End FailSoft.

(** ** The scorer: the top features *)

Section TopFeatures.
Import PhishingDetector.
Local Open Scope Q_scope.

Lemma loop_contributions (l : list (string * Q)) (st : acc) :
  NoDup (map fst (acc_contributions st) ++ map fst l) ->
  acc_contributions (fold_left loop_body l st)
  = acc_contributions st ++ map Props.with_contribution l.
Proof.
  revert st. induction l as [|[f v] l IH]; intros st Hnd; cbn [fold_left map].
  - now rewrite app_nil_r.
  - assert (Hf : ~ In f (map fst (acc_contributions st))).
    { apply NoDup_remove_2 in Hnd. intros Hin. apply Hnd, in_or_app. now left. }
    rewrite IH; cbn [loop_body acc_contributions]; rewrite (sset_fresh _ _ _ Hf).
    + rewrite <- app_assoc. reflexivity.
    + rewrite map_app, <- app_assoc. exact Hnd.
Qed.

Lemma scoring_loop_contributions (l : list (string * Q)) :
  NoDup (map fst l) ->
  acc_contributions (scoring_loop l) = map Props.with_contribution l.
Proof.
  intros Hnd. unfold scoring_loop. now rewrite loop_contributions.
Qed.

Lemma StronglySorted_app_le {A} (R : A -> A -> Prop) (l1 l2 : list A) :
  StronglySorted R (l1 ++ l2) ->
  StronglySorted R l1 /\ forall a b, In a l1 -> In b l2 -> R a b.
Proof.
  induction l1 as [|x l1 IH]; cbn [app]; intros Hs.
  - split; [constructor | intros a b []].
  - inversion Hs as [|? ? Hs' Hx]; subst. destruct (IH Hs') as [H1 H2].
    split.
    + constructor; trivial. rewrite Forall_forall in *.
      intros y Hy. apply Hx, in_or_app. now left.
    + intros a b [<-|Ha] Hb; [|now apply H2].
      rewrite Forall_forall in Hx. apply Hx, in_or_app. now right.
Qed.

Lemma StronglySorted_map_in {A B} (R : A -> A -> Prop) (R' : B -> B -> Prop)
      (g : A -> B) (l : list A) :
  (forall a b, In a l -> In b l -> R a b -> R' (g a) (g b)) ->
  StronglySorted R l -> StronglySorted R' (map g l).
Proof.
  intros Hg Hs. induction Hs as [|x l Hs IH Hx]; cbn [map]; constructor.
  - apply IH. intros a b Ha Hb. apply Hg; now right.
  - rewrite Forall_forall in *. intros y Hy.
    apply in_map_iff in Hy as [a [<- Ha]]. apply Hg; [now left | now right | now apply Hx].
Qed.

Lemma positive_contribution (f : string) (x : Q) :
  0 < Spec.contribution (f, x) -> 0 < x /\ 0 < weight_of f.
Proof.
  unfold Spec.contribution, Spec.weight; cbn [fst snd].
  pose proof (weight_of_nonneg f) as Hw. intros Hc.
  destruct (Qlt_le_dec 0 (weight_of f)) as [Hpos|Hle].
  - split; [|exact Hpos].
    destruct (Qlt_le_dec 0 x) as [Hx|Hx]; trivial. exfalso.
    destruct (existsb (String.eqb f) Spec.critical && Py.qgtb x 0.5); nra.
  - exfalso. assert (E : x * weight_of f == 0).
    { assert (E0 : weight_of f == 0) by lra. rewrite E0. ring. }
    destruct (existsb (String.eqb f) Spec.critical && Py.qgtb x 0.5); lra.
Qed.

(** X7.  On a feature dictionary, [topFeatures] names at most five
    features, each once; each has a positive value, a positive weight and so
    a positive contribution; they come in descending order of contribution;
    no feature left out contributes more than one that is listed; and
    [explanations] is the list of their sentences, in the same order. *)
Theorem top_features_largest (features : list (string * Q)) :
  NoDup (map fst features) ->
  let v := predict features in
  let c := Props.contribution_of features in
  (List.length (topFeatures v) <= 5)%nat /\
  NoDup (topFeatures v) /\
  (forall f, In f (topFeatures v) ->
     exists x, sget f features = Some x /\ 0 < x /\ 0 < weight_of f /\ 0 < c f) /\
  StronglySorted (fun f g => c g <= c f) (topFeatures v) /\
  (forall f g, In f (topFeatures v) -> ~ In g (topFeatures v) -> c g <= c f) /\
  explanations v = map _get_feature_explanation (topFeatures v).
Proof.
  intros Hnd. cbv zeta. unfold predict; cbn [topFeatures explanations].
  rewrite (scoring_loop_contributions features Hnd).
  set (C := filter (fun fc : string * Q => Py.qgtb (snd fc) 0) (map Props.with_contribution features)).
  set (S := sort_desc Py.qgtb snd C).
  assert (Hperm : Permutation S C) by apply sort_desc_perm.
  assert (Hsorted : StronglySorted (desc snd) S) by apply sort_desc_sorted.
  assert (HC : forall f k, In (f, k) C ->
             exists x, sget f features = Some x /\ k = Spec.contribution (f, x) /\ 0 < k).
  { intros f k Hin. apply filter_In in Hin as [Hin Hpos]. cbn [snd] in Hpos.
    apply in_map_iff in Hin as [[f' x] [E Hin]]. injection E as -> <-.
    exists x. split; [now apply sget_in|]. split; [reflexivity | now apply qgtb_true]. }
  assert (Hc : forall f k, In (f, k) C -> Props.contribution_of features f = k).
  { intros f k Hin. destruct (HC f k Hin) as [x [Hget [-> _]]].
    unfold Props.contribution_of. now rewrite Hget. }
  assert (Hkeys : NoDup (map fst S)).
  { apply (Permutation_NoDup (l := map fst C)); [now apply Permutation_map, Permutation_sym|].
    unfold C. apply NoDup_keys_filter.
    rewrite map_map. cbn [Props.with_contribution fst]. exact Hnd. }
  assert (Hsplit : S = firstn 5 S ++ skipn 5 S) by (symmetry; apply firstn_skipn).
  assert (HinT : forall fc, In fc (firstn 5 S) -> In fc C).
  { intros fc Hin. apply (Permutation_in _ Hperm). rewrite Hsplit.
    apply in_or_app. now left. }
  rewrite Hsplit in Hsorted. apply StronglySorted_app_le in Hsorted as [HsT Hrest].
  split; [rewrite length_map; apply firstn_le_length|].
  split.
  { rewrite Hsplit, map_app in Hkeys. now apply NoDup_app_remove_r in Hkeys. }
  split.
  { intros f Hin. apply in_map_iff in Hin as [[f' k] [E Hin]]. cbn [fst] in E. subst f'.
    apply HinT in Hin. destruct (HC f k Hin) as [x [Hget [Ek Hk]]].
    exists x. rewrite (Hc f k Hin). rewrite Ek in Hk.
    destruct (positive_contribution f x Hk) as [Hx Hw]. rewrite Ek. auto. }
  split.
  { apply (StronglySorted_map_in (desc snd)); [|exact HsT].
    intros [f k] [g k'] Hf Hg Hle. cbn [fst]. unfold desc in Hle. cbn [snd] in Hle.
    now rewrite (Hc f k (HinT _ Hf)), (Hc g k' (HinT _ Hg)). }
  split; [|now rewrite map_map].
  intros f g Hf Hg. apply in_map_iff in Hf as [[f' k] [E Hf]]. cbn [fst] in E. subst f'.
  pose proof (HinT _ Hf) as HfC. rewrite (Hc f k HfC).
  destruct (HC f k HfC) as [_ [_ [_ Hk]]].
  unfold Props.contribution_of at 1.
  destruct (sget g features) as [y|] eqn:Hget; [|lra].
  destruct (Py.qgtb (Spec.contribution (g, y)) 0) eqn:Epos.
  - assert (HgC : In (g, Spec.contribution (g, y)) C).
    { apply filter_In. split; [|exact Epos].
      apply in_map_iff. exists (g, y). split; [reflexivity|].
      clear - Hget. unfold sget in Hget.
      induction features as [|[k' v'] l IH]; [discriminate|].
      cbn [Dict.get] in Hget. destruct (String.eqb g k') eqn:E.
      - apply String.eqb_eq in E. subst. injection Hget as ->. now left.
      - right. now apply IH. }
    apply (Permutation_in _ (Permutation_sym Hperm)) in HgC.
    rewrite Hsplit in HgC. apply in_app_or in HgC as [HgT | HgR].
    + exfalso. apply Hg. apply in_map_iff. exists (g, Spec.contribution (g, y)). auto.
    + exact (Hrest _ _ Hf HgR).
  - apply qgtb_false in Epos. lra.
Qed.

Lemma top_features_largest_witness :
  let features := [("urlLength", 1.0); ("hasIPAddress", 1.0); ("hasHyphens", 0.0)] in
  topFeatures (predict features) = ["hasIPAddress"; "urlLength"] /\
  (List.length (topFeatures (predict features)) <= 5)%nat.
Proof.
  cbv zeta. split; [reflexivity|].
  apply (top_features_largest [("urlLength", 1.0); ("hasIPAddress", 1.0); ("hasHyphens", 0.0)]).
  repeat constructor; cbn; intuition discriminate.
Defined.

End TopFeatures.

(** ** The threat level of a verdict and the level listed for it *)

Section Levels.
Import PhishingDetector DBConnector.
Local Open Scope R_scope.

Lemma calculate_threat_level_cases (s : R) :
  (s < 0.2 /\ _calculate_threat_level s = safe) \/
  (0.2 <= s < 0.5 /\ _calculate_threat_level s = low) \/
  (0.5 <= s < 0.8 /\ _calculate_threat_level s = medium) \/
  (0.8 <= s /\ _calculate_threat_level s = high).
Proof.
  unfold _calculate_threat_level.
  destruct (Rlt_dec s 0.2); [left; split; trivial|].
  destruct (Rlt_dec s 0.5); [right; left; split; trivial; lra|].
  destruct (Rlt_dec s 0.8); [right; right; left | right; right; right];
    split; trivial; lra.
Qed.

(** X8.  The level that the list of recent detections computes from a stored
    score uses other thresholds than the verdict: it is never above the
    verdict's threat level and can be one tier below it.  A Low verdict is
    listed safe or low; a Medium one low or medium; a High one medium or
    high, and medium exactly when its score is below 0.8; and a score above
    the phishing threshold 0.45 is never listed as safe. *)
Theorem listed_level_vs_threat_level (s : R) :
  (_get_threat_level s = Low ->
   _calculate_threat_level s = safe \/ _calculate_threat_level s = low) /\
  (_get_threat_level s = Medium ->
   _calculate_threat_level s = low \/ _calculate_threat_level s = medium) /\
  (_get_threat_level s = High ->
   _calculate_threat_level s = medium \/ _calculate_threat_level s = high) /\
  (_get_threat_level s = High /\ _calculate_threat_level s = medium <-> 0.55 <= s < 0.8) /\
  (_get_threat_level s = Medium /\ _calculate_threat_level s = low <-> 0.25 <= s < 0.5) /\
  (0.45 < s -> _calculate_threat_level s <> safe).
Proof.
  destruct (threat_level_cases s) as [[Hd Ed] | [[Hd Ed] | [Hd Ed]]];
    destruct (calculate_threat_level_cases s) as [[Hl El] | [[Hl El] | [[Hl El] | [Hl El]]]];
    rewrite Ed, El; try lra;
    repeat split; intros; try discriminate; try lra; auto;
    match goal with
    | H : _ /\ _ |- _ => destruct H; try discriminate; try lra
    | _ => idtac
    end.
Qed.

End Levels.

(** ** The extractor: string similarity *)

Section Similarity.
Import FeatureExtractor.

Lemma lower_length (s : string) : Py.len (Py.lower s) = Py.len s.
Proof. unfold Py.len. induction s as [|c s IH]; cbn; congruence. Qed.

Lemma lower_empty (s : string) : String.eqb (Py.lower s) "" = String.eqb s "".
Proof. now destruct s. Qed.

Lemma zip_matches_sym (a b : string) : zip_matches a b = zip_matches b a.
Proof.
  revert b. induction a as [|c a IH]; destruct b as [|d b]; cbn; trivial.
  now rewrite IH, Ascii.eqb_sym.
Qed.

Lemma zip_matches_le (a b : string) :
  (zip_matches a b <= Nat.min (Py.len a) (Py.len b))%nat.
Proof.
  unfold Py.len. revert b. induction a as [|c a IH]; destruct b as [|d b]; cbn; auto.
  specialize (IH b). destruct (Ascii.eqb c d); cbn; auto using le_n_S, Nat.le_le_succ_r.
Qed.

Lemma zip_matches_refl (a : string) : zip_matches a a = Py.len a.
Proof.
  unfold Py.len. induction a as [|c a IH]; cbn; trivial.
  now rewrite Ascii.eqb_refl, IH.
Qed.

(** All positions match and none is left over only for equal strings. *)
Lemma zip_matches_full (a b : string) :
  zip_matches a b = Nat.max (Py.len a) (Py.len b) -> a = b.
Proof.
  unfold Py.len. revert b. induction a as [|c a IH]; destruct b as [|d b]; cbn;
    try discriminate; trivial.
  pose proof (zip_matches_le a b) as Hle. unfold Py.len in Hle.
  destruct (Ascii.eqb c d) eqn:E; cbn.
  - apply Ascii.eqb_eq in E. subst d. intros H. f_equal. apply IH.
    now injection H.
  - intros H. exfalso.
    assert (Nat.min (String.length a) (String.length b)
            <= Nat.max (String.length a) (String.length b))%nat
      by (etransitivity; [apply Nat.le_min_l | apply Nat.le_max_l]).
    rewrite H in Hle.
    apply (Nat.nle_succ_diag_l (Nat.max (String.length a) (String.length b))).
    etransitivity; eassumption.
Qed.

Local Open Scope Q_scope.

Lemma ratio_bounds (m n : nat) :
  (m <= n)%nat -> (0 < n)%nat ->
  0 <= inject_Z (Z.of_nat m) / inject_Z (Z.of_nat n) <= 1.
Proof.
  intros Hmn Hn.
  assert (Hpos : 0 < inject_Z (Z.of_nat n)).
  { change 0 with (inject_Z 0). rewrite <- Zlt_Qlt. apply (Nat2Z.inj_lt 0). exact Hn. }
  split.
  - apply Qle_shift_div_l; trivial. rewrite Qmult_0_l.
    change 0 with (inject_Z 0). rewrite <- Zle_Qle. apply Nat2Z.is_nonneg.
  - apply Qle_shift_div_r; trivial. rewrite Qmult_1_l.
    rewrite <- Zle_Qle. now apply Nat2Z.inj_le.
Qed.

(** X9.  The similarity of two strings is a ratio in [0, 1] that does not
    depend on their order; it is 0 when one of them is empty; and it
    reaches 1 exactly for two non-empty strings that are equal up to the
    case of their letters. *)
Theorem string_similarity_facts (s1 s2 : string) :
  0 <= _string_similarity s1 s2 <= 1 /\
  _string_similarity s1 s2 = _string_similarity s2 s1 /\
  (s1 = "" \/ s2 = "" -> _string_similarity s1 s2 = 0.0) /\
  (_string_similarity s1 s2 == 1 <-> s1 <> "" /\ Py.lower s1 = Py.lower s2).
Proof.
  unfold _string_similarity.
  split; [|split; [|split]].
  - destruct (String.eqb s1 "" || String.eqb s2 ""); [split; discriminate|].
    destruct (0 <? Nat.max (Py.len (Py.lower s1)) (Py.len (Py.lower s2)))%nat eqn:E;
      [|split; discriminate].
    apply Nat.ltb_lt in E. apply ratio_bounds; trivial.
    etransitivity; [apply zip_matches_le|].
    etransitivity; [apply Nat.le_min_l | apply Nat.le_max_l].
  - now rewrite orb_comm, zip_matches_sym, Nat.max_comm.
  - intros [-> | ->]; cbn [String.eqb orb]; trivial. now rewrite orb_true_r.
  - destruct (String.eqb s1 "") eqn:E1; cbn [orb].
    { apply String.eqb_eq in E1. split; [discriminate | tauto]. }
    apply String.eqb_neq in E1.
    destruct (String.eqb s2 "") eqn:E2.
    { apply String.eqb_eq in E2. subst s2. split; [discriminate|].
      intros [_ H]. destruct s1; [tauto | discriminate]. }
    set (m := zip_matches (Py.lower s1) (Py.lower s2)).
    set (n := Nat.max (Py.len (Py.lower s1)) (Py.len (Py.lower s2))).
    assert (Hn : (0 < n)%nat).
    { unfold n. rewrite lower_length. destruct s1; [tauto|].
      eapply Nat.lt_le_trans; [|apply Nat.le_max_l]. cbn. apply Nat.lt_0_succ. }
    apply Nat.ltb_lt in Hn as Hb. rewrite Hb.
    assert (Hq : ~ inject_Z (Z.of_nat n) == 0).
    { change 0 with (inject_Z 0). rewrite inject_Z_injective.
      intros H. apply (Nat2Z.inj n 0) in H. subst n. rewrite H in Hn.
      now apply Nat.lt_irrefl in Hn. }
    split.
    + intros H. split; trivial. apply zip_matches_full. fold m n.
      apply Nat2Z.inj, inject_Z_injective.
      rewrite <- (Qmult_1_l (inject_Z (Z.of_nat n))), <- H. field. exact Hq.
    + intros [_ H]. unfold m, n. rewrite H, zip_matches_refl, Nat.max_id.
      field. fold n in Hq. unfold n in Hq. now rewrite H, Nat.max_id in Hq.
Qed.

End Similarity.

(** ** The extractor: character counts and entropy *)

Section Entropy.
Import FeatureExtractor.

Lemma char_count_fold (text : string) :
  char_count text = fold_left bump (list_ascii_of_string text) [].
Proof. reflexivity. Qed.

Lemma bump_sum (d : list (ascii * nat)) (c : ascii) :
  list_sum (Dict.values (bump d c)) = S (list_sum (Dict.values d)).
Proof.
  unfold bump, count_of, Dict.values.
  unfold list_sum in *.
  induction d as [|[k n] d IH]; cbn [Dict.get Dict.set map fold_right]; [reflexivity|].
  destruct (Ascii.eqb c k) eqn:E; cbn [map fold_right fst snd].
  - rewrite Nat.add_1_r. reflexivity.
  - rewrite IH. apply Nat.add_succ_r.
Qed.

Lemma bump_keys (d : list (ascii * nat)) (c : ascii) :
  map fst (bump d c) = if existsb (Ascii.eqb c) (map fst d) then map fst d
                       else map fst d ++ [c].
Proof.
  unfold bump, count_of.
  induction d as [|[k n] d IH]; cbn [Dict.get Dict.set map existsb fst]; [reflexivity|].
  destruct (Ascii.eqb c k) eqn:E; cbn [map fst orb].
  - apply Ascii.eqb_eq in E. now subst.
  - rewrite IH. now destruct (existsb (Ascii.eqb c) (map fst d)).
Qed.

Lemma bump_positive (d : list (ascii * nat)) (c : ascii) :
  Forall (fun n => 1 <= n)%nat (Dict.values d) ->
  Forall (fun n => 1 <= n)%nat (Dict.values (bump d c)).
Proof.
  unfold bump, count_of, Dict.values.
  induction d as [|[k n] d IH]; cbn [Dict.get Dict.set map]; intros H.
  - repeat constructor.
  - inversion H as [|? ? Hn Hd]; subst.
    destruct (Ascii.eqb c k); cbn [map snd]; constructor; auto.
    rewrite Nat.add_1_r. apply le_n_S, Nat.le_0_l.
Qed.

Lemma existsb_eqb_in (c : ascii) (l : list ascii) :
  existsb (Ascii.eqb c) l = true <-> In c l.
Proof.
  rewrite existsb_exists. split.
  - intros [x [Hx E]]. apply Ascii.eqb_eq in E. now subst.
  - intros H. exists c. split; trivial. apply Ascii.eqb_refl.
Qed.

Lemma fold_bump_invariant (l : list ascii) (d : list (ascii * nat)) :
  NoDup (map fst d) ->
  Forall (fun n => 1 <= n)%nat (Dict.values d) ->
  let d' := fold_left bump l d in
  list_sum (Dict.values d') = (list_sum (Dict.values d) + List.length l)%nat /\
  NoDup (map fst d') /\
  Forall (fun n => 1 <= n)%nat (Dict.values d') /\
  (forall c, In c (map fst d') <-> In c (map fst d) \/ In c l).
Proof.
  cbv zeta. revert d. induction l as [|c l IH]; intros d Hnd Hpos; cbn [fold_left].
  - rewrite Nat.add_0_r. repeat split; trivial; cbn [In]; intros; tauto.
  - assert (Hnd' : NoDup (map fst (bump d c))).
    { rewrite bump_keys. destruct (existsb (Ascii.eqb c) (map fst d)) eqn:E; trivial.
      apply NoDup_app; trivial; [repeat constructor; intros [] |].
      intros x Hx [<- | []].
      apply existsb_eqb_in in Hx. congruence. }
    destruct (IH (bump d c) Hnd' (bump_positive d c Hpos)) as [H1 [H2 [H3 H4]]].
    rewrite bump_sum in H1. cbn [List.length].
    split; [rewrite H1; lia|]. split; trivial. split; trivial.
    intros x. rewrite H4, bump_keys.
    destruct (existsb (Ascii.eqb c) (map fst d)) eqn:E.
    + apply existsb_eqb_in in E. cbn [In]. split.
      * intros [H | H]; auto.
      * intros [H | [<- | H]]; auto.
    + rewrite in_app_iff. cbn [In]. split.
      * intros [[H | [H | []]] | H]; auto.
      * intros [H | [H | H]]; auto.
Qed.

Lemma char_count_total (text : string) :
  list_sum (Dict.values (char_count text)) = Py.len text /\
  Forall (fun n => 1 <= n)%nat (Dict.values (char_count text)).
Proof.
  rewrite char_count_fold.
  destruct (fold_bump_invariant (list_ascii_of_string text) []) as [H1 [_ [H3 _]]];
    [constructor | constructor |].
  split; trivial.
  rewrite H1. change (list_sum (Dict.values [])) with 0%nat. cbn [Nat.add].
  unfold Py.len. clear. induction text as [|c s IH]; cbn; congruence.
Qed.

(** X10.  The frequency table of a text has one entry per character that
    occurs in it, each with a count of at least 1, and the counts add up to
    the length of the text. *)
Theorem char_count_invariant (text : string) :
  list_sum (Dict.values (char_count text)) = Py.len text /\
  NoDup (map fst (char_count text)) /\
  Forall (fun n => 1 <= n)%nat (Dict.values (char_count text)) /\
  (forall c, In c (map fst (char_count text)) <-> In c (list_ascii_of_string text)).
Proof.
  destruct (char_count_total text) as [Hsum Hpos].
  split; [exact Hsum|]. rewrite char_count_fold in *.
  destruct (fold_bump_invariant (list_ascii_of_string text) []) as [_ [H2 [_ H4]]];
    [constructor | constructor |].
  split; [exact H2|]. split; [exact Hpos|].
  intros c. rewrite H4. cbn [map In]. tauto.
Qed.

End Entropy.

Section EntropyBounds.
Import FeatureExtractor.
Local Open Scope R_scope.

Lemma entropy_fold (length : R) (counts : list nat) (e0 : R) :
  fold_left
    (fun entropy count =>
       let probability := INR count / length in
       entropy - probability * log2 probability)
    counts e0
  = e0 + fold_right Rplus 0 (map (entropy_term length) counts).
Proof.
  revert e0. induction counts as [|c cs IH]; intro e0; cbn [fold_left map fold_right].
  - lra.
  - rewrite IH. unfold entropy_term. lra.
Qed.

Lemma ln2_pos : 0 < ln 2.
Proof. pose proof ln_lt_2. lra. Qed.

Lemma entropy_term_bounds (n c : nat) :
  (1 <= c)%nat -> (c <= n)%nat ->
  0 <= entropy_term (INR n) c <= INR c / INR n * log2 (INR n).
Proof.
  intros Hc Hcn.
  assert (Hc' : 1 <= INR c) by (apply (le_INR 1); exact Hc).
  assert (Hn' : INR c <= INR n) by (apply le_INR; exact Hcn).
  pose proof ln2_pos as Hl2.
  assert (Hp : 0 < INR c / INR n) by (apply Rdiv_lt_0_compat; lra).
  assert (Hp1 : INR c / INR n <= 1).
  { apply Rmult_le_reg_r with (INR n); [lra|].
    unfold Rdiv. rewrite Rmult_assoc, Rinv_l by lra. lra. }
  assert (Hlnc : 0 <= ln (INR c)).
  { rewrite <- ln_1. destruct (Req_dec 1 (INR c)) as [<-|Hne]; [lra|].
    left. apply ln_increasing; lra. }
  assert (Hlnp : ln (INR c / INR n) <= 0).
  { rewrite <- ln_1. destruct (Req_dec (INR c / INR n) 1) as [->|Hne]; [lra|].
    left. apply ln_increasing; lra. }
  assert (Hdiv : ln (INR c / INR n) = ln (INR c) - ln (INR n)).
  { unfold Rdiv. rewrite ln_mult, ln_Rinv; try lra. apply Rinv_0_lt_compat. lra. }
  unfold entropy_term, log2. split.
  - assert (ln (INR c / INR n) / ln 2 <= 0).
    { apply Rmult_le_reg_r with (ln 2); trivial.
      unfold Rdiv. rewrite Rmult_assoc, Rinv_l by lra. lra. }
    nra.
  - assert (- (ln (INR c / INR n) / ln 2) <= ln (INR n) / ln 2).
    { apply Rmult_le_reg_r with (ln 2); trivial.
      unfold Rdiv. rewrite Ropp_mult_distr_l, !Rmult_assoc, Rinv_l by lra. lra. }
    nra.
Qed.

Lemma entropy_sum_bounds (n : nat) (counts : list nat) :
  Forall (fun c => 1 <= c)%nat counts -> (list_sum counts <= n)%nat ->
  0 <= fold_right Rplus 0 (map (entropy_term (INR n)) counts)
    <= INR (list_sum counts) / INR n * log2 (INR n).
Proof.
  induction 1 as [|c cs Hc _ IH]; intros Hn; cbn [map fold_right].
  - change (list_sum []) with 0%nat. cbn [INR]. lra.
  - change (list_sum (c :: cs)) with (c + list_sum cs)%nat in *.
    destruct IH as [I0 I1]; [lia|].
    destruct (entropy_term_bounds n c Hc) as [T0 T1]; [lia|].
    rewrite plus_INR. lra.
Qed.

Lemma entropy_log_length (text : string) :
  text <> "" ->
  0 <= _calculate_entropy text <= log2 (INR (Py.len text)).
Proof.
  intros Hne. unfold _calculate_entropy.
  destruct (String.eqb text "") eqn:E; [apply String.eqb_eq in E; contradiction|].
  rewrite entropy_fold, Rplus_0_l.
  destruct (char_count_total text) as [Hsum Hpos].
  destruct (entropy_sum_bounds (Py.len text) (Dict.values (char_count text)) Hpos)
    as [H0 H1]; [lia|].
  rewrite Hsum in H1.
  assert (Hlen : 1 <= INR (Py.len text)).
  { apply (le_INR 1). destruct text; [contradiction | cbn; lia]. }
  replace (INR (Py.len text) / INR (Py.len text)) with 1 in H1 by (field; lra).
  lra.
Qed.

Lemma log2_increasing (x y : R) : 0 < x -> x <= y -> log2 x <= log2 y.
Proof.
  intros Hx Hxy. unfold log2. pose proof ln2_pos.
  apply Rmult_le_compat_r; [left; now apply Rinv_0_lt_compat|].
  destruct (Req_dec x y) as [->|Hne]; [lra|]. left. apply ln_increasing; lra.
Qed.

Lemma log2_pow (k : nat) : log2 (2 ^ k) = INR k.
Proof.
  unfold log2. rewrite ln_pow by lra. pose proof ln2_pos. field. lra.
Qed.

Lemma log2_eleven : log2 11 < 3.5.
Proof.
  unfold log2. pose proof ln2_pos as Hl2.
  apply Rmult_lt_reg_r with (ln 2); trivial.
  unfold Rdiv. rewrite Rmult_assoc, Rinv_l by lra.
  assert (H : ln (11 ^ 2) < ln (2 ^ 7)) by (apply ln_increasing; lra).
  rewrite !ln_pow in H by lra. cbn [INR] in H. lra.
Qed.

Lemma entropy_threshold_length (text : string) :
  Py.rgtb (_calculate_entropy text) 3.5 = true -> (12 <= Py.len text)%nat.
Proof.
  intros H. apply rgtb_true in H.
  destruct text as [|c s]; [cbn in H; lra|].
  set (text := String c s) in *.
  assert (Hne : text <> "") by discriminate.
  destruct (entropy_log_length text Hne) as [_ H1].
  assert (Hlen : 1 <= INR (Py.len text)) by (apply (le_INR 1); cbn; lia).
  destruct (Nat.le_gt_cases 12 (Py.len text)) as [Hge|Hlt]; trivial. exfalso.
  assert (Hle : INR (Py.len text) <= 11).
  { assert (E11 : INR 11 = 11) by (rewrite INR_IZR_INZ; reflexivity).
    rewrite <- E11. apply le_INR. lia. }
  assert (Hx : 0 < INR (Py.len text)) by lra.
  pose proof (log2_increasing _ _ Hx Hle). pose proof log2_eleven. lra.
Qed.

(** X11.  The entropy of a text is never negative; it is 0 for the empty
    text; a text of at most 2^k characters has at most k bits; and so the
    threshold 3.5 of the hostname check is passed only by a text of at
    least 12 characters. *)
Theorem entropy_bounds (text : string) :
  0 <= _calculate_entropy text /\
  _calculate_entropy "" = 0 /\
  (forall k : nat, (Py.len text <= 2 ^ k)%nat -> _calculate_entropy text <= INR k) /\
  (Py.rgtb (_calculate_entropy text) 3.5 = true -> (12 <= Py.len text)%nat).
Proof.
  assert (He : _calculate_entropy "" = 0) by reflexivity.
  split; [|split; [exact He|split; [|apply entropy_threshold_length]]].
  - destruct text as [|c s]; [rewrite He; lra|].
    apply entropy_log_length. discriminate.
  - intros k Hk. destruct text as [|c s]; [rewrite He; apply pos_INR|].
    set (text := String c s) in *.
    destruct (entropy_log_length text) as [_ H1]; [discriminate|].
    assert (Hlen : 1 <= INR (Py.len text)) by (apply (le_INR 1); cbn; lia).
    eapply Rle_trans; [exact H1|].
    rewrite <- (log2_pow k). apply log2_increasing; [lra|].
    apply le_INR in Hk. rewrite pow_INR in Hk. exact Hk.
Qed.

(** X12.  The two entropy tiers of the hostname check, 0.7 and 0.8, are
    reached only by a host with a dot whose first label, once [www.] is
    stripped, has at least 12 characters. *)
Theorem deceptive_entropy_tiers (host : string) :
  _check_deceptive_hostname host = 0.7%Q \/ _check_deceptive_hostname host = 0.8%Q ->
  Spec.multi_label (Spec.stripped host) = true /\
  (12 <= Py.len (Spec.first_label (Spec.stripped host)))%nat.
Proof.
  rewrite check_deceptive_hostname_dotted. unfold Spec.deceptive_hostname_dotted.
  cbv zeta. set (h := Spec.stripped host).
  destruct (Spec.multi_label h) eqn:Em; cbn [andb].
  - intros H. split; trivial.
    apply entropy_threshold_length.
    fold (Spec.high_entropy h).
    destruct (Spec.high_entropy h); trivial. exfalso.
    destruct (Spec.misleading_tld h), (Spec.tld_in_name h), (Spec.long_domain h);
      cbn in H; destruct H; discriminate.
  - intros H. exfalso.
    destruct (Spec.misleading_tld h), (Spec.tld_in_name h), (Spec.long_domain h);
      cbn in H; destruct H; discriminate.
Qed.

End EntropyBounds.

Section EntropyWitness.
Import FeatureExtractor.

Lemma deceptive_entropy_tiers_witness :
  _check_deceptive_hostname "abcdefghijklmnop.de" = 0.7%Q /\
  (12 <= Py.len (Spec.first_label (Spec.stripped "abcdefghijklmnop.de")))%nat.
Proof.
  assert (H : _check_deceptive_hostname "abcdefghijklmnop.de" = 0.7%Q).
  { rewrite check_deceptive_hostname_dotted. unfold Spec.deceptive_hostname_dotted.
    cbv zeta.
    replace (Spec.stripped "abcdefghijklmnop.de") with "abcdefghijklmnop.de"
      by (vm_compute; reflexivity).
    assert (Eh : Spec.high_entropy "abcdefghijklmnop.de" = true).
    { unfold Spec.high_entropy.
      change (Spec.first_label "abcdefghijklmnop.de") with "abcdefghijklmnop".
      rewrite entropy_sixteen_letters. apply rgtb_true. lra. }
    rewrite Eh. reflexivity. }
  split; [exact H|].
  exact (proj2 (deceptive_entropy_tiers "abcdefghijklmnop.de" (or_introl H))).
Defined.

End EntropyWitness.

(** ** The extractor: the values of the URL features *)

Section Values.
Import FeatureExtractor.
Local Open Scope Q_scope.

Lemma path_score_values (path : string) (parts brands : list string) (init : Q) :
  In init [0.0; 0.7; 0.9] ->
  In (fold_left (path_step path parts) brands init) [0.0; 0.7; 0.9].
Proof.
  revert init. induction brands as [|b brands IH]; intros init Hinit; cbn [fold_left]; trivial.
  apply IH. unfold path_step.
  destruct (Py.contains b (Py.lower path)); trivial. cbv zeta.
  destruct (existsb _ security_terms); [cbn; tauto|].
  cbn [In] in Hinit. destruct Hinit as [<- | [<- | [<- | []]]]; cbn; tauto.
Qed.

Lemma path_score_no_brand (path : string) (parts brands : list string) (init : Q) :
  existsb (fun brand => Py.contains brand (Py.lower path)) brands = false ->
  fold_left (path_step path parts) brands init = init.
Proof.
  revert init. induction brands as [|b brands IH]; intros init; cbn [fold_left existsb]; trivial.
  intros H. apply orb_false_elim in H as [Hb Hr].
  rewrite IH; trivial. unfold path_step. now rewrite Hb.
Qed.

Lemma brand_impersonation_helper (domain path : string) :
  In (_check_brand_impersonation domain path) [0.0; 0.7; 0.9].
Proof.
  unfold _check_brand_impersonation. cbv zeta.
  fold (path_step path (Py.split "/" (Py.lower path))).
  set (ps := fold_left _ popular_brands 0.0).
  assert (Hps : In ps [0.0; 0.7; 0.9]) by (apply path_score_values; cbn; tauto).
  match goal with |- context [if ?b then 0.9 else _] => destruct b end; [cbn; tauto|].
  destruct (Py.qgtb ps 0.5); [exact Hps | cbn; tauto].
Qed.

(** X13.  The brand check returns 0.0, 0.7 or 0.9, whatever the host and
    the path; and it returns 0.7 only when a brand name occurs in the path. *)
Theorem brand_impersonation_values (domain path : string) :
  In (_check_brand_impersonation domain path) [0.0; 0.7; 0.9] /\
  (_check_brand_impersonation domain path = 0.7 ->
   existsb (fun brand => Py.contains brand (Py.lower path)) popular_brands = true).
Proof.
  split; [apply brand_impersonation_helper|].
  unfold _check_brand_impersonation. cbv zeta.
  fold (path_step path (Py.split "/" (Py.lower path))).
  set (ps := fold_left _ popular_brands 0.0).
  assert (Hno : existsb (fun brand => Py.contains brand (Py.lower path)) popular_brands = false ->
                ps = 0.0) by apply path_score_no_brand.
  match goal with |- context [if ?b then 0.9 else _] => destruct b end; [discriminate|].
  destruct (existsb (fun brand => Py.contains brand (Py.lower path)) popular_brands);
    trivial.
  rewrite (Hno eq_refl). discriminate.
Qed.

Lemma redirect_helper (url : string) :
  In (_check_redirect_patterns url) [0.0; 0.6; 0.7; 0.8; 0.9].
Proof.
  unfold _check_redirect_patterns. cbv zeta.
  destruct (existsb (fun pattern => Py.contains pattern (Py.lower url)) redirect_patterns).
  - destruct (_ || _ || _); cbn; tauto.
  - destruct (Py.contains "http%3A" url || Py.contains "https%3A" url);
      [|destruct (search base64_run amp_or_end url);
        [|destruct (search chained_markers (fun _ => true) url)]];
      cbn; tauto.
Qed.

(** X14.  The redirect check returns 0.0, 0.6, 0.7, 0.8 or 0.9; it returns
    0.8 or more exactly when one of the redirect patterns occurs in the
    lower-cased URL. *)
Theorem redirect_pattern_values (url : string) :
  In (_check_redirect_patterns url) [0.0; 0.6; 0.7; 0.8; 0.9] /\
  (0.8 <= _check_redirect_patterns url <->
   existsb (fun pattern => Py.contains pattern (Py.lower url)) redirect_patterns = true).
Proof.
  split; [apply redirect_helper|].
  unfold _check_redirect_patterns. cbv zeta.
  destruct (existsb (fun pattern => Py.contains pattern (Py.lower url)) redirect_patterns).
  - destruct (_ || _ || _); (split; trivial; discriminate).
  - destruct (Py.contains "http%3A" url || Py.contains "https%3A" url);
      [|destruct (search base64_run amp_or_end url);
        [|destruct (search chained_markers (fun _ => true) url)]];
      (split; [|discriminate]); intros H; exfalso;
      revert H; apply Qlt_not_le; reflexivity.
Qed.

End Values.

Section Range.
Import FeatureExtractor.
Local Open Scope Q_scope.

Lemma in_unit_interval (v : Q) (vs : list Q) :
  In v vs -> forallb (fun x => Qle_bool 0 x && Qle_bool x 1) vs = true -> 0 <= v <= 1.
Proof.
  intros Hin Hall. rewrite forallb_forall in Hall. specialize (Hall v Hin).
  apply andb_prop in Hall as [H0 H1]. split; now apply Qle_bool_iff.
Qed.

Lemma extract_parsed_range (url : string) (p : UrlParse.ParseResult) :
  exists fs, extract_parsed url p = Ok fs /\ Forall (fun item => 0 <= snd item <= 1) fs.
Proof.
  unfold extract_parsed.
  cbv beta iota zeta delta
    [sset sget index bind Dict.set Dict.get String.eqb Ascii.eqb Bool.eqb].
  eexists. split; [reflexivity|].
  repeat apply Forall_cons; try apply Forall_nil; cbn [snd];
    try (apply (in_unit_interval _ [0.0; 0.7; 0.9]);
         [apply brand_impersonation_helper | reflexivity]);
    try (apply (in_unit_interval _ [0.0; 0.6; 0.7; 0.8; 0.9]);
         [apply redirect_helper | reflexivity]);
    try (apply (in_unit_interval _ [0.0; 0.5; 0.7; 0.8; 0.9; 1.0]);
         [rewrite check_deceptive_hostname_dotted; apply deceptive_value_range
         | reflexivity]);
    repeat match goal with
           | |- context [if ?b then _ else _] => destruct b
           end;
    split; discriminate.
Qed.

End Range.

Section RangeTheorem.
Import FeatureExtractor.
Local Open Scope Q_scope.

(** X15.  Every value of the mapping returned by [extract_from_url] lies in
    [0, 1], for every URL. *)
Theorem url_features_in_unit_interval (lib : PyLib) (url : string) :
  Forall (fun item => 0 <= snd item <= 1) (extract_from_url lib url).
Proof.
  unfold extract_from_url.
  destruct (extract_from_url_try_cases lib url) as [[e [_ E]] | [p [fs [_ [Ep E]]]]];
    rewrite E; cbn [catch]; [constructor|].
  destruct (extract_parsed_range url p) as [fs' [Ep' H]].
  rewrite Ep in Ep'. injection Ep' as <-. exact H.
Qed.

End RangeTheorem.

(** ** The extractor: hosts that are IP addresses *)

Section IPHosts.
Import FeatureExtractor.

Lemma skips_char (c : ascii) (p : ascii -> bool) : p c = false -> skips c (m_char p).
Proof.
  intros Hc [|d s] r; cbn; [tauto|].
  destruct (p d) eqn:Ed; cbn; [|tauto]. intros [<- | []].
  destruct (Ascii.eqb c d) eqn:E; trivial.
  apply Ascii.eqb_eq in E. congruence.
Qed.

Lemma eats_one_char (c : ascii) : eats_one c (m_char (Ascii.eqb c)).
Proof.
  intros [|d s] r; cbn; [tauto|].
  destruct (Ascii.eqb c d) eqn:Ed; cbn; [|tauto]. now intros [<- | []].
Qed.

Lemma skips_seq (c : ascii) (a b : matcher) : skips c a -> skips c b -> skips c (m_seq a b).
Proof.
  intros Ha Hb s r Hin. unfold m_seq in Hin.
  apply in_flat_map in Hin as [mid [H1 H2]].
  rewrite (Ha _ _ H1). now apply Hb.
Qed.

Lemma eats_one_seq (c : ascii) (a b : matcher) :
  eats_one c a -> skips c b -> eats_one c (m_seq a b).
Proof.
  intros Ha Hb s r Hin. unfold m_seq in Hin.
  apply in_flat_map in Hin as [mid [H1 H2]].
  rewrite (Ha _ _ H1). f_equal. now apply Hb.
Qed.

Lemma skips_upto (c : ascii) (a : matcher) (n : nat) : skips c a -> skips c (m_upto a n).
Proof.
  intros Ha. induction n as [|n IH]; intros s r; cbn [m_upto].
  - now intros [<- | []].
  - rewrite in_app_iff. intros [Hin | [<- | []]]; trivial.
    apply in_flat_map in Hin as [mid [H1 H2]].
    rewrite (Ha _ _ H1). now apply IH.
Qed.

Lemma skips_times (c : ascii) (a : matcher) (n : nat) : skips c a -> skips c (m_times a n).
Proof.
  intros Ha. induction n as [|n IH]; intros s r; cbn [m_times].
  - now intros [<- | []].
  - intros Hin. apply in_flat_map in Hin as [mid [H1 H2]].
    rewrite (Ha _ _ H1). now apply IH.
Qed.

Lemma skips_range (c : ascii) (a : matcher) (lo extra : nat) :
  skips c a -> skips c (m_range a lo extra).
Proof.
  intros Ha. apply skips_seq; [now apply skips_times | now apply skips_upto].
Qed.

Lemma at_dollar_count (c : ascii) (r : string) :
  at_dollar r = true -> Ascii.eqb c UrlParse.LF = false -> Py.count_char c r = 0%nat.
Proof.
  unfold at_dollar. intros H Hc. apply orb_prop in H as [H | H];
    apply String.eqb_eq in H; subst r; [reflexivity|].
  unfold UrlParse.str. cbn [Py.count_char]. now rewrite Hc.
Qed.

(** A host accepted as an IP address has three dots and no hyphen. *)
Lemma ip_address_counts (domain : string) :
  _has_ip_address domain = true ->
  Py.count_char "." domain = 3%nat /\ Py.count_char "-" domain = 0%nat.
Proof.
  unfold _has_ip_address. cbv zeta.
  set (digits := m_range (m_char Py.is_digit) 1 2).
  set (dot := m_char (Ascii.eqb ".")).
  intros H. apply existsb_exists in H as [r [Hin Hr]].
  assert (Hd1 : skips "." digits) by (apply skips_range, skips_char; reflexivity).
  assert (Hd2 : skips "-" digits) by (apply skips_range, skips_char; reflexivity).
  assert (Ho1 : eats_one "." dot) by apply eats_one_char.
  assert (Ho2 : skips "-" dot) by (apply skips_char; reflexivity).
  unfold m_seq in Hin.
  repeat match type of Hin with
         | In _ (flat_map _ _) =>
             let mid := fresh "mid" in
             let Hm := fresh "Hm" in
             apply in_flat_map in Hin as [mid [Hm Hin]]
         end.
  split.
  - rewrite (Hd1 _ _ Hm), (Ho1 _ _ Hm0), (Hd1 _ _ Hm1), (Ho1 _ _ Hm2),
      (Hd1 _ _ Hm3), (Ho1 _ _ Hm4), (Hd1 _ _ Hin).
    now rewrite (at_dollar_count "." r Hr).
  - rewrite (Hd2 _ _ Hm), (Ho2 _ _ Hm0), (Hd2 _ _ Hm1), (Ho2 _ _ Hm2),
      (Hd2 _ _ Hm3), (Ho2 _ _ Hm4), (Hd2 _ _ Hin).
    now rewrite (at_dollar_count "-" r Hr).
Qed.

Lemma extract_ip_features (url : string) (p : UrlParse.ParseResult) :
  exists fs, extract_parsed url p = Ok fs /\
    (sget "hasIPAddress" fs = Some 1.0%Q ->
     sget "hasManySubdomains" fs = Some 0.7%Q /\ sget "hasHyphens" fs = Some 0.0%Q) /\
    (_has_ip_address (Py.lower (UrlParse.netloc p)) = true ->
     sget "hasIPAddress" fs = Some 1.0%Q).
Proof.
  unfold extract_parsed.
  cbv beta iota zeta delta
    [sset sget index bind Dict.set Dict.get String.eqb Ascii.eqb Bool.eqb].
  eexists. split; [reflexivity|].
  cbv beta iota zeta delta [sget Dict.get String.eqb Ascii.eqb Bool.eqb].
  destruct (_has_ip_address (Py.lower (UrlParse.netloc p))) eqn:E.
  - destruct (ip_address_counts _ E) as [-> ->]. cbn. auto.
  - split; discriminate.
Qed.

(** X16.  When [extract_from_url] reports an IP address as host
    (hasIPAddress = 1.0) it also reports hasManySubdomains = 0.7, the three
    dots of the address counting as subdomains, and hasHyphens = 0.0. *)
Theorem ip_address_counts_as_subdomains (lib : PyLib) (url : string) :
  sget "hasIPAddress" (extract_from_url lib url) = Some 1.0%Q ->
  sget "hasManySubdomains" (extract_from_url lib url) = Some 0.7%Q /\
  sget "hasHyphens" (extract_from_url lib url) = Some 0.0%Q.
Proof.
  unfold extract_from_url.
  destruct (extract_from_url_try_cases lib url) as [[e [_ E]] | [p [fs [_ [Ep E]]]]];
    rewrite E; cbn [catch]; [discriminate|].
  destruct (extract_ip_features url p) as [fs' [Ep' [H _]]].
  rewrite Ep in Ep'. injection Ep' as <-. exact H.
Qed.

Lemma ip_address_counts_as_subdomains_witness :
  sget "hasIPAddress" (extract_from_url strict_lib "http://192.168.1.1/paypal/login.php")
  = Some 1.0%Q /\
  sget "hasManySubdomains" (extract_from_url strict_lib "http://192.168.1.1/paypal/login.php")
  = Some 0.7%Q.
Proof.
  assert (H : sget "hasIPAddress"
                (extract_from_url strict_lib "http://192.168.1.1/paypal/login.php")
              = Some 1.0%Q).
  { unfold extract_from_url, extract_from_url_try.
    replace (UrlParse.urlparse strict_lib "http://192.168.1.1/paypal/login.php")
      with (Ok {| UrlParse.scheme := "http"; UrlParse.netloc := "192.168.1.1";
                  UrlParse.path := "/paypal/login.php"; UrlParse.params := "";
                  UrlParse.query := ""; UrlParse.fragment := "" |})
      by (vm_compute; reflexivity).
    cbn [bind].
    destruct (extract_ip_features "http://192.168.1.1/paypal/login.php"
                {| UrlParse.scheme := "http"; UrlParse.netloc := "192.168.1.1";
                   UrlParse.path := "/paypal/login.php"; UrlParse.params := "";
                   UrlParse.query := ""; UrlParse.fragment := "" |})
      as [fs [Ep [_ Hip]]].
    rewrite Ep. cbn [catch]. apply Hip. vm_compute. reflexivity. }
  split; [exact H|].
  exact (proj1 (ip_address_counts_as_subdomains strict_lib
                  "http://192.168.1.1/paypal/login.php" H)).
Defined.

End IPHosts.

(** ** The explainer: ties, sizes and ranges *)

Section Stability.
Context {A : Type} (key : A -> Q).

Lemma insert_desc_filter (k : Q) (x : A) (l : list A) :
  filter (fun y => Qeq_bool (key y) k) (insert_desc Py.qgtb key x l)
  = filter (fun y => Qeq_bool (key y) k) (x :: l).
Proof.
  induction l as [|y l IH]; cbn [insert_desc]; trivial.
  destruct (Py.qgtb (key y) (key x)) eqn:E; trivial.
  apply qgtb_true in E.
  cbn [filter] in *. rewrite IH.
  destruct (Qeq_bool (key x) k) eqn:Ex; trivial.
  apply Qeq_bool_eq in Ex.
  destruct (Qeq_bool (key y) k) eqn:Ey; trivial.
  apply Qeq_bool_eq in Ey. exfalso. rewrite Ex, Ey in E. now apply Qlt_irrefl in E.
Qed.

(** The descending sort is stable: entries of equal key keep their order. *)
Lemma sort_desc_filter (k : Q) (l : list A) :
  filter (fun y => Qeq_bool (key y) k) (sort_desc Py.qgtb key l)
  = filter (fun y => Qeq_bool (key y) k) l.
Proof.
  induction l as [|x l IH]; trivial.
  change (sort_desc Py.qgtb key (x :: l))
    with (insert_desc Py.qgtb key x (sort_desc Py.qgtb key l)).
  rewrite insert_desc_filter. cbn [filter]. now rewrite IH.
Qed.

End Stability.

Section ExplainMore.
Import Explainer.
Local Open Scope Q_scope.

Local Ltac exact_arith :=
  cbn [num zero hundred add div mul gtb exact] in *.

Lemma member_le_sum (l : list (string * Q)) (f : string) (v : Q) :
  Forall (fun kv => 0 <= snd kv) l -> In (f, v) l -> v <= Spec.sumQ (map snd l).
Proof.
  induction 1 as [|kv l Hkv Hl IH]; [intros []|].
  cbn [map]. rewrite sumQ_cons.
  assert (Hs : 0 <= Spec.sumQ (map snd l)).
  { clear - Hl. induction Hl as [|x l Hx _ IH]; [apply Qle_refl|].
    cbn [map]. rewrite sumQ_cons. lra. }
  intros [-> | Hin]; cbn [snd] in *; [lra|]. specialize (IH Hin). lra.
Qed.

(** X17.  On a feature dictionary, [explain_prediction] returns as many
    items as there are features of positive value, so none when there is no
    such feature, and every attribution lies in (0, 100]. *)
Theorem explain_prediction_size_and_range (features : list (string * Q)) (ty : string) :
  NoDup (map fst features) ->
  let items := explain_prediction exact features ty in
  List.length items = List.length (Spec.positive features) /\
  (items = [] <-> Spec.positive features = []) /\
  Forall (fun it : ExplanationItem exact => 0 < attribution it <= 100) items.
Proof.
  intros Hnd. cbv zeta.
  rewrite (explain_prediction_unfold features ty Hnd).
  destruct (collect_spec features Hnd) as [_ Htot].
  set (T := snd (collect exact features)) in *.
  set (pos := Spec.positive features) in *.
  set (unsorted := map (item_of exact features)
                     (if Py.qgtb T 0 then map (percent exact T) pos else [])).
  assert (Hperm : Permutation (sort_desc Py.qgtb (@attribution exact) unsorted) unsorted)
    by apply sort_desc_perm.
  assert (Hcase : (pos = [] /\ unsorted = []) \/
                  (pos <> [] /\ 0 < T /\
                   unsorted = map (item_of exact features) (map (percent exact T) pos))).
  { unfold unsorted. destruct pos as [|kv pos'] eqn:Epos.
    - left. split; trivial. now destruct (Py.qgtb T 0).
    - right. split; [discriminate|].
      assert (HT : 0 < T).
      { rewrite Htot, <- Epos. apply positive_sum_pos. fold pos. rewrite Epos. discriminate. }
      split; trivial. apply qgtb_true in HT. now rewrite HT. }
  split; [|split].
  - rewrite (Permutation_length Hperm).
    destruct Hcase as [[-> ->] | [_ [_ ->]]]; [reflexivity | now rewrite !length_map].
  - split; intros H.
    + destruct Hcase as [[Hp _] | [Hp [_ Hu]]]; trivial.
      rewrite H in Hperm. apply Permutation_nil in Hperm. rewrite Hu in Hperm.
      destruct pos; [trivial | discriminate].
    + destruct Hcase as [[_ Hu] | [Hp _]]; [|contradiction].
      rewrite Hu. reflexivity.
  - eapply Permutation_Forall; [apply Permutation_sym, Hperm|].
    destruct Hcase as [[_ ->] | [_ [HT ->]]]; [constructor|].
    rewrite Forall_forall. intros it Hin.
    apply in_map_iff in Hin as [kv' [<- Hin]].
    apply in_map_iff in Hin as [[f v] [<- Hin]].
    cbn [item_of percent attribution fst snd]. exact_arith.
    assert (Hv : 0 < v).
    { apply filter_In in Hin as [_ Hv]. now apply qgtb_true in Hv. }
    assert (Hle : v <= T).
    { rewrite Htot. apply (member_le_sum pos f); trivial.
      rewrite Forall_forall. intros kv Hkv. apply filter_In in Hkv as [_ Hk].
      apply qgtb_true in Hk. lra. }
    assert (Hq : 0 < v / T) by (apply Qlt_shift_div_l; lra).
    assert (Hq1 : v / T <= 1) by (apply Qle_shift_div_r; lra).
    split; lra.
Qed.

Lemma explain_prediction_size_and_range_witness :
  let features := [("hasIPAddress", 1.0); ("urlLength", 0.0)] in
  List.length (explain_prediction exact features "lime") = 1%nat /\
  List.length (explain_prediction exact features "lime")
  = List.length (Spec.positive features).
Proof.
  cbv zeta. split; [reflexivity|].
  apply (explain_prediction_size_and_range [("hasIPAddress", 1.0); ("urlLength", 0.0)] "lime").
  repeat constructor; cbn; intuition discriminate.
Defined.

Lemma Qeq_bool_congr (x y a : Q) : x == y -> Qeq_bool x a = Qeq_bool y a.
Proof.
  intros E. destruct (Qeq_bool y a) eqn:Ey.
  - apply Qeq_bool_iff. apply Qeq_bool_iff in Ey. now rewrite E.
  - apply not_true_is_false. intros Ex. apply Qeq_bool_iff in Ex.
    rewrite E in Ex. apply Qeq_bool_iff in Ex. congruence.
Qed.

Lemma filter_percent (features l : list (string * Q)) (T T' a : Q) :
  T == T' -> ~ T == 0 ->
  map feature
    (filter (fun it : ExplanationItem exact => Qeq_bool (attribution it) a)
       (map (item_of exact features) (map (percent exact T) l)))
  = map fst (filter (fun kv : string * Q => Qeq_bool (snd kv / T' * 100) a) l).
Proof.
  intros E HT. induction l as [|[f v] l IH]; trivial.
  cbn [map filter percent item_of attribution fst snd]. exact_arith.
  assert (Ev : Qeq_bool (v / T * 100) a = Qeq_bool (v / T' * 100) a).
  { apply Qeq_bool_congr. now rewrite E. }
  rewrite Ev. destruct (Qeq_bool (v / T' * 100) a); cbn [map feature fst]; now rewrite IH.
Qed.

(** X18.  Ties are broken by the order of the dictionary: among the items
    returned by [explain_prediction], those of a given attribution come in
    the order in which their features occur in the mapping. *)
Theorem explain_prediction_stable (features : list (string * Q)) (ty : string) (a : Q) :
  NoDup (map fst features) ->
  let total := Spec.sumQ (map snd (Spec.positive features)) in
  map feature
    (filter (fun it : ExplanationItem exact => Qeq_bool (attribution it) a)
       (explain_prediction exact features ty))
  = map fst
      (filter (fun kv : string * Q => Qeq_bool (snd kv / total * 100) a)
         (Spec.positive features)).
Proof.
  intros Hnd. cbv zeta.
  rewrite (explain_prediction_unfold features ty Hnd).
  rewrite (sort_desc_filter (@attribution exact)).
  destruct (collect_spec features Hnd) as [_ Htot].
  set (T := snd (collect exact features)) in *.
  destruct (Py.qgtb T 0) eqn:ET.
  - apply qgtb_true in ET. apply filter_percent; [exact Htot | lra].
  - apply qgtb_false in ET.
    destruct (Spec.positive features) as [|kv pos'] eqn:Epos; [reflexivity|]. exfalso.
    assert (0 < T); [|lra].
    rewrite Htot, <- Epos. apply positive_sum_pos. rewrite Epos. discriminate.
Qed.

Lemma explain_prediction_stable_witness :
  let features := [("urlLength", 0.5); ("hasIPAddress", 1.0); ("hasHyphens", 0.3);
                   ("isNotHttps", 1.0); ("hasAtSymbol", 0.5)] in
  map feature (explain_prediction exact features "shap")
  = ["hasIPAddress"; "isNotHttps"; "urlLength"; "hasAtSymbol"; "hasHyphens"] /\
  map feature
    (filter (fun it : ExplanationItem exact => Qeq_bool (attribution it) (500 # 33))
       (explain_prediction exact features "shap"))
  = ["urlLength"; "hasAtSymbol"].
Proof.
  cbv zeta. split; [reflexivity|].
  rewrite (explain_prediction_stable
             [("urlLength", 0.5); ("hasIPAddress", 1.0); ("hasHyphens", 0.3);
              ("isNotHttps", 1.0); ("hasAtSymbol", 0.5)] "shap" (500 # 33)).
  - reflexivity.
  - repeat constructor; cbn; intuition discriminate.
Defined.

End ExplainMore.

(** ** The extractor: hosts that end with a known TLD *)

Section KnownTld.
Import FeatureExtractor.
Local Open Scope Q_scope.

Lemma startswith_refl (p : string) : Py.startswith p p = true.
Proof.
  unfold Py.startswith. induction p as [|c p IH]; cbn; trivial.
  destruct (ascii_dec c c); [exact IH | congruence].
Qed.

Lemma contains_append (a p : string) : Py.contains p (a ++ p)%string = true.
Proof.
  induction a as [|c a IH]; cbn [append].
  - destruct p; cbn [Py.contains]; rewrite startswith_refl; reflexivity.
  - cbn [Py.contains]. rewrite IH. apply orb_true_r.
Qed.

(** Replacing a text that does not occur changes nothing. *)
Lemma replace_absent (old new s : string) :
  old <> "" -> Py.contains old s = false -> Py.replace old new s = s.
Proof.
  intros Hne. unfold Py.replace. destruct old as [|o old]; [congruence|].
  set (pat := String o old). clearbody pat.
  induction s as [|c s IH]; cbn [Py.contains Py.replace_from]; trivial.
  intros H. apply orb_false_elim in H as [H1 H2].
  rewrite H1, IH; trivial.
Qed.

(** X19.  A lower-case host without [www.] that ends with .com, .org, .net
    or a TLD of the suspicious list is given at least 0.9 by the hostname
    check: the test for a TLD inside the name also finds the host's own. *)
Theorem own_tld_is_deceptive (name tld : string) :
  In tld Spec.known_tlds ->
  Py.lower (name ++ tld) = (name ++ tld)%string ->
  Py.contains "www." (name ++ tld) = false ->
  0.9 <= _check_deceptive_hostname (name ++ tld).
Proof.
  intros Htld Hlow Hwww.
  rewrite check_deceptive_hostname_dotted. unfold Spec.deceptive_hostname_dotted.
  cbv zeta.
  assert (Es : Spec.stripped (name ++ tld) = (name ++ tld)%string).
  { unfold Spec.stripped. rewrite Hlow. apply replace_absent; [discriminate | exact Hwww]. }
  rewrite Es.
  assert (Et : Spec.tld_in_name (name ++ tld) = true).
  { unfold Spec.tld_in_name. apply existsb_exists. exists tld.
    split; [exact Htld | apply contains_append]. }
  rewrite Et. unfold Spec.deceptive_value.
  destruct (Spec.misleading_tld (name ++ tld)); discriminate.
Qed.

Lemma own_tld_is_deceptive_witness :
  0.9 <= _check_deceptive_hostname ("example" ++ ".org").
Proof.
  apply (own_tld_is_deceptive "example" ".org").
  - vm_compute. tauto.
  - reflexivity.
  - reflexivity.
Defined.

End KnownTld.

(** ** The scorer: the explanation table and the combination bonus *)

Section Explanations.
Import PhishingDetector.
Local Open Scope Q_scope.

Lemma sget_some_in {V} (d : list (string * V)) (k : string) (v : V) :
  sget k d = Some v -> In k (map fst d).
Proof.
  unfold sget. induction d as [|[k' v'] d IH]; cbn; [discriminate|].
  destruct (String.eqb k k') eqn:E; [|auto].
  apply String.eqb_eq in E. auto.
Qed.

Lemma in_firstn {A} (n : nat) (l : list A) (x : A) : In x (firstn n l) -> In x l.
Proof.
  intros H. rewrite <- (firstn_skipn n l). apply in_or_app. now left.
Qed.

Lemma explained_features :
  forallb (fun f => negb (String.eqb (_get_feature_explanation f) f))
    (map fst feature_weights) = true.
Proof. vm_compute. reflexivity. Qed.

Lemma known_feature_explained (f : string) :
  0 < weight_of f -> _get_feature_explanation f <> f.
Proof.
  intros Hw. unfold weight_of in Hw.
  destruct (sget f feature_weights) as [w|] eqn:E; [|now apply Qlt_irrefl in Hw].
  apply sget_some_in in E.
  pose proof explained_features as H. rewrite forallb_forall in H.
  specialize (H f E). apply negb_true_iff, String.eqb_neq in H. exact H.
Qed.

Lemma top_features_weighted (features : list (string * Q)) (f : string) :
  In f (topFeatures (predict features)) -> 0 < weight_of f.
Proof.
  unfold predict; cbn [topFeatures]. intros Hin.
  apply in_map_iff in Hin as [[f' k] [E Hin]]. cbn [fst] in E. subst f'.
  apply in_firstn in Hin.
  apply (Permutation_in _ (sort_desc_perm snd _)) in Hin.
  apply filter_In in Hin as [Hin Hk]. cbn [snd] in Hk. apply qgtb_true in Hk.
  revert Hin. unfold scoring_loop.
  set (st0 := {| acc_score := 0; acc_total_weight := 0; acc_contributions := [] |}).
  assert (Hst : forall g c, In (g, c) (acc_contributions st0) -> 0 < c -> 0 < weight_of g)
    by (intros g c []).
  clearbody st0. revert st0 Hst.
  induction features as [|[g x] l IH]; intros st Hst; cbn [fold_left].
  - intros Hin. exact (Hst f k Hin Hk).
  - apply IH. intros h c Hin Hc.
    cbn [loop_body acc_contributions] in Hin.
    assert (Hcases : In (h, c) (acc_contributions st) \/
                     (h = g /\ c = Spec.contribution (g, x))).
    { revert Hin. generalize (acc_contributions st) as d. unfold sset.
      induction d as [|[k' v'] d IHd]; cbn [Dict.set].
      - intros [E | []]. injection E as <- <-. right. split; reflexivity.
      - destruct (String.eqb g k') eqn:Eg.
        + intros [E | Hin]; [injection E as <- <-; right; split; reflexivity
                            | left; now right].
        + intros [E | Hin]; [left; now left|].
          destruct (IHd Hin) as [H | H]; [left; now right | now right]. }
    destruct Hcases as [H | [-> ->]]; [exact (Hst h c H Hc)|].
    exact (proj2 (positive_contribution g x Hc)).
Qed.

(** X20.  The sentences returned in [explanations] are real sentences: a
    top feature always has a positive weight, and every feature of the
    weight table has an entry in the explanation table, so the fall-back to
    the bare identifier is never taken. *)
Theorem explanations_are_sentences (features : list (string * Q)) :
  let v := predict features in
  explanations v = map _get_feature_explanation (topFeatures v) /\
  Forall (fun f => 0 < weight_of f /\ _get_feature_explanation f <> f) (topFeatures v).
Proof.
  cbv zeta. split.
  - unfold predict; cbn [explanations topFeatures]. now rewrite map_map.
  - rewrite Forall_forall. intros f Hin.
    pose proof (top_features_weighted features f Hin) as Hw.
    split; [exact Hw | now apply known_feature_explained].
Qed.

Local Open Scope R_scope.

(** X21.  The combination bonus alone can decide the verdict: with seven
    features of value above 0.5 and weight above 0.7 the verdict is phishing
    whatever the raw score, and with twelve the score is exactly 1. *)
Theorem strong_features_force_verdict (features : list (string * Q)) :
  ((7 <= suspicious_count features)%nat -> isPhishing (predict features) = true) /\
  ((12 <= suspicious_count features)%nat -> score (predict features) = 1).
Proof.
  unfold predict; cbn [isPhishing score].
  pose proof (sigmoid_range (Q2R (raw_score features))) as [H0 H1].
  destruct (final_score_cases features) as [[Hn E] | [Hn E]]; rewrite E.
  - split; intros H; exfalso; lia.
  - split; intros H; apply le_INR in H.
    + apply rgtb_true.
      assert (E7 : INR 7 = 7) by (rewrite INR_IZR_INZ; reflexivity).
      apply Rlt_le_trans with (Rmin 0.5 1); [rewrite Rmin_left; lra|].
      apply Rle_min_compat_r. lra.
    + assert (E12 : INR 12 = 12) by (rewrite INR_IZR_INZ; reflexivity).
      apply Rmin_right. lra.
Qed.

Lemma strong_features_force_verdict_witness :
  score
    (predict
       (map (fun f => (f, 1.0%Q))
          ["hasIPAddress"; "hasAtSymbol"; "hasManySubdomains"; "hasSuspiciousTLD";
           "hasBrandImpersonation"; "hasRedirectPattern"; "hasDeceptiveHostname";
           "hasPasswordField"; "mismatchedFormAction"; "hasObfuscatedCode";
           "isNotHttps"; "hasCertificateIssues"])) = 1.
Proof.
  apply strong_features_force_verdict. vm_compute. lia.
Defined.

End Explanations.

(** ** The scorer: raw scores that decide the verdict *)

Section Decisions.
Import PhishingDetector.
Local Open Scope R_scope.

Lemma decides_high (features : list (string * Q)) :
  0.4 <= Q2R (raw_score features) -> isPhishing (predict features) = true.
Proof.
  unfold predict; cbn [isPhishing].
  set (r := Q2R (raw_score features)).
  pose proof (sigmoid_range r) as [S0 S1].
  intros Hr. apply rgtb_true.
  assert (Hs : 0.5 <= sigmoid r).
  { destruct (sigmoid_between r (exp (- 12 * (r - 0.4))) 1) as [H _].
    - apply exp_pos.
    - split; [lra|]. rewrite <- exp_0.
      destruct (Req_dec (- 12 * (r - 0.4)) 0) as [->|Hne]; [lra|].
      left. apply exp_increasing. lra.
    - assert (E : / (1 + 1) = 0.5) by lra. lra. }
  destruct (final_score_cases features) as [[_ E] | [Hn E]]; fold r in E; rewrite E; [lra|].
  apply Rlt_le_trans with (Rmin 0.5 1); [rewrite Rmin_left; lra|].
  apply le_INR in Hn. cbn in Hn. apply Rle_min_compat_r. lra.
Qed.

Lemma decides_bonus (features : list (string * Q)) :
  0.358 <= Q2R (raw_score features) -> (3 <= suspicious_count features)%nat ->
  isPhishing (predict features) = true.
Proof.
  unfold predict; cbn [isPhishing].
  set (r := Q2R (raw_score features)).
  pose proof (sigmoid_range r) as [S0 S1].
  intros Hr Hn. apply rgtb_true.
  set (x := - 12 * (r - 0.4)).
  assert (Hx : x <= 0.504) by (unfold x; lra).
  assert (Hup : exp x <= 1.7874).
  { eapply Rle_trans; [apply exp_half_upper; lra|].
    apply Rmult_le_reg_r with ((1 - x / 2) * (1 - x / 2)); [nra|].
    rewrite Rinv_l by nra. nra. }
  destruct (sigmoid_between r (exp x) 1.7874) as [Hs _];
    [apply exp_pos | fold x; lra |].
  assert (H1 : 0.3587 < / (1 + 1.7874)).
  { apply Rmult_lt_reg_r with (1 + 1.7874); [lra|]. rewrite Rinv_l by lra. lra. }
  destruct (final_score_cases features) as [[Hn' _] | [_ E]]; [lia|].
  fold r in E. rewrite E.
  apply Rlt_le_trans with (Rmin 0.4587 1); [rewrite Rmin_left; lra|].
  apply le_INR in Hn. cbn in Hn. apply Rle_min_compat_r. lra.
Qed.

Lemma decides_low (features : list (string * Q)) :
  Q2R (raw_score features) <= 0.32 -> (suspicious_count features < 3)%nat ->
  isPhishing (predict features) = false.
Proof.
  unfold predict; cbn [isPhishing].
  set (r := Q2R (raw_score features)).
  pose proof (sigmoid_range r) as [S0 S1].
  intros Hr Hn. apply rgtb_false.
  destruct (final_score_cases features) as [[_ E] | [Hn' _]]; [|lia].
  fold r in E. rewrite E.
  set (x := - 12 * (r - 0.4)).
  pose proof (exp_ineq1_le x) as Hlow.
  destruct (sigmoid_between r 1.96 (exp x)) as [_ Hs];
    [lra | fold x; unfold x in *; lra |].
  assert (H1 : / (1 + 1.96) < 0.34).
  { apply Rmult_lt_reg_r with (1 + 1.96); [lra|]. rewrite Rinv_l by lra. lra. }
  lra.
Qed.

(** X22.  A raw score of 0.4 or more always gives a phishing verdict; a
    raw score of 0.358 or more does as soon as three strong features earn
    the bonus; and a raw score of at most 0.32 without the bonus never
    does. *)
Theorem raw_score_decides (features : list (string * Q)) :
  (0.4 <= Q2R (raw_score features) -> isPhishing (predict features) = true) /\
  (0.358 <= Q2R (raw_score features) -> (3 <= suspicious_count features)%nat ->
   isPhishing (predict features) = true) /\
  (Q2R (raw_score features) <= 0.32 -> (suspicious_count features < 3)%nat ->
   isPhishing (predict features) = false).
Proof.
  split; [|split].
  - apply decides_high.
  - apply decides_bonus.
  - apply decides_low.
Qed.

End Decisions.

(** ** The sample URLs of the scorer *)

Section SampleUrls.
Import FeatureExtractor PhishingDetector Samples.

Lemma deceptive_by_tld (host : string) :
  Spec.misleading_tld (Spec.stripped host) = false ->
  Spec.tld_in_name (Spec.stripped host) = true ->
  _check_deceptive_hostname host = 0.9%Q.
Proof.
  intros Hm Ht. rewrite check_deceptive_hostname_dotted.
  unfold Spec.deceptive_hostname_dotted. cbv zeta. now rewrite Hm, Ht.
Qed.

Lemma deceptive_short_label (host : string) :
  Spec.misleading_tld (Spec.stripped host) = false ->
  Spec.tld_in_name (Spec.stripped host) = false ->
  (Py.len (Spec.first_label (Spec.stripped host)) <? 12)%nat = true ->
  Spec.long_domain (Spec.stripped host) = false ->
  _check_deceptive_hostname host = 0.0%Q.
Proof.
  intros Hm Ht Hlen Hlong. rewrite check_deceptive_hostname_dotted.
  unfold Spec.deceptive_hostname_dotted. cbv zeta. rewrite Hm, Ht, Hlong.
  assert (Hh : Spec.high_entropy (Spec.stripped host) = false).
  { unfold Spec.high_entropy.
    destruct (Py.rgtb (_calculate_entropy (Spec.first_label (Spec.stripped host))) 3.5)
      eqn:E; trivial.
    apply entropy_threshold_length in E.
    apply Nat.ltb_lt in Hlen. lia. }
  rewrite Hh, andb_false_r. reflexivity.
Qed.

Lemma raw_at_least (q : Q) (features : list (string * Q)) :
  Qle_bool q (raw_score features) = true -> (Q2R q <= Q2R (raw_score features))%R.
Proof. intros H. apply Qle_Rle. now apply Qle_bool_iff. Qed.

Lemma raw_at_most (q : Q) (features : list (string * Q)) :
  Qle_bool (raw_score features) q = true -> (Q2R (raw_score features) <= Q2R q)%R.
Proof. intros H. apply Qle_Rle. now apply Qle_bool_iff. Qed.

Lemma Q2R_decimal (n : Z) (d : positive) : Q2R (n # d) = (IZR n / IZR (Zpos d))%R.
Proof. reflexivity. Qed.

(** The three ways a sample is decided. *)
Lemma classify_high (lib : PyLib) (url : string) (fs : list (string * Q)) :
  extract_from_url lib url = fs ->
  Qle_bool (4 # 10) (raw_score fs) = true ->
  classify lib url = true.
Proof.
  intros E Hraw. unfold classify. rewrite E.
  apply decides_high.
  apply raw_at_least in Hraw. rewrite Q2R_decimal in Hraw. lra.
Qed.

Lemma classify_bonus (lib : PyLib) (url : string) (fs : list (string * Q)) :
  extract_from_url lib url = fs ->
  Qle_bool (358 # 1000) (raw_score fs) = true ->
  (3 <=? suspicious_count fs)%nat = true ->
  classify lib url = true.
Proof.
  intros E Hraw Hn. unfold classify. rewrite E.
  apply decides_bonus.
  - apply raw_at_least in Hraw. rewrite Q2R_decimal in Hraw. lra.
  - now apply Nat.leb_le.
Qed.

Lemma classify_low (lib : PyLib) (url : string) (fs : list (string * Q)) :
  extract_from_url lib url = fs ->
  Qle_bool (raw_score fs) (32 # 100) = true ->
  (suspicious_count fs <? 3)%nat = true ->
  classify lib url = false.
Proof.
  intros E Hraw Hn. unfold classify. rewrite E.
  apply decides_low.
  - apply raw_at_most in Hraw. rewrite Q2R_decimal in Hraw. lra.
  - now apply Nat.ltb_lt.
Qed.

(** Evaluation of [extract_from_url] on a closed URL, the hostname check
    being settled by one of the two lemmas above. *)
Ltac settle_hostname :=
  first [ apply deceptive_by_tld; vm_compute; reflexivity
        | apply deceptive_short_label; vm_compute; reflexivity ].

Ltac extract_closed :=
  unfold extract_from_url, extract_from_url_try;
  match goal with
  | |- context [UrlParse.urlparse ?lib ?u] =>
      let p := eval vm_compute in (UrlParse.urlparse lib u) in
      replace (UrlParse.urlparse lib u) with p by (vm_compute; reflexivity)
  end;
  cbn [bind]; unfold extract_parsed;
  cbn [UrlParse.scheme UrlParse.netloc UrlParse.path]; cbv zeta;
  match goal with
  | |- context [_check_deceptive_hostname ?d] =>
      let d' := eval vm_compute in d in
      change d with d';
      match goal with
      | |- context [_check_deceptive_hostname d'] =>
          let v := fresh "v" in
          let Hv := fresh "Hv" in
          evar (v : Q);
          assert (Hv : _check_deceptive_hostname d' = v)
            by (subst v; settle_hostname);
          rewrite Hv; subst v
      end
  end;
  vm_compute; reflexivity.

Ltac sample_high := eapply classify_high; [extract_closed | vm_compute; reflexivity].
Ltac sample_bonus :=
  eapply classify_bonus; [extract_closed | vm_compute; reflexivity | vm_compute; reflexivity].
Ltac sample_low :=
  eapply classify_low; [extract_closed | vm_compute; reflexivity | vm_compute; reflexivity].
Ltac sample := first [sample_high | sample_bonus | sample_low].

Lemma sample_paypa1 (lib : PyLib) : classify lib "http://paypa1.com/login" = true.
Proof. sample. Qed.

Lemma sample_wellsfargo_net (lib : PyLib) :
  classify lib "http://secure-wellsfargo.com.banking.accountverify.net/login" = true.
Proof. sample. Qed.

Lemma sample_appleid (lib : PyLib) :
  classify lib "http://appleid.apple.com.signin-account.pw/" = true.
Proof. sample. Qed.

Lemma sample_ip (lib : PyLib) : classify lib "http://192.168.1.1/paypal/login.php" = true.
Proof. sample. Qed.

Lemma sample_amazon_security (lib : PyLib) :
  classify lib "http://amazon.account-security.com/verify" = true.
Proof. sample. Qed.

Lemma sample_facebook_xyz (lib : PyLib) :
  classify lib "http://facebook.com.login.7fgk2m.xyz/auth" = true.
Proof. sample. Qed.

Lemma sample_paypal (lib : PyLib) : classify lib "https://www.paypal.com/signin" = true.
Proof. sample. Qed.

Lemma sample_amazon (lib : PyLib) : classify lib "https://www.amazon.com" = false.
Proof. sample. Qed.

Lemma sample_google (lib : PyLib) : classify lib "https://www.google.com" = true.
Proof. sample. Qed.

Lemma sample_microsoft (lib : PyLib) : classify lib "https://www.microsoft.com" = false.
Proof. sample. Qed.

Lemma sample_apple (lib : PyLib) :
  classify lib "https://www.apple.com/shop/account/signin" = false.
Proof. sample. Qed.

Lemma sample_wellsfargo (lib : PyLib) : classify lib "https://www.wellsfargo.com" = true.
Proof. sample. Qed.

(** X23.  On the sample lists of [analyze_sample_urls] the scorer flags
    the six known phishing URLs, and also three of the six known legitimate
    ones (paypal, google and wellsfargo): a detection rate of 1 and a false
    positive rate of 1/2 on these lists, where the function returns 0.98
    and 0.03. *)
Theorem sample_urls_classification (lib : PyLib) :
  map (classify lib) known_phishing_urls = [true; true; true; true; true; true] /\
  map (classify lib) known_legitimate_urls = [true; false; true; false; false; true] /\
  (phishingDetectionRate analyze_sample_urls < 1)%Q /\
  (falsePositiveRate analyze_sample_urls < 1 # 2)%Q.
Proof.
  unfold known_phishing_urls, known_legitimate_urls. cbn [map].
  rewrite sample_paypa1, sample_wellsfargo_net, sample_appleid, sample_ip,
    sample_amazon_security, sample_facebook_xyz, sample_paypal, sample_amazon,
    sample_google, sample_microsoft, sample_apple, sample_wellsfargo.
  repeat split.
Qed.

End SampleUrls.

(** ** The extractor: obfuscated scripts *)

Section Obfuscated.
Import FeatureExtractor Obfuscation.

Lemma qmin_tenths (k : Z) :
  (0 <= k)%Z ->
  qmin (inject_Z k / 10.0) 1.0 == inject_Z (Z.min k 10) / 10.0.
Proof.
  intros Hk. unfold qmin.
  destruct (Qlt_le_dec 1.0 (inject_Z k / 10.0)) as [H | H].
  - assert (Hlt : (10 < k)%Z) by (unfold Qlt in H; cbn in H; lia).
    rewrite Z.min_r by lia. reflexivity.
  - assert (Hle : (k <= 10)%Z) by (unfold Qle in H; cbn in H; lia).
    rewrite Z.min_l by lia. reflexivity.
Qed.

Lemma indicators_nonneg (s : string) (ps : list ((string -> bool) * Z)) (init : Z) :
  Forall (fun pw => 0 <= snd pw)%Z ps ->
  (init <=
   fold_left
     (fun indicators (pw : (string -> bool) * Z) =>
        if fst pw s then (indicators + snd pw)%Z else indicators)
     ps init)%Z.
Proof.
  intros H. revert init. induction H as [|pw ps Hpw _ IH]; intro init; cbn [fold_left]; [lia|].
  destruct (fst pw s); [|apply IH].
  etransitivity; [|apply IH]. lia.
Qed.

Lemma weights_nonneg : Forall (fun pw => 0 <= snd pw)%Z obfuscation_patterns.
Proof. unfold obfuscation_patterns. repeat constructor; cbn; lia. Qed.

(** X24. [_check_for_obfuscation] answers in tenths: its value is [k / 10]
    for a whole number [k] from 0 to 10, and it is 0 for an empty script. *)
Theorem check_for_obfuscation_tenths (script_content : string) :
  (exists k : Z, (0 <= k <= 10)%Z /\
                 _check_for_obfuscation script_content == inject_Z k / 10.0) /\
  _check_for_obfuscation "" == 0.
Proof.
  split; [|reflexivity].
  unfold _check_for_obfuscation.
  destruct (String.eqb script_content "").
  - exists 0%Z. split; [lia | reflexivity].
  - cbv zeta.
    pose proof (indicators_nonneg script_content _ 0 weights_nonneg) as Hn.
    set (k := fold_left _ obfuscation_patterns 0%Z) in *.
    set (k' := if Py.rgtb _ _ then (k + 2)%Z else k).
    assert (Hk' : (0 <= k')%Z) by (subst k'; destruct (Py.rgtb _ _); lia).
    exists (Z.min k' 10). split; [lia|]. now apply qmin_tenths.
Qed.

(** *** What a pattern has to read *)

Lemma advances_char (p : ascii -> bool) : advances (m_char p).
Proof.
  intros [|c s] r; cbn; [tauto|]. destruct (p c); cbn; [|tauto].
  intros [<- | []] x Hx. now right.
Qed.

Lemma advances_seq (a b : matcher) : advances a -> advances b -> advances (m_seq a b).
Proof.
  intros Ha Hb s r Hr. unfold m_seq in Hr. apply in_flat_map in Hr.
  destruct Hr as [t [Ht Hr]]. intros x Hx. eapply Ha; eauto. eapply Hb; eauto.
Qed.

Lemma advances_id : advances (fun s => [s]).
Proof. intros s r [<- | []] x Hx. exact Hx. Qed.

Lemma advances_times (a : matcher) (n : nat) : advances a -> advances (m_times a n).
Proof.
  intros Ha. induction n as [|n IH]; intros s r Hr; cbn in Hr.
  - now apply advances_id in Hr.
  - apply in_flat_map in Hr. destruct Hr as [t [Ht Hr]].
    intros x Hx. eapply Ha; eauto. eapply IH; eauto.
Qed.

Lemma advances_star (a : matcher) (n : nat) : advances a -> advances (m_star a n).
Proof.
  intros Ha. induction n as [|n IH]; intros s r Hr; cbn in Hr.
  - now apply advances_id in Hr.
  - apply in_app_or in Hr. destruct Hr as [Hr | Hr]; [|now apply advances_id in Hr].
    apply in_flat_map in Hr. destruct Hr as [t [Ht Hr]].
    intros x Hx. eapply Ha; eauto. eapply IH; eauto.
Qed.

Lemma advances_spaces : advances m_spaces.
Proof. intros s r Hr. eapply advances_star; [apply advances_char | exact Hr]. Qed.

Lemma reads_char (c : ascii) (p : ascii -> bool) :
  (forall x, p x = true -> x = c) -> reads c (m_char p).
Proof.
  intros Hp [|x s] r; cbn; [tauto|]. destruct (p x) eqn:E; cbn; [|tauto].
  intros _. left. now apply Hp.
Qed.

Lemma reads_seq_l (c : ascii) (a b : matcher) : reads c a -> reads c (m_seq a b).
Proof.
  intros Ha s r Hr. unfold m_seq in Hr. apply in_flat_map in Hr.
  destruct Hr as [t [Ht _]]. eapply Ha; eauto.
Qed.

Lemma reads_seq_r (c : ascii) (a b : matcher) :
  advances a -> reads c b -> reads c (m_seq a b).
Proof.
  intros Ha Hb s r Hr. unfold m_seq in Hr. apply in_flat_map in Hr.
  destruct Hr as [t [Ht Hr]]. eapply Ha; eauto.
Qed.

Lemma anywhere_reads (c : ascii) (m : matcher) (s : string) :
  reads c m -> anywhere m s = true -> In c (list_ascii_of_string s).
Proof.
  intros Hm. unfold anywhere. induction s as [|x s IH]; cbn [search]; intro H.
  - rewrite orb_false_r in H. apply existsb_exists in H.
    destruct H as [r [Hr _]]. eapply Hm; eauto.
  - apply orb_true_iff in H. destruct H as [H | H].
    + apply existsb_exists in H. destruct H as [r [Hr _]]. eapply Hm; eauto.
    + right. now apply IH.
Qed.

(** A character that is no letter is matched, case ignored, by itself alone. *)
Lemma ci_only (c x : ascii) :
  Py.is_alpha c = false ->
  Ascii.eqb (Py.lower_char x) (Py.lower_char c) = true -> x = c.
Proof.
  intros Hc H. apply Ascii.eqb_eq in H.
  assert (Hlc : Py.lower_char c = c).
  { unfold Py.lower_char. unfold Py.is_alpha in Hc.
    apply orb_false_iff in Hc. now rewrite (proj1 Hc). }
  rewrite Hlc in H. unfold Py.lower_char in H.
  destruct (Py.is_upper x) eqn:Ex; trivial.
  exfalso. subst c. revert Hc Ex.
  destruct x as [[] [] [] [] [] [] [] []]; vm_compute; congruence.
Qed.

Ltac settle_advances :=
  repeat first
    [ apply advances_seq | apply advances_char | apply advances_id
    | apply advances_spaces | apply advances_times ].

Ltac find_read :=
  first
    [ apply reads_char; intro; apply ci_only; reflexivity
    | apply reads_seq_l; find_read
    | apply reads_seq_r; [ solve [settle_advances] | find_read ] ].

Ltac no_hit_by c H :=
  match goal with
  | |- context [anywhere ?m ?s] =>
      let E := fresh "E" in
      destruct (anywhere m s) eqn:E;
      [ exfalso; apply (H c);
        [ cbn; tauto | apply (anywhere_reads c m s); [ find_read | exact E ] ] | ]
  end.

Ltac no_hit H :=
  first [ no_hit_by "("%char H | no_hit_by "["%char H | no_hit_by (ascii_of_nat 92) H ].

Lemma times_length (p : ascii -> bool) (n : nat) (s r : string) :
  In r (m_times (m_char p) n s) -> (n <= Py.len s)%nat.
Proof.
  revert s. induction n as [|n IH]; intros s Hr; [lia|].
  cbn [m_times] in Hr. apply in_flat_map in Hr. destruct Hr as [t [Ht Hr]].
  destruct s as [|x s]; cbn in Ht; [tauto|].
  destruct (p x); cbn in Ht; [|tauto]. destruct Ht as [<- | []].
  apply IH in Hr. unfold Py.len in *. cbn [String.length]. lia.
Qed.

Lemma log2_twenty_two : (log2 22 < 4.5)%R.
Proof.
  unfold log2. pose proof ln2_pos as Hl2.
  apply Rmult_lt_reg_r with (ln 2); trivial.
  unfold Rdiv. rewrite Rmult_assoc, Rinv_l by lra.
  assert (H : (ln (22 ^ 2) < ln (2 ^ 9))%R) by (apply ln_increasing; lra).
  rewrite !ln_pow in H by lra. cbn [INR] in H. lra.
Qed.

Lemma short_entropy (text : string) :
  (Py.len text <= 22)%nat -> Py.rgtb (_calculate_entropy text) 4.5 = false.
Proof.
  intros Hlen. apply rgtb_false.
  destruct text as [|c s]; [cbn; lra|].
  destruct (entropy_log_length (String c s)) as [_ H]; [discriminate|].
  eapply Rle_trans; [exact H|]. left.
  eapply Rle_lt_trans; [|exact log2_twenty_two].
  apply log2_increasing.
  - apply lt_0_INR. unfold Py.len. cbn. lia.
  - replace 22%R with (INR 22) by (rewrite INR_IZR_INZ; reflexivity).
    now apply le_INR.
Qed.

(** The characters that the patterns other than the Base64 one have to read. *)
Lemma other_patterns_silent (script : string) :
  (forall c, In c (list_ascii_of_string ("([" ++ BACKSLASH)) ->
             ~ In c (list_ascii_of_string script)) ->
  fold_left
    (fun indicators (pw : (string -> bool) * Z) =>
       if fst pw script then (indicators + snd pw)%Z else indicators)
    obfuscation_patterns 0%Z
  = if fst (nth 5 obfuscation_patterns (fun _ => false, 0%Z)) script then 3%Z else 0%Z.
Proof.
  intros H. unfold obfuscation_patterns.
  cbn [fold_left fst snd nth m_all m_ci BACKSLASH append].
  do 7 no_hit H.
  reflexivity.
Qed.

Lemma base64_length (script : string) :
  fst (nth 5 obfuscation_patterns (fun _ => false, 0%Z)) script = true ->
  (100 <= Py.len script)%nat.
Proof.
  cbn [nth obfuscation_patterns fst m_all]. intro H.
  apply existsb_exists in H. destruct H as [r [Hr _]].
  unfold m_seq in Hr at 1. apply in_flat_map in Hr. destruct Hr as [t [Ht _]].
  now apply times_length in Ht.
Qed.

(** X25. A script without any of the characters [(], [[] and backslash can
    match the Base64 pattern only, so that its value is 0, 0.2, 0.3 or 0.5;
    below 100 characters it is 0 or 0.2, and up to 22 characters it is 0. *)
Theorem obfuscation_needs_marks (script : string) :
  (forall c, In c (list_ascii_of_string ("([" ++ BACKSLASH)) ->
             ~ In c (list_ascii_of_string script)) ->
  (_check_for_obfuscation script == 0 \/ _check_for_obfuscation script == 0.2 \/
   _check_for_obfuscation script == 0.3 \/ _check_for_obfuscation script == 0.5) /\
  ((Py.len script < 100)%nat ->
   _check_for_obfuscation script == 0 \/ _check_for_obfuscation script == 0.2) /\
  ((Py.len script <= 22)%nat -> _check_for_obfuscation script == 0).
Proof.
  intros H. unfold _check_for_obfuscation.
  destruct (String.eqb script "");
    [split; [left; reflexivity | split; intros _; [left|]; reflexivity]|].
  cbv zeta. rewrite (other_patterns_silent script H).
  pose proof (base64_length script) as Hb. pose proof (short_entropy script) as He.
  destruct (fst _ script); destruct (Py.rgtb _ _).
  - split; [right; right; right; reflexivity|].
    split; intro Hlen; specialize (Hb eq_refl); lia.
  - split; [right; right; left; reflexivity|].
    split; intro Hlen; specialize (Hb eq_refl); lia.
  - split; [right; left; reflexivity|].
    split; intro Hlen; [right; reflexivity|].
    specialize (He Hlen). discriminate.
  - split; [left; reflexivity|]. split; intros _; [left|]; reflexivity.
Qed.

Lemma obfuscation_needs_marks_witness :
  _check_for_obfuscation "let x = a + b;" == 0.
Proof.
  apply (obfuscation_needs_marks "let x = a + b;").
  - intros c Hc Hs. cbn in Hc, Hs.
    repeat (destruct Hc as [<- | Hc]; [repeat (destruct Hs as [Hs | Hs]; [discriminate|]); contradiction|]).
    contradiction.
  - unfold Py.len. cbn. lia.
Defined.

End Obfuscated.
